(** * MCPP core: cache, placeholders, policy evaluation, consent, endpoints

    A shallow embedding of the TypeScript sources of [mcpp-core]
    (mcpp-placeholders, mcpp-cache, mcpp-consent, mcpp-validation,
    mcpp-endpoints, mcpp-data-utils), of the [/mcpp] endpoint of the
    servers, and the properties established about them.

    Conventions of the embedding.
    - A JavaScript value ([any] in the sources) is a term of the inductive
      type [any] below.  A number is an integer; it stands for the
      JavaScript number of that value, which is exact up to
      [Number.MAX_SAFE_INTEGER], and a statement that depends on the text
      of a number assumes [safe_integers].  A string is the sequence of its
      code units, each below 256.  An object is the list of its own
      enumerable properties in enumeration order (keys pairwise distinct);
      objects carry no own [toString] or [valueOf] property.
    - A [Map] and an object used as a dictionary are finite maps ([gmap])
      of their own entries.  The members that a plain object inherits from
      [Object.prototype] are followed in the module [Declared] and in the
      table conversion; the evaluator on strings leaves them out.
    - Requests carry the types of the TypeScript annotations.  The
      evaluator is embedded twice: on usage contexts whose destination is a
      string or absent, as [target.destination as string] reads it, and in
      the module [Declared] on the declared type [string | string[]].
      Members typed [any] that the handlers test for truthiness are values.
    - [Date.now()] and [Math.random()] are explicit arguments.
    - The similarity function of the [jaro-winkler] package is an argument
      of the reference finder: it is an external library.  [JSON.parse] is
      an argument of the table conversion, [None] standing for a thrown
      error, and so is the text of the members that an item inherits from
      its prototype chain; a function that can throw returns an option. *)

From Stdlib Require Import ZArith QArith String Ascii List Bool Lia DecimalString.
From Stdlib Require DecimalZ.
From Stdlib Require Import Sorted.
From stdpp Require Import gmap strings list.
Import ListNotations.

(** ** JavaScript values *)

#[warnings="-register-all"]
Inductive any : Type :=
| JUndefined
| JNull
| JBool (b : bool)
| JNum (n : Z)
| JStr (s : string)
| JArr (items : list any)
| JObj (fields : list (string * any)).

(** Induction over values that reaches the elements of arrays and the
    property values of objects. *)
Section any_induction.
Variable P : any -> Prop.
Hypothesis Hundef : P JUndefined.
Hypothesis Hnull : P JNull.
Hypothesis Hbool : forall b, P (JBool b).
Hypothesis Hnum : forall n, P (JNum n).
Hypothesis Hstr : forall s, P (JStr s).
Hypothesis Harr : forall items, Forall P items -> P (JArr items).
Hypothesis Hobj : forall fields, Forall (fun kv => P (snd kv)) fields -> P (JObj fields).

Fixpoint any_nested_ind (v : any) : P v :=
  match v with
  | JUndefined => Hundef
  | JNull => Hnull
  | JBool b => Hbool b
  | JNum n => Hnum n
  | JStr s => Hstr s
  | JArr items =>
      Harr items
        ((fix go (l : list any) : Forall P l :=
            match l with
            | [] => @List.Forall_nil _ P
            | x :: r => @List.Forall_cons _ P x r (any_nested_ind x) (go r)
            end) items)
  | JObj fields =>
      Hobj fields
        ((fix go (l : list (string * any)) : Forall (fun kv => P (snd kv)) l :=
            match l with
            | [] => @List.Forall_nil _ _
            | (k, x) :: r => @List.Forall_cons _ _ (k, x) r (any_nested_ind x) (go r)
            end) fields)
  end.
End any_induction.

(** [!v] is [negb (truthy v)]. *)
Definition truthy (v : any) : bool :=
  match v with
  | JUndefined | JNull => false
  | JBool b => b
  | JNum n => negb (n =? 0)%Z
  | JStr s => negb (String.eqb s "")
  | JArr _ | JObj _ => true
  end.

(** [a || b] on values. *)
Definition or_else (a b : any) : any := if truthy a then a else b.

Definition string_of_Z (n : Z) : string := NilZero.string_of_int (Z.to_int n).

(** [String(v)]. *)
Fixpoint toString (v : any) : string :=
  match v with
  | JUndefined => "undefined"
  | JNull => "null"
  | JBool true => "true"
  | JBool false => "false"
  | JNum n => string_of_Z n
  | JStr s => s
  | JArr items =>
      String.concat ","
        (map (fun x => match x with
                       | JUndefined | JNull => ""
                       | _ => toString x
                       end) items)
  | JObj _ => "[object Object]"
  end.

(** ** Strings *)

Definition char_code (c : ascii) : nat := nat_of_ascii c.

Definition in_range (lo hi : nat) (c : ascii) : bool :=
  (lo <=? char_code c)%nat && (char_code c <=? hi)%nat.

(** The character class [[0-9]]. *)
Definition is_digit (c : ascii) : bool := in_range 48 57 c.

(** The character class [[a-zA-Z0-9_\-]]. *)
Definition is_id_char (c : ascii) : bool :=
  in_range 97 122 c || in_range 65 90 c || in_range 48 57 c
  || Ascii.eqb c "_" || Ascii.eqb c "-".

(** The longest prefix whose characters satisfy [p], and what follows it. *)
Fixpoint span (p : ascii -> bool) (s : string) : string * string :=
  match s with
  | EmptyString => ("", "")
  | String c r =>
      if p c then let (a, b) := span p r in (String c a, b)
      else ("", s)
  end.

(** [s.split(sep)] for a one-character separator. *)
Fixpoint split (sep : ascii) (s : string) : list string :=
  match s with
  | EmptyString => [""]
  | String c r =>
      if Ascii.eqb c sep then "" :: split sep r
      else match split sep r with
           | [] => [String c ""]
           | p :: ps => String c p :: ps
           end
  end.

Definition digit_value (c : ascii) : Z := Z.of_nat (char_code c - 48).

(** The number written by a string of decimal digits. *)
Definition digits_value (ds : string) : Z :=
  fold_left (fun acc c => (10 * acc + digit_value c)%Z) (list_ascii_of_string ds) 0%Z.

Definition is_white_space (c : ascii) : bool :=
  in_range 9 13 c || Ascii.eqb c " ".

(** [parseInt(s, 10)]; [None] is [NaN]. *)
Definition parseInt (s : string) : option Z :=
  let s1 := snd (span is_white_space s) in
  let '(sign, s2) :=
    match s1 with
    | String "-" r => ((-1)%Z, r)
    | String "+" r => (1%Z, r)
    | _ => (1%Z, s1)
    end in
  let ds := fst (span is_digit s2) in
  if String.eqb ds "" then None else Some (sign * digits_value ds)%Z.

(** [l.indexOf(x)], [-1] when [x] does not occur. *)
Fixpoint indexOf (l : list string) (x : string) : Z :=
  match l with
  | [] => (-1)%Z
  | y :: r =>
      if String.eqb y x then 0%Z
      else let i := indexOf r x in
           if (i =? -1)%Z then (-1)%Z else (i + 1)%Z
  end.

(** [l[i]] for a number [i]; [None] is [undefined]. *)
Definition at_index {A} (l : list A) (i : Z) : option A :=
  if (i <? 0)%Z then None else l !! Z.to_nat i.

(** [l.includes(x)] on strings. *)
Definition includes (l : list string) (x : string) : bool :=
  existsb (String.eqb x) l.

(** ** Placeholder grammar

    [PLACEHOLDER_REGEX] is
    [/\{([a-zA-Z0-9_\-]+\.[0-9]+\.[a-zA-Z0-9_\-]+)\}/g] and
    [SINGLE_PLACEHOLDER_REGEX] is the same pattern between [^] and [$].
    No character class of the pattern contains the character that follows
    it, so a greedy repetition never gives characters back: the pattern is
    matched by taking longest runs. *)

(** Matches [[a-zA-Z0-9_\-]+\.[0-9]+\.[a-zA-Z0-9_\-]+] at the start of [s];
    returns the captured group and the rest. *)
Definition match_group (s : string) : option (string * string) :=
  let (id, r1) := span is_id_char s in
  if String.eqb id "" then None else
  match r1 with
  | String "." r2 =>
      let (row, r3) := span is_digit r2 in
      if String.eqb row "" then None else
      match r3 with
      | String "." r4 =>
          let (col, r5) := span is_id_char r4 in
          if String.eqb col "" then None
          else Some (id +:+ "." +:+ row +:+ "." +:+ col, r5)
      | _ => None
      end
  | _ => None
  end.

(** Matches [\{(...)\}] at the start of [s]. *)
Definition match_placeholder (s : string) : option (string * string) :=
  match s with
  | String "{" r =>
      match match_group r with
      | Some (group, String "}" rest) => Some (group, rest)
      | _ => None
      end
  | _ => None
  end.

(** [s.match(SINGLE_PLACEHOLDER_REGEX)]: the captured group when the whole
    of [s] is one placeholder. *)
Definition match_single (s : string) : option string :=
  match match_placeholder s with
  | Some (group, EmptyString) => Some group
  | _ => None
  end.

(** The text of a match, [match[0]], from its group [match[1]]. *)
Definition braces (group : string) : string := "{" +:+ group +:+ "}".

(** A string cut at the matches of the global regex: the characters outside
    the matches, and the matches (by their captured group). *)
Inductive piece : Type :=
| Text (c : ascii)
| Match (group : string).

(** The left-to-right scan of a global regex: a match is looked for at the
    current position; after a match the scan resumes behind its closing
    brace ([skip] counts the characters of the match still to pass). *)
Fixpoint scan_from (skip : nat) (s : string) : list piece :=
  match s with
  | EmptyString => []
  | String c r =>
      match skip with
      | S k => scan_from k r
      | O =>
          match match_placeholder s with
          | Some (group, _) => Match group :: scan_from (String.length group + 1) r
          | None => Text c :: scan_from 0 r
          end
      end
  end.

Definition scan (s : string) : list piece := scan_from 0 s.

Definition piece_text (p : piece) : string :=
  match p with
  | Text c => String c ""
  | Match group => braces group
  end.

(** [s.replace(PLACEHOLDER_REGEX, callback)]: every match is replaced by
    [callback(match, group)], the text between matches is kept. *)
Definition replace_callback (callback : string -> string -> string) (s : string) : string :=
  String.concat ""
    (map (fun p => match p with
                   | Text c => String c ""
                   | Match group => callback (braces group) group
                   end) (scan s)).

(** ** Data cache (mcpp-cache, mcpp-types) *)

(** A cached entry: [{ type: 'table', payload: { headers, rows } }], or an
    entry of another kind. *)
Inductive CachedData : Type :=
| TableData (headers : list string) (rows : list (list any))
| TextData (payload : string)
| JsonData (payload : any).

(** [dataCache], a [Map<string, any>]. *)
Abbreviation DataCache := (gmap string CachedData).

(** ** Placeholder resolution (mcpp-placeholders) *)

Record McppResolutionResult : Type := {
  success : bool;
  value : any
}.

Definition unresolved : McppResolutionResult := {| success := false; value := JNull |}.

Definition resolveSinglePlaceholder (placeholder : string) (cache : DataCache)
  : McppResolutionResult :=
  match split "." placeholder with
  | [toolCallId; rowIndexStr; columnName] =>
      match parseInt rowIndexStr with
      | None => unresolved
      | Some rowIndex =>
          match cache !! toolCallId with
          | Some (TableData headers rows) =>
              let columnIndex := indexOf headers columnName in
              match (columnIndex =? -1)%Z, at_index rows rowIndex with
              | false, Some row =>
                  {| success := true;
                     value := default JUndefined (at_index row columnIndex) |}
              | _, _ => unresolved
              end
          | _ => unresolved
          end
      end
  | _ => unresolved
  end.

(** [resolved[key] = v] for every entry, on a fresh object literal: the key
    [__proto__] reaches the prototype setter and leaves no own property. *)
Definition assigned (entries : list (string * any)) : list (string * any) :=
  List.filter (fun kv => negb (String.eqb (fst kv) "__proto__")) entries.

(** The callback of the global replacement in [resolveInObject]. *)
Definition resolve_match (cache : DataCache) (matched placeholder : string) : string :=
  let result := resolveSinglePlaceholder placeholder cache in
  if success result then toString (value result) else matched.

Definition resolveString (cache : DataCache) (s : string) : any :=
  match match_single s with
  | Some placeholder =>
      let result := resolveSinglePlaceholder placeholder cache in
      if success result then value result else JStr s
  | None => JStr (replace_callback (resolve_match cache) s)
  end.

Fixpoint resolveInObject (cache : DataCache) (obj : any) : any :=
  match obj with
  | JStr s => resolveString cache s
  | JArr items => JArr (map (resolveInObject cache) items)
  | JObj fields =>
      JObj (assigned (map (fun kv => match kv with
                                     | (key, v) => (key, resolveInObject cache v)
                                     end) fields))
  | _ => obj
  end.

Definition resolveArgumentPlaceholders (args : any) (cache : DataCache) : any :=
  resolveInObject cache args.

(** The table of the scenarios: headers [ID], [Age] and one row. *)
Definition t1 : DataCache :=
  {[ "t1" := TableData ["ID"; "Age"] [[JStr "1"; JNum 42]] ]}.

(** ** Types (mcpp-types) *)

Inductive DataUsage : Type := Display | Process | Store | Transfer.

Inductive Permission : Type := Allow | Deny | Prompt.

Inductive TargetType : Type := Client | Server | Servers | Llm | All.

(** [string[] | 'all' | 'none']. *)
Inductive TargetList : Type :=
| Targets (l : list string)
| AllTargets
| NoTargets.

Inductive ConsentDecision : Type := DecisionAllow | DecisionDeny.

Inductive Category : Type := Internal | Partner | External | Public.

Inductive TrustLevel : Type := High | Medium | Low.

Inductive DataRetention : Type := RetentionNone | RetentionTemporary | RetentionPermanent.

#[global] Instance DataUsage_eq_dec : EqDecision DataUsage.
Proof. solve_decision. Defined.

#[global] Instance Permission_eq_dec : EqDecision Permission.
Proof. solve_decision. Defined.

#[global] Instance TargetType_eq_dec : EqDecision TargetType.
Proof. solve_decision. Defined.

#[global] Instance ConsentDecision_eq_dec : EqDecision ConsentDecision.
Proof. solve_decision. Defined.

#[global] Instance Category_eq_dec : EqDecision Category.
Proof. solve_decision. Defined.

#[global] Instance DataRetention_eq_dec : EqDecision DataRetention.
Proof. solve_decision. Defined.

Definition DataUsage_name (u : DataUsage) : string :=
  match u with
  | Display => "display"
  | Process => "process"
  | Store => "store"
  | Transfer => "transfer"
  end.

Definition TargetType_name (t : TargetType) : string :=
  match t with
  | Client => "client"
  | Server => "server"
  | Servers => "servers"
  | Llm => "llm"
  | All => "all"
  end.

(** [target_permissions] of a tool policy; an absent field is [None]. *)
Record TargetPermissions : Type := {
  allowed_targets : option TargetList;
  blocked_targets : option (list string);
  allowed_clients : option TargetList;
  allowed_servers : option TargetList;
  blocked_servers : option (list string)
}.

(** [consent_overrides]; an absent flag is [false]. *)
Record ConsentOverrides : Type := {
  always_require_consent : bool;
  never_require_consent : bool;
  custom_consent_message : option string;
  allowed_without_consent : option (list string)
}.

(** [dataPolicy]; [data_usage_permissions] is indexed by the usage level. *)
Record DataPolicy : Type := {
  data_usage_permissions : option (DataUsage -> option Permission);
  target_permissions : option TargetPermissions;
  consent_overrides : option ConsentOverrides
}.

Record Tool : Type := {
  name : string;
  isSensitive : bool;
  dataPolicy : option DataPolicy
}.

Record Requester : Type := {
  host_id : string;
  session_id : option string;
  timestamp : Z
}.

(** The target of a usage context.  The evaluator reads the destination
    through [target.destination as string]: here it is a string or absent;
    the module [Declared] below takes the declared [string | string[]].
    The fields [purpose] and [llm_metadata] are never read. *)
Record Target : Type := {
  type : TargetType;
  destination : option string
}.

Record McppUsageContext : Type := {
  data_usage : DataUsage;
  requester : Requester;
  target : Target
}.

Record TargetPolicy : Type := {
  policy_client : Permission;
  policy_server : TargetList;
  policy_servers : TargetList;
  policy_llm : Permission;
  policy_all : Permission
}.

Record RequireConsentFor : Type := {
  sensitive_data_transfer : bool;
  external_server_transfer : bool;
  cross_domain_transfer : bool;
  llm_data_access : bool;
  any_transfer : bool
}.

Record UserConsentSettings : Type := {
  require_consent_for : RequireConsentFor;
  consent_timeout_seconds : Z;
  default_on_timeout : ConsentDecision;
  cache_consent_duration_minutes : Z;
  trusted_targets : list string;
  trusted_domains : list string;
  show_data_preview : bool;
  show_destination_info : bool;
  allow_remember_choice : bool
}.

Record TargetInfo : Type := {
  info_type : string;
  category : Category;
  trust_level : TrustLevel;
  requires_consent : bool;
  data_retention : option DataRetention;
  description : option string
}.

Record GlobalPolicies : Type := {
  default_data_usage_policy : DataUsage -> Permission;
  default_target_policy : TargetPolicy;
  user_consent_settings : UserConsentSettings;
  target_categories : gmap string TargetInfo
}.

Record McppServerConfig : Type := {
  global_policies : GlobalPolicies
}.

Record ConsentCheckResult : Type := {
  consent_required : bool;
  reason : list string;
  consent_cache_key : option string;
  trusted_server : bool;
  custom_message : option string
}.

Record DataSummary : Type := {
  placeholder_count : nat;
  data_types : list string;
  sensitive_fields : list string
}.

Record TransferDetails : Type := {
  destination_server : option string;
  destination_description : option string;
  transfer_data_usage : DataUsage;
  transfer_trust_level : TrustLevel
}.

Record ConsentOptions : Type := {
  allow_remember : bool;
  timeout_seconds : Z;
  option_show_data_preview : bool
}.

Record ConsentRequest : Type := {
  request_id : string;
  tool_name : string;
  data_summary : DataSummary;
  transfer_details : TransferDetails;
  options : ConsentOptions;
  request_custom_message : option string
}.

(** ** Error codes *)

(** Modelled from the spec: the table of error codes of the module
    [mcpp-errors], which the sources import as [MCPP_ERRORS] and which is
    not among them; the values are those of the table of error codes. *)
Module MCPP_ERRORS.
Definition INVALID_PARAMS : Z := (-32602)%Z.
Definition METHOD_NOT_FOUND : Z := (-32601)%Z.
Definition INTERNAL_ERROR : Z := (-32603)%Z.
Definition CACHE_MISS : Z := (-32001)%Z.
Definition REFERENCE_NOT_FOUND : Z := (-32002)%Z.
Definition RESOLUTION_FAILED : Z := (-32003)%Z.
Definition DATA_NOT_FOUND : Z := (-32004)%Z.
Definition INSUFFICIENT_PERMISSIONS : Z := (-32005)%Z.
Definition INVALID_DATA_USAGE : Z := (-32006)%Z.
Definition CONSENT_REQUIRED : Z := (-32007)%Z.
Definition CONSENT_DENIED : Z := (-32008)%Z.
Definition CONSENT_TIMEOUT : Z := (-32009)%Z.
Definition INVALID_TARGET : Z := (-32010)%Z.
End MCPP_ERRORS.

(** ** Policy evaluation (mcpp-validation) *)

Definition DataUsage_level (u : DataUsage) : nat :=
  match u with
  | Display => 0
  | Process => 1
  | Store => 2
  | Transfer => 3
  end.

(** Hierarchy: display < process < store < transfer. *)
Definition validateDataUsage (required granted : DataUsage) : bool :=
  (DataUsage_level required <=? DataUsage_level granted)%nat.

(** The optional chains [tool?.dataPolicy?.f]. *)
Definition tool_data_usage_permissions (tool : option Tool) : option (DataUsage -> option Permission) :=
  (tool ≫= dataPolicy) ≫= data_usage_permissions.

Definition tool_target_permissions (tool : option Tool) : option TargetPermissions :=
  (tool ≫= dataPolicy) ≫= target_permissions.

Definition tool_consent_overrides (tool : option Tool) : option ConsentOverrides :=
  (tool ≫= dataPolicy) ≫= consent_overrides.

Definition getEffectiveDataUsagePermission
    (tool : option Tool) (dataUsage : DataUsage) (serverConfig : McppServerConfig)
  : Permission :=
  match tool_data_usage_permissions tool ≫= (fun perms => perms dataUsage) with
  | Some permission => permission
  | None => default_data_usage_policy (global_policies serverConfig) dataUsage
  end.

Record TargetValidation : Type := {
  target_allowed : bool;
  target_reason : string
}.

(** An allow-list check: [None] when it passes, the reason when it denies. *)
Definition check_allowed (allowed : option TargetList) (destination not_in_list none : string)
  : option string :=
  match allowed with
  | Some (Targets l) => if includes l destination then None else Some not_in_list
  | Some NoTargets => Some none
  | Some AllTargets | None => None
  end.

Definition check_blocked (blocked : option (list string)) (destination blocked_reason : string)
  : option string :=
  match blocked with
  | Some l => if includes l destination then Some blocked_reason else None
  | None => None
  end.

(** The first check that returns, in the order of the source. *)
Fixpoint first_denial (checks : list (option string)) : option string :=
  match checks with
  | [] => None
  | Some r :: _ => Some r
  | None :: rest => first_denial rest
  end.

(** The checks of the tool policy; they run when the tool has target
    permissions and the destination is a non-empty string. *)
Definition tool_target_checks (policy : TargetPermissions) (t : TargetType) (destination : string)
  : list (option string) :=
  [ check_blocked (blocked_targets policy) destination (TargetType_name t +:+ "_blocked_by_tool");
    check_allowed (allowed_targets policy) destination
      (TargetType_name t +:+ "_not_in_allowlist") "no_targets_allowed" ]
  ++ match t with
     | Server =>
         [ check_blocked (blocked_servers policy) destination "server_blocked_by_tool";
           check_allowed (allowed_servers policy) destination
             "server_not_in_allowlist" "no_servers_allowed" ]
     | Client =>
         [ check_allowed (allowed_clients policy) destination
             "client_not_in_allowlist" "no_clients_allowed" ]
     | _ => []
     end.

(** The checks of the global target policy. *)
Definition global_target_checks (policy : TargetPolicy) (t : TargetType)
    (destination : option string) : list (option string) :=
  match t with
  | Server =>
      [ match policy_server policy, destination with
        | Targets l, Some d =>
            if includes l d then None else Some "server_not_in_global_allowlist"
        | NoTargets, _ => Some "no_servers_allowed_globally"
        | _, _ => None
        end ]
  | Llm =>
      [ match policy_llm policy with
        | Deny => Some "llms_denied_globally"
        | _ => None
        end ]
  | _ => []
  end.

Definition validateTargetPermissions
    (tool : option Tool) (usageContext : McppUsageContext) (serverConfig : McppServerConfig)
  : TargetValidation :=
  let target := target usageContext in
  let tool_checks :=
    match tool_target_permissions tool, destination target with
    | Some policy, Some (String c d) => tool_target_checks policy (type target) (String c d)
    | _, _ => []
    end in
  let globalPolicy := default_target_policy (global_policies serverConfig) in
  match first_denial (tool_checks ++ global_target_checks globalPolicy (type target) (destination target)) with
  | Some r => {| target_allowed := false; target_reason := r |}
  | None => {| target_allowed := true; target_reason := "validation_passed" |}
  end.

(** [s.startsWith(p)], [s.endsWith(p)], [s.substring(n)], [s.includes(p)]. *)
Definition startsWith (s p : string) : bool := String.prefix p s.

Definition substring_from (n : nat) (s : string) : string :=
  String.substring n (String.length s - n) s.

Definition endsWith (s p : string) : bool :=
  (String.length p <=? String.length s)%nat
  && String.eqb (substring_from (String.length s - String.length p) s) p.

Fixpoint contains (s p : string) : bool :=
  String.prefix p s
  || match s with
     | EmptyString => false
     | String _ r => contains r p
     end.

(** [s.toLowerCase()].  Among the code units below 256 the upper-case
    letters are [A] to [Z] (65 to 90) and the letters from 192 to 222 other
    than the multiplication sign (215); the lower-case letter of each is 32
    further. *)
Definition is_upper (c : ascii) : bool :=
  in_range 65 90 c || in_range 192 222 c && negb (char_code c =? 215)%nat.

Definition lower_char (c : ascii) : ascii :=
  if is_upper c then ascii_of_nat (char_code c + 32) else c.

Fixpoint toLowerCase (s : string) : string :=
  match s with
  | EmptyString => EmptyString
  | String c r => String (lower_char c) (toLowerCase r)
  end.

Definition trusted_domain_matches (destination domain : string) : bool :=
  if startsWith domain "*." then endsWith destination (substring_from 2 domain)
  else String.eqb destination domain.

Definition no_consent (why : string) : ConsentCheckResult :=
  {| consent_required := false; reason := [why]; consent_cache_key := None;
     trusted_server := true; custom_message := None |}.

(** [a || b] for an optional string and a string. *)
Definition string_or (a : option string) (b : string) : string :=
  match a with
  | Some (String c r) => String c r
  | _ => b
  end.

(** The triggers of [require_consent_for], in the order they are pushed. *)
Definition consent_reasons
    (tool : option Tool) (data_usage : DataUsage) (t : TargetType)
    (settings : RequireConsentFor) (targetInfo : option TargetInfo) : list string :=
  (if any_transfer settings && bool_decide (data_usage = Transfer)
   then ["any_transfer_policy"] else [])
  ++ (if sensitive_data_transfer settings && default false (isSensitive <$> tool)
      then ["sensitive_data_transfer"] else [])
  ++ match t with
     | Llm =>
         (if llm_data_access settings then ["llm_data_access_policy"] else [])
         ++ (if bool_decide (targetInfo ≫= data_retention = Some RetentionPermanent)
             then ["llm_permanent_retention"] else [])
     | Server =>
         if external_server_transfer settings
            && bool_decide (category <$> targetInfo = Some External)
         then ["external_server_transfer"] else []
     | _ => []
     end.

Definition checkConsentRequired
    (tool : option Tool) (usageContext : McppUsageContext) (serverConfig : McppServerConfig)
  : ConsentCheckResult :=
  let target := target usageContext in
  let data_usage := data_usage usageContext in
  let settings := user_consent_settings (global_policies serverConfig) in
  let target_categories := target_categories (global_policies serverConfig) in
  let overrides := tool_consent_overrides tool in
  if bool_decide (data_usage = Display) && bool_decide (type target = Client)
  then no_consent "display_to_client"
  else if default false (never_require_consent <$> overrides)
  then no_consent "tool_override_never"
  else if default false (always_require_consent <$> overrides)
  then {| consent_required := true; reason := ["tool_override_always"];
          consent_cache_key := None; trusted_server := false;
          custom_message := overrides ≫= custom_consent_message |}
  else
    match destination target with
    | Some (String c d) =>
        let destination := String c d in
        if default false ((fun l => includes l destination)
                            <$> (overrides ≫= allowed_without_consent))
        then no_consent "tool_allowed_list"
        else if includes (trusted_targets settings) destination
        then no_consent "trusted_target"
        else if existsb (trusted_domain_matches destination) (trusted_domains settings)
        then no_consent "trusted_domain"
        else
          let targetInfo := target_categories !! destination in
          if default false ((fun info => negb (requires_consent info)) <$> targetInfo)
          then no_consent "category_exemption"
          else
            match consent_reasons tool data_usage (type target)
                    (require_consent_for settings) targetInfo with
            | [] => no_consent "no_consent_required"
            | reasons =>
                {| consent_required := true; reason := reasons;
                   consent_cache_key :=
                     Some (destination +:+ "_" +:+ DataUsage_name data_usage
                           +:+ "_" +:+ TargetType_name (type target));
                   trusted_server := false;
                   custom_message :=
                     Some (string_or (overrides ≫= custom_consent_message)
                             ("This operation will send data to "
                              +:+ TargetType_name (type target) +:+ " '" +:+ destination
                              +:+ "'. Do you want to proceed?")) |}
            end
    | _ => no_consent "no_consent_required"
    end.

(** ** Consent requests *)

Definition quote_char : ascii := ascii_of_nat 34.

Definition hex_digit (n : nat) : ascii :=
  ascii_of_nat (if (n <? 10)%nat then 48 + n else 87 + n).

(** The escape of one character inside a JSON string. *)
Definition JSON_escape (c : ascii) : string :=
  let n := char_code c in
  if (n =? 34)%nat then String "\" (String quote_char "")
  else if (n =? 92)%nat then "\\"
  else if (n =? 8)%nat then "\b"
  else if (n =? 12)%nat then "\f"
  else if (n =? 10)%nat then "\n"
  else if (n =? 13)%nat then "\r"
  else if (n =? 9)%nat then "\t"
  else if (n <? 32)%nat then "\u00" +:+ String (hex_digit (n / 16)) (String (hex_digit (n mod 16)) "")
  else String c "".

Definition JSON_quote (s : string) : string :=
  String quote_char
    (String.concat "" (map JSON_escape (list_ascii_of_string s)) +:+ String quote_char "").

(** [JSON.stringify(v)]; [None] is [undefined]. *)
Fixpoint JSON_stringify (v : any) : option string :=
  match v with
  | JUndefined => None
  | JNull => Some "null"
  | JBool true => Some "true"
  | JBool false => Some "false"
  | JNum n => Some (string_of_Z n)
  | JStr s => Some (JSON_quote s)
  | JArr items =>
      Some ("[" +:+ String.concat "," (map (fun x => default "null" (JSON_stringify x)) items)
            +:+ "]")
  | JObj fields =>
      Some ("{" +:+ String.concat ","
                      (flat_map (fun kv => match kv with
                                           | (key, x) =>
                                               match JSON_stringify x with
                                               | Some t => [JSON_quote key +:+ ":" +:+ t]
                                               | None => []
                                               end
                                           end) fields)
            +:+ "}")
  end.

(** [s.match(regex)] for a global regex given by its match at the start of
    a string (the matched text): all matches, left to right. *)
Fixpoint regex_matches_from (match_at : string -> option string) (skip : nat) (s : string)
  : list string :=
  match s with
  | EmptyString => []
  | String c r =>
      match skip with
      | S k => regex_matches_from match_at k r
      | O =>
          match match_at s with
          | Some m => m :: regex_matches_from match_at (String.length m - 1) r
          | None => regex_matches_from match_at 0 r
          end
      end
  end.

Definition regex_matches (match_at : string -> option string) (s : string) : list string :=
  regex_matches_from match_at 0 s.

Definition not_char (x : ascii) (c : ascii) : bool := negb (Ascii.eqb c x).

(** [/\{[^}]+\}/] at the start of [s]. *)
Definition match_braced (s : string) : option string :=
  match s with
  | String "{" r =>
      let (body, r1) := span (not_char "}") r in
      if String.eqb body "" then None else
      match r1 with
      | String "}" _ => Some ("{" +:+ body +:+ "}")
      | _ => None
      end
  | _ => None
  end.

(** [/\{[^.]+\.[^.]+\.([^}]+)\}/] at the start of [s]. *)
Definition match_dotted (s : string) : option string :=
  match s with
  | String "{" r =>
      let (a, r1) := span (not_char ".") r in
      if String.eqb a "" then None else
      match r1 with
      | String "." r2 =>
          let (b, r3) := span (not_char ".") r2 in
          if String.eqb b "" then None else
          match r3 with
          | String "." r4 =>
              let (c, r5) := span (not_char "}") r4 in
              if String.eqb c "" then None else
              match r5 with
              | String "}" _ => Some ("{" +:+ a +:+ "." +:+ b +:+ "." +:+ c +:+ "}")
              | _ => None
              end
          | _ => None
          end
      | _ => None
      end
  | _ => None
  end.

(** [[...new Set(l)]]: the first occurrences, in order. *)
Fixpoint unique_from (seen l : list string) : list string :=
  match l with
  | [] => []
  | x :: r => if includes seen x then unique_from seen r else x :: unique_from (x :: seen) r
  end.

(** [m.slice(1, -1)]. *)
Definition slice_1_m1 (m : string) : string :=
  String.substring 1 (String.length m - 2) m.

(** The third dot-separated part of a match, or ['unknown']. *)
Definition field_of_match (m : string) : string :=
  string_or (split "." (slice_1_m1 m) !! 2%nat) "unknown".

Definition is_sensitive_field (field : string) : bool :=
  let f := toLowerCase field in
  contains f "email" || contains f "phone" || contains f "ssn"
  || contains f "credit" || contains f "password".

Definition summarize (placeholderData : any) : DataSummary :=
  let placeholderCount :=
    match placeholderData with
    | JStr s => length (regex_matches match_braced s)
    | JNull | JArr _ | JObj _ =>
        length (regex_matches match_braced (default "" (JSON_stringify placeholderData)))
    | _ => 0%nat
    end in
  let dataTypes :=
    match placeholderData with
    | JStr s => unique_from [] (map field_of_match (regex_matches match_dotted s))
    | _ => []
    end in
  {| placeholder_count := placeholderCount;
     data_types := dataTypes;
     sensitive_fields := List.filter is_sensitive_field dataTypes |}.

(** [createConsentRequest]; [now] is [Date.now()] and [random36] is
    [Math.random().toString(36)]. *)
Definition createConsentRequest
    (now : Z) (random36 : string)
    (tool : option Tool) (usageContext : McppUsageContext) (serverConfig : McppServerConfig)
    (placeholderData : any) : ConsentRequest :=
  let requestId := "consent_" +:+ string_of_Z now +:+ "_" +:+ String.substring 2 9 random36 in
  let destination := destination (target usageContext) in
  let targetInfo :=
    target_categories (global_policies serverConfig) !! default "undefined" destination in
  let settings := user_consent_settings (global_policies serverConfig) in
  {| request_id := requestId;
     tool_name := string_or (name <$> tool) "unknown";
     data_summary := summarize placeholderData;
     transfer_details :=
       {| destination_server := destination;
          destination_description := targetInfo ≫= description;
          transfer_data_usage := data_usage usageContext;
          transfer_trust_level := default Low (trust_level <$> targetInfo) |};
     options :=
       {| allow_remember := allow_remember_choice settings;
          timeout_seconds := consent_timeout_seconds settings;
          option_show_data_preview := show_data_preview settings |};
     request_custom_message := tool_consent_overrides tool ≫= custom_consent_message |}.

Record ValidationDetails : Type := {
  data_usage_valid : bool;
  target_permissions_valid : bool;
  consent_check : ConsentCheckResult
}.

Record ValidationResult : Type := {
  allowed : bool;
  error_code : option Z;
  error_message : option string;
  consent_request : option ConsentRequest;
  validation_details : ValidationDetails
}.

Definition denied_check (why : string) : ConsentCheckResult :=
  {| consent_required := false; reason := [why]; consent_cache_key := None;
     trusted_server := false; custom_message := None |}.

(** Complete validation: usage permission, target permissions, consent,
    prompt. *)
Definition validateDataAccess
    (now : Z) (random36 : string)
    (tool : option Tool) (usageContext : McppUsageContext) (serverConfig : McppServerConfig)
    (placeholderData : any) : ValidationResult :=
  let effectivePermission :=
    getEffectiveDataUsagePermission tool (data_usage usageContext) serverConfig in
  if bool_decide (effectivePermission = Deny) then
    {| allowed := false;
       error_code := Some MCPP_ERRORS.INSUFFICIENT_PERMISSIONS;
       error_message :=
         Some ("Data usage '" +:+ DataUsage_name (data_usage usageContext)
               +:+ "' is not permitted for this tool");
       consent_request := None;
       validation_details :=
         {| data_usage_valid := false; target_permissions_valid := false;
            consent_check := denied_check "denied" |} |}
  else
    let targetValidation := validateTargetPermissions tool usageContext serverConfig in
    if negb (target_allowed targetValidation) then
      {| allowed := false;
         error_code := Some MCPP_ERRORS.INSUFFICIENT_PERMISSIONS;
         error_message := Some ("Target access denied: " +:+ target_reason targetValidation);
         consent_request := None;
         validation_details :=
           {| data_usage_valid := true; target_permissions_valid := false;
              consent_check := denied_check "target_denied" |} |}
    else
      let consentCheck := checkConsentRequired tool usageContext serverConfig in
      if consent_required consentCheck then
        {| allowed := false;
           error_code := Some MCPP_ERRORS.CONSENT_REQUIRED;
           error_message := Some "User consent required for data transfer";
           consent_request :=
             Some (createConsentRequest now random36 tool usageContext serverConfig placeholderData);
           validation_details :=
             {| data_usage_valid := true; target_permissions_valid := true;
                consent_check := consentCheck |} |}
      else if bool_decide (effectivePermission = Prompt) then
        {| allowed := false;
           error_code := Some MCPP_ERRORS.CONSENT_REQUIRED;
           error_message := Some "User confirmation required for this operation";
           consent_request :=
             Some (createConsentRequest now random36 tool usageContext serverConfig placeholderData);
           validation_details :=
             {| data_usage_valid := true; target_permissions_valid := true;
                consent_check :=
                  {| consent_required := true; reason := ["prompt_required"];
                     consent_cache_key := consent_cache_key consentCheck;
                     trusted_server := trusted_server consentCheck;
                     custom_message := custom_message consentCheck |} |} |}
      else
        {| allowed := true;
           error_code := None;
           error_message := None;
           consent_request := None;
           validation_details :=
             {| data_usage_valid := true; target_permissions_valid := true;
                consent_check := consentCheck |} |}.

(** ** Consent cache (mcpp-consent) *)

Record ConsentCacheEntry : Type := {
  decision : ConsentDecision;
  entry_timestamp : Z;
  duration_minutes : Z;
  requester_host_id : string;
  entry_destination : string;
  entry_data_usage : string
}.

(** How a pending request was settled: [resolve(decision)] or
    [reject('timeout')]. *)
Inductive Settlement : Type :=
| Resolved (d : ConsentDecision)
| Rejected (why : string).

(** The state of a [ConsentCache] object: the two maps, and the settlements
    delivered so far to the awaiting callers (latest first).  A pending
    request is kept with the time at which its timer fires. *)
Record ConsentCache : Type := {
  cache : gmap string ConsentCacheEntry;
  pendingRequests : gmap string Z;
  settled : list (string * Settlement)
}.

Definition expiryTime (entry : ConsentCacheEntry) : Z :=
  (entry_timestamp entry + duration_minutes entry * 60 * 1000)%Z.

Definition expired (now : Z) (entry : ConsentCacheEntry) : bool :=
  (expiryTime entry <? now)%Z.

Definition cleanupExpiredEntries (now : Z) (c : ConsentCache) : ConsentCache :=
  {| cache := filter (fun kv => expired now (snd kv) = false) (cache c);
     pendingRequests := pendingRequests c;
     settled := settled c |}.

(** [setConsent]; [now] is [Date.now()]. *)
Definition setConsent (now : Z) (cacheKey : string) (d : ConsentDecision) (durationMinutes : Z)
    (requesterHostId destination dataUsage : string) (c : ConsentCache) : ConsentCache :=
  cleanupExpiredEntries now
    {| cache :=
         <[cacheKey := {| decision := d; entry_timestamp := now;
                          duration_minutes := durationMinutes;
                          requester_host_id := requesterHostId;
                          entry_destination := destination;
                          entry_data_usage := dataUsage |}]> (cache c);
       pendingRequests := pendingRequests c;
       settled := settled c |}.

(** [getConsent]: the decision, or [None] for [null]; an expired entry is
    deleted. *)
Definition getConsent (now : Z) (cacheKey : string) (c : ConsentCache)
  : option ConsentDecision * ConsentCache :=
  match cache c !! cacheKey with
  | None => (None, c)
  | Some entry =>
      if expired now entry
      then (None, {| cache := delete cacheKey (cache c);
                     pendingRequests := pendingRequests c;
                     settled := settled c |})
      else (Some (decision entry), c)
  end.

Definition hasConsent (now : Z) (cacheKey : string) (c : ConsentCache) : bool * ConsentCache :=
  let (d, c') := getConsent now cacheKey c in (bool_decide (d <> None), c').

Definition generateCacheKey (requesterHostId destination dataUsage : string)
    (toolName : option string) : string :=
  String.concat "::"
    ([requesterHostId; destination; dataUsage]
     ++ match toolName with
        | Some (String ch r) => [String ch r]
        | _ => []
        end).

(** [storePendingRequest]: the request waits until it is resolved or its
    timer fires, [timeoutSeconds] after [now]. *)
Definition storePendingRequest (now : Z) (requestId : string) (timeoutSeconds : Z)
    (c : ConsentCache) : ConsentCache :=
  {| cache := cache c;
     pendingRequests := <[requestId := (now + timeoutSeconds * 1000)%Z]> (pendingRequests c);
     settled := settled c |}.

(** The timer of a pending request fires. *)
Definition timeoutPendingRequest (requestId : string) (c : ConsentCache) : ConsentCache :=
  {| cache := cache c;
     pendingRequests := delete requestId (pendingRequests c);
     settled := (requestId, Rejected "timeout") :: settled c |}.

Definition resolveConsentRequest (requestId : string) (d : ConsentDecision) (c : ConsentCache)
  : bool * ConsentCache :=
  match pendingRequests c !! requestId with
  | None => (false, c)
  | Some _ =>
      (true, {| cache := cache c;
                pendingRequests := delete requestId (pendingRequests c);
                settled := (requestId, Resolved d) :: settled c |})
  end.

(** [getPendingRequests]: the pending request ids, as a set. *)
Definition getPendingRequests (c : ConsentCache) : gset string := dom (pendingRequests c).

(** ** Endpoints (mcpp-endpoints) *)

(** The [data] member of an error response.  Listings of the keys of a
    [Map] are given as sets. *)
Inductive ErrorData : Type :=
| NoErrorData
| RequiredParams (required_params : list string)
| CacheNotFound (tool_call_id : any) (available_caches : gset string)
| ValidationFailed (consent_request : option ConsentRequest)
    (validation_details : ValidationDetails)
| InvalidColumn (invalid_column : string) (available_columns : list string)
| NoReference (keyword : string) (similarity_threshold best_similarity : Q)
    (searched_rows searched_columns : nat)
| ValidDecisions (valid_decisions : list string)
| ConsentNotFound (request_id : any) (pending_requests : gset string).

(** A JSON-RPC response with a result of type [R]. *)
Inductive Response (R : Type) : Type :=
| Result (result : R) (id : any)
| Error (code : option Z) (message : option string) (data : ErrorData) (id : any).

Arguments Result {R} result id.
Arguments Error {R} code message data id.

(** [dataCache.get(key)] for a key of any type: the keys of the cache are
    strings. *)
Definition cache_get {V} (m : gmap string V) (key : any) : option V :=
  match key with
  | JStr s => m !! s
  | _ => None
  end.

(** A cached entry as a value. *)
Definition CachedData_value (data : CachedData) : any :=
  match data with
  | TableData headers rows =>
      JObj [("type", JStr "table");
            ("payload", JObj [("headers", JArr (map JStr headers));
                              ("rows", JArr (map JArr rows))])]
  | TextData payload => JObj [("type", JStr "text"); ("payload", JStr payload)]
  | JsonData payload => JObj [("type", JStr "json"); ("payload", payload)]
  end.

(** The parameters of [mcpp/get_data]; an absent member is [JUndefined],
    resp. [None]. *)
Record GetDataParams : Type := {
  get_tool_call_id : any;
  get_usage_context : option McppUsageContext
}.

Definition validation_error {R} (validation : ValidationResult) (id : any) : Response R :=
  Error (error_code validation) (error_message validation)
    (ValidationFailed (consent_request validation) (validation_details validation))
    (or_else id JNull).

Definition handleGetData
    (now : Z) (random36 : string) (dataCache : DataCache)
    (params : option GetDataParams) (id : any)
    (tool : option Tool) (serverConfig : option McppServerConfig) : Response CachedData :=
  let tool_call_id := default JUndefined (get_tool_call_id <$> params) in
  let usage_context := params ≫= get_usage_context in
  if negb (truthy tool_call_id) then
    Error (Some MCPP_ERRORS.INVALID_PARAMS) (Some "Invalid params: tool_call_id is required")
      (RequiredParams ["tool_call_id"]) (or_else id JNull)
  else
    match cache_get dataCache tool_call_id with
    | None =>
        Error (Some MCPP_ERRORS.DATA_NOT_FOUND)
          (Some "Cached data not found for the given tool_call_id")
          (CacheNotFound tool_call_id (dom dataCache)) (or_else id JNull)
    | Some data =>
        match usage_context, serverConfig with
        | Some usage_context, Some serverConfig =>
            let validation :=
              validateDataAccess now random36 tool usage_context serverConfig
                (CachedData_value data) in
            if negb (allowed validation) then validation_error validation id
            else Result data (or_else id JNull)
        | _, _ => Result data (or_else id JNull)
        end
    end.

(** The parameters of [mcpp/find_reference]; the keyword and the column
    name are strings, the empty string when absent. *)
Record FindReferenceParams : Type := {
  find_tool_call_id : any;
  find_keyword : string;
  find_column_name : string
}.

Record BestMatch : Type := {
  placeholder : string;
  similarity : Q;
  rowIndex : Z;
  columnName : string
}.

Record ReferenceMetadata : Type := {
  meta_tool_call_id : any;
  row_index : Z;
  column_name : string;
  keyword_searched : string
}.

Record ReferenceResult : Type := {
  ref_placeholder : string;
  ref_message : string;
  ref_similarity : Q;
  ref_metadata : ReferenceMetadata
}.

Definition SIMILARITY_THRESHOLD : Q := 7 # 10.

(** [a > b] on numbers. *)
Definition Qgtb (a b : Q) : bool := negb (Qle_bool a b).

(** The cell [rows[i][j]] of a table, [JUndefined] outside the row. *)
Definition cell (row : list any) (j : nat) : any := default JUndefined (row !! j).

(** The cells visited by the loops of [handleFindReference], in the order
    of the visit, each with its row index and its header: one column, or
    every header for every row. *)
Definition scanned_cells (headers : list string) (rows : list (list any))
    (colIndex : option nat) : list (nat * string * any) :=
  match colIndex with
  | Some j => imap (fun i row => (i, default "undefined" (headers !! j), cell row j)) rows
  | None =>
      concat (imap (fun i row => imap (fun j header => (i, header, cell row j)) headers) rows)
  end.

Section find_reference.

(** The similarity of the [jaro-winkler] package. *)
Variable jaroWinkler : string -> string -> Q.

Definition cell_similarity (keyword : string) (c : any) : Q :=
  jaroWinkler (toLowerCase keyword) (toLowerCase (toString c)).

(** One turn of the loop body. *)
Definition consider (refToolCallId : any) (keyword : string)
    (bestMatch : BestMatch) (candidate : nat * string * any) : BestMatch :=
  match candidate with
  | (i, header, c) =>
      let similarity_c := cell_similarity keyword c in
      if Qgtb similarity_c (similarity bestMatch) then
        {| placeholder := "{" +:+ toString refToolCallId +:+ "." +:+ string_of_Z (Z.of_nat i)
                          +:+ "." +:+ header +:+ "}";
           similarity := similarity_c;
           rowIndex := Z.of_nat i;
           columnName := header |}
      else bestMatch
  end.

Definition initialMatch : BestMatch :=
  {| placeholder := ""; similarity := (-1) # 1; rowIndex := (-1)%Z; columnName := "" |}.

Definition findBestMatch (refToolCallId : any) (keyword : string)
    (cells : list (nat * string * any)) : BestMatch :=
  fold_left (consider refToolCallId keyword) cells initialMatch.

(** The tail of [handleFindReference], after the loops over the cells of
    one column ([Some j]) or of every column ([None]). *)
Definition searchTable
    (refToolCallId : any) (keyword : string)
    (headers : list string) (rows : list (list any)) (colIndex : option nat) (id : any)
  : Response ReferenceResult :=
  let bestMatch :=
    findBestMatch refToolCallId keyword (scanned_cells headers rows colIndex) in
  if Qgtb (similarity bestMatch) SIMILARITY_THRESHOLD then
    Result
      {| ref_placeholder := placeholder bestMatch;
         ref_message :=
           "A match was found in column " +:+ columnName bestMatch
           +:+ " at row " +:+ string_of_Z (rowIndex bestMatch);
         ref_similarity := similarity bestMatch;
         ref_metadata :=
           {| meta_tool_call_id := refToolCallId;
              row_index := rowIndex bestMatch;
              column_name := columnName bestMatch;
              keyword_searched := keyword |} |} id
  else
    Error (Some MCPP_ERRORS.REFERENCE_NOT_FOUND)
      (Some "No suitable reference found for the given keyword")
      (NoReference keyword SIMILARITY_THRESHOLD (similarity bestMatch)
         (length rows) (length headers)) id.

Definition handleFindReference
    (dataCache : DataCache) (params : option FindReferenceParams) (id : any)
  : Response ReferenceResult :=
  match params with
  | None => Error (Some MCPP_ERRORS.INVALID_PARAMS)
              (Some "Missing tool_call_id or keyword parameter") NoErrorData id
  | Some params =>
      let refToolCallId := find_tool_call_id params in
      let keyword := find_keyword params in
      let column := find_column_name params in
      if negb (truthy refToolCallId) || String.eqb keyword "" then
        Error (Some MCPP_ERRORS.INVALID_PARAMS)
          (Some "Missing tool_call_id or keyword parameter") NoErrorData id
      else
        match cache_get dataCache refToolCallId with
        | Some (TableData headers rows) =>
            if String.eqb column "" then
              searchTable refToolCallId keyword headers rows None id
            else
              let colIndex := indexOf headers column in
              if (colIndex =? -1)%Z then
                Error (Some MCPP_ERRORS.INVALID_PARAMS)
                  (Some ("Invalid params: column '" +:+ column +:+ "' not found"))
                  (InvalidColumn column headers) id
              else
                searchTable refToolCallId keyword headers rows (Some (Z.to_nat colIndex)) id
        | _ =>
            Error (Some MCPP_ERRORS.DATA_NOT_FOUND)
              (Some "Cached data not found or not in table format for the given tool_call_id")
              (CacheNotFound refToolCallId (dom dataCache)) id
        end
  end.

End find_reference.

(** The replacement text of [s.replace(pattern, replacement)] for a string
    pattern: [$$], [$&], [$`] and [$'] are expanded, every other character
    stands for itself. *)
Fixpoint expand_replacement (replacement matched before after : string) : string :=
  match replacement with
  | String "$" (String c r as r1) =>
      if Ascii.eqb c "$" then String "$" (expand_replacement r matched before after)
      else if Ascii.eqb c "&" then matched +:+ expand_replacement r matched before after
      else if Ascii.eqb c "`" then before +:+ expand_replacement r matched before after
      else if Ascii.eqb c "'" then after +:+ expand_replacement r matched before after
      else String "$" (expand_replacement r1 matched before after)
  | String c r => String c (expand_replacement r matched before after)
  | EmptyString => EmptyString
  end.

(** [s.replace(pattern, replacement)] for a non-empty string pattern: the
    first occurrence is replaced. *)
Definition replace_string (s pattern replacement : string) : string :=
  match String.index 0 pattern s with
  | None => s
  | Some i =>
      let before := String.substring 0 i s in
      let after := substring_from (i + String.length pattern) s in
      before +:+ expand_replacement replacement pattern before after +:+ after
  end.

(** The counters of [handleResolvePlaceholders].  The failed placeholders
    are listed in the order of a depth-first walk. *)
Record ResolutionTracking : Type := {
  total_placeholders : nat;
  resolved_placeholders : nat;
  failed_placeholders : list string
}.

Definition count_resolved (t : ResolutionTracking) : ResolutionTracking :=
  {| total_placeholders := S (total_placeholders t);
     resolved_placeholders := S (resolved_placeholders t);
     failed_placeholders := failed_placeholders t |}.

Definition count_failed (text : string) (t : ResolutionTracking) : ResolutionTracking :=
  {| total_placeholders := S (total_placeholders t);
     resolved_placeholders := resolved_placeholders t;
     failed_placeholders := failed_placeholders t ++ [text] |}.

(** One turn of the [regex.exec] loop over the matches of the original
    string. *)
Definition track_match (cache : DataCache) (st : string * ResolutionTracking) (p : piece)
  : string * ResolutionTracking :=
  match p with
  | Text _ => st
  | Match placeholder =>
      let fullPlaceholder := braces placeholder in
      let resolution := resolveSinglePlaceholder placeholder cache in
      if success resolution then
        (replace_string (fst st) fullPlaceholder (toString (value resolution)),
         count_resolved (snd st))
      else (fst st, count_failed fullPlaceholder (snd st))
  end.

Definition trackString (cache : DataCache) (data : string) (t : ResolutionTracking)
  : any * ResolutionTracking :=
  match match_single data with
  | Some placeholder =>
      let resolution := resolveSinglePlaceholder placeholder cache in
      if success resolution then (value resolution, count_resolved t)
      else (JStr data, count_failed data t)
  | None =>
      let (resolvedString, t') := fold_left (track_match cache) (scan data) (data, t) in
      (JStr resolvedString, t')
  end.

(** The inner [resolveWithTracking] of [handleResolvePlaceholders]. *)
Fixpoint resolveWithTracking (cache : DataCache) (data : any) (t : ResolutionTracking)
  : any * ResolutionTracking :=
  if negb (truthy data) then (data, t) else
  match data with
  | JStr s => trackString cache s t
  | JArr items =>
      let (items', t') :=
        fold_left (fun acc item =>
                     let (v, t1) := resolveWithTracking cache item (snd acc) in
                     (fst acc ++ [v], t1))
          items ([], t) in
      (JArr items', t')
  | JObj fields =>
      let (fields', t') :=
        fold_left (fun acc kv =>
                     match kv with
                     | (key, x) =>
                         let (v, t1) := resolveWithTracking cache x (snd acc) in
                         (fst acc ++ [(key, v)], t1)
                     end)
          fields ([], t) in
      (JObj (assigned fields'), t')
  | _ => (data, t)
  end.

(** The parameters of [mcpp/resolve_placeholders]. *)
Record ResolveParams : Type := {
  resolve_data : any;
  resolve_usage_context : option McppUsageContext
}.

(** The result of [mcpp/resolve_placeholders]; [success_rate], a rounded
    floating-point quotient of the two counters, is left out. *)
Record ResolveResult : Type := {
  resolved_data : any;
  resolution_status : ResolutionTracking
}.

Definition handleResolvePlaceholders
    (now : Z) (random36 : string) (dataCache : DataCache)
    (params : option ResolveParams) (id : any)
    (tool : option Tool) (serverConfig : option McppServerConfig) : Response ResolveResult :=
  let data := default JUndefined (resolve_data <$> params) in
  if negb (truthy data) then
    Error (Some MCPP_ERRORS.INVALID_PARAMS)
      (Some "Invalid params: data is required for placeholder resolution")
      (RequiredParams ["data"]) id
  else
    let resolve :=
      let (resolvedData, resolutionTracking) :=
        resolveWithTracking dataCache data
          {| total_placeholders := 0; resolved_placeholders := 0; failed_placeholders := [] |} in
      Result {| resolved_data := resolvedData; resolution_status := resolutionTracking |} id in
    match params ≫= resolve_usage_context, serverConfig with
    | Some usage_context, Some serverConfig =>
        let validation :=
          validateDataAccess now random36 tool usage_context serverConfig data in
        if negb (allowed validation) then validation_error validation id else resolve
    | _, _ => resolve
    end.

(** The parameters of [mcpp/provide_consent]; an absent member is
    [JUndefined]. *)
Record ProvideConsentParams : Type := {
  consent_request_id : any;
  consent_decision : any;
  remember : any;
  consent_duration_minutes : any
}.

Record ProvideConsentResult : Type := {
  provided_request_id : any;
  provided_decision : any;
  remembered : any;
  provided_message : string
}.

Definition parse_decision (d : any) : option ConsentDecision :=
  match d with
  | JStr "allow" => Some DecisionAllow
  | JStr "deny" => Some DecisionDeny
  | _ => None
  end.

(** [handleProvideConsent] on the global [consentCache]: the response and
    the state of the consent cache afterwards. *)
Definition handleProvideConsent
    (consentCache : ConsentCache) (params : option ProvideConsentParams) (id : any)
  : Response ProvideConsentResult * ConsentCache :=
  let missing :=
    (Error (Some MCPP_ERRORS.INVALID_PARAMS)
       (Some "Invalid params: request_id and decision are required")
       (RequiredParams ["request_id"; "decision"]) id, consentCache) in
  match params with
  | None => missing
  | Some params =>
      let request_id := consent_request_id params in
      let decision := consent_decision params in
      if negb (truthy request_id) || negb (truthy decision) then missing
      else
        match parse_decision decision with
        | None =>
            (Error (Some MCPP_ERRORS.INVALID_PARAMS)
               (Some ("Invalid decision: must be " +:+ JSON_quote "allow" +:+ " or "
                      +:+ JSON_quote "deny"))
               (ValidDecisions ["allow"; "deny"]) id, consentCache)
        | Some d =>
            let not_found :=
              (Error (Some MCPP_ERRORS.DATA_NOT_FOUND)
                 (Some "Consent request not found or expired")
                 (ConsentNotFound request_id (getPendingRequests consentCache)) id,
               consentCache) in
            match request_id with
            | JStr requestId =>
                let (resolved, consentCache') := resolveConsentRequest requestId d consentCache in
                if negb resolved then not_found
                else
                  (* The branch of [remember && duration_minutes] is empty. *)
                  let consentCache' :=
                    if truthy (remember params) && truthy (consent_duration_minutes params)
                    then consentCache'
                    else consentCache' in
                  (Result {| provided_request_id := request_id;
                             provided_decision := decision;
                             remembered := or_else (remember params) (JBool false);
                             provided_message :=
                               "Consent " +:+ toString decision +:+ " recorded successfully" |}
                     id, consentCache')
            | _ => not_found
            end
        end
  end.

(** ** Caching of tool results (mcpp-data-utils) *)

Record DataSummaryResponse : Type := {
  summary_message : string;
  rowCount : nat;
  columnNames : list string;
  dataRefId : string
}.

(** [processDataResponse] for a table: the result of a sensitive tool goes
    to the cache and a summary is returned, the result of any other tool is
    returned as it is ([inr]). *)
Definition processDataResponse
    (tool : option Tool) (tool_call_id : string)
    (headers : list string) (rows : list (list any)) (itemKind : string)
    (dataCache : DataCache) : (DataSummaryResponse + CachedData) * DataCache :=
  if default false (isSensitive <$> tool) then
    (inl {| summary_message :=
              "Successfully fetched " +:+ string_of_Z (Z.of_nat (length rows))
              +:+ " " +:+ itemKind +:+ ".";
            rowCount := length rows;
            columnNames := headers;
            dataRefId := tool_call_id |},
     <[tool_call_id := TableData headers rows]> dataCache)
  else (inr (TableData headers rows), dataCache).

(** ** The configuration and a tool of the servers *)

(** [defaultMcppConfig] (mcpp-server-config). *)
Definition defaultMcppConfig : McppServerConfig :=
  let info (t : string) (c : Category) (l : TrustLevel) (consent : bool)
           (retention : option DataRetention) (d : string) : TargetInfo :=
    {| info_type := t; category := c; trust_level := l; requires_consent := consent;
       data_retention := retention; description := Some d |} in
  {| global_policies :=
       {| default_data_usage_policy :=
            fun u => match u with
                     | Display | Process => Allow
                     | Store | Transfer => Prompt
                     end;
          default_target_policy :=
            {| policy_client := Allow; policy_server := AllTargets;
               policy_servers := AllTargets; policy_llm := Prompt; policy_all := Prompt |};
          user_consent_settings :=
            {| require_consent_for :=
                 {| sensitive_data_transfer := true; external_server_transfer := true;
                    cross_domain_transfer := false; llm_data_access := true;
                    any_transfer := false |};
               consent_timeout_seconds := 30;
               default_on_timeout := DecisionDeny;
               cache_consent_duration_minutes := 60;
               trusted_targets :=
                 ["localhost"; "internal_analytics"; "backup_service"; "internal_llm";
                  "claude-3"; "gpt-3.5-turbo"];
               trusted_domains := ["*.company.com"; "*.internal"];
               show_data_preview := true;
               show_destination_info := true;
               allow_remember_choice := true |};
          target_categories :=
            list_to_map
              [("analytics_server", info "server" Internal High false None
                                      "Internal Analytics Platform");
               ("backup_service", info "server" Internal High false None "Data Backup Service");
               ("partner_crm", info "server" Partner Medium true None "Partner CRM System");
               ("external_api", info "server" External Low true None "External API Service");
               ("public_service", info "server" Public Low true None "Public Service API");
               ("gpt-4", info "llm" External Medium true (Some RetentionTemporary)
                           "OpenAI GPT-4 Language Model");
               ("gpt-3.5-turbo", info "llm" External Medium false (Some RetentionTemporary)
                                   "OpenAI GPT-3.5 Turbo Language Model");
               ("claude-3", info "llm" External High false (Some RetentionNone)
                              "Anthropic Claude 3 Language Model");
               ("internal_llm", info "llm" Internal High false (Some RetentionNone)
                                  "Internal Company Language Model");
               ("llama-2", info "llm" Internal High false (Some RetentionNone)
                             "Meta LLaMA 2 Language Model (Local)")] |} |}.

(** The policy of the tool [get_books_invoices] (zoho-books-mcpp-server). *)
Definition get_books_invoices : Tool :=
  {| name := "get_books_invoices";
     isSensitive := true;
     dataPolicy :=
       Some {| data_usage_permissions :=
                 Some (fun u => match u with
                                | Display | Process => Some Allow
                                | Store | Transfer => Some Prompt
                                end);
               target_permissions :=
                 Some {| allowed_targets := Some (Targets ["internal_llm"; "claude-3"]);
                         blocked_targets := Some ["gpt-4"];
                         allowed_clients := None;
                         allowed_servers := None;
                         blocked_servers := None |};
               consent_overrides :=
                 Some {| always_require_consent := false;
                         never_require_consent := false;
                         custom_consent_message :=
                           Some "This operation will access sensitive invoice data from Zoho Books. The data may contain financial information, customer details, and payment information. Do you want to proceed?";
                         allowed_without_consent := None |} |} |}.

Definition usage (u : DataUsage) (t : TargetType) (d : string) : McppUsageContext :=
  {| data_usage := u;
     requester := {| host_id := "host"; session_id := None; timestamp := 0 |};
     target := {| type := t; destination := Some d |} |}.

(** The usage context [uc] with the data usage [u]. *)
Definition with_data_usage (u : DataUsage) (uc : McppUsageContext) : McppUsageContext :=
  {| data_usage := u; requester := requester uc; target := target uc |}.

(** A tool whose policy denies [transfer] and blocks the target [gpt-4]. *)
Definition no_transfer_tool : Tool :=
  {| name := "export_ledger";
     isSensitive := true;
     dataPolicy :=
       Some {| data_usage_permissions :=
                 Some (fun u => match u with
                                | Transfer => Some Deny
                                | _ => Some Allow
                                end);
               target_permissions :=
                 Some {| allowed_targets := None;
                         blocked_targets := Some ["gpt-4"];
                         allowed_clients := None;
                         allowed_servers := None;
                         blocked_servers := None |};
               consent_overrides := None |} |}.

(** A tool whose policy denies [display] and allows the higher levels. *)
Definition no_display_tool : Tool :=
  {| name := "batch_totals";
     isSensitive := false;
     dataPolicy :=
       Some {| data_usage_permissions :=
                 Some (fun u => match u with
                                | Display => Some Deny
                                | _ => Some Allow
                                end);
               target_permissions := None;
               consent_overrides := None |} |}.

(** A tool whose block list holds the empty string. *)
Definition blocks_empty_tool : Tool :=
  {| name := "list_items";
     isSensitive := false;
     dataPolicy :=
       Some {| data_usage_permissions := None;
               target_permissions :=
                 Some {| allowed_targets := None;
                         blocked_targets := Some [""];
                         allowed_clients := None;
                         allowed_servers := None;
                         blocked_servers := None |};
               consent_overrides := None |} |}.

(** The cache after the sensitive tool [get_books_invoices] has answered the
    call [t1] with a table of two rows. *)
Definition invoices_table : CachedData :=
  TableData ["ID"; "Name"] [[JStr "1"; JStr "Ana"]; [JStr "2"; JStr "Bo"]].

Definition invoices_cache : DataCache :=
  snd (processDataResponse (Some get_books_invoices) "t1"
         ["ID"; "Name"] [[JStr "1"; JStr "Ana"]; [JStr "2"; JStr "Bo"]] "invoices" ∅).

(** A consent cache with one pending request and no remembered decision. *)
Definition one_pending : ConsentCache :=
  storePendingRequest 0 "consent_0_abcdefghi" 30
    {| cache := ∅; pendingRequests := ∅; settled := [] |}.

(** ** Notions used in the statements *)

(** Every character of [s] satisfies [p]. *)
Fixpoint all_chars (p : ascii -> bool) (s : string) : bool :=
  match s with
  | EmptyString => true
  | String c r => p c && all_chars p r
  end.

(** [s] without its first [n] characters. *)
Fixpoint drop_chars (n : nat) (s : string) : string :=
  match n, s with
  | O, _ => s
  | S k, String _ r => drop_chars k r
  | S _, EmptyString => EmptyString
  end.

(** What a piece of the scanned string becomes in the output of
    [resolveInObject]. *)
Definition resolved_piece (cache : DataCache) (p : piece) : string :=
  match p with
  | Text c => String c ""
  | Match group => resolve_match cache (braces group) group
  end.

(** The cache holds a table under [call_id], [col] is one of its headers
    and the row index written by [row] is within its rows. *)
Definition resolvable (cache : DataCache) (call_id row col : string) : Prop :=
  exists headers rows,
    cache !! call_id = Some (TableData headers rows)
    /\ In col headers
    /\ (digits_value row < Z.of_nat (length rows))%Z.

(** The cell that a placeholder names in a table. *)
Definition named_cell (cache : DataCache) (call_id row col : string) (v : any) : Prop :=
  exists headers rows r j,
    cache !! call_id = Some (TableData headers rows)
    /\ rows !! Z.to_nat (digits_value row) = Some r
    /\ headers !! j = Some col
    /\ v = cell r j.

(** The shape of a captured group. *)
Definition group_shape (call_id row col : string) : Prop :=
  call_id <> "" /\ all_chars is_id_char call_id = true
  /\ row <> "" /\ all_chars is_digit row = true
  /\ col <> "" /\ all_chars is_id_char col = true.

(** The match that [consider] records for a cell. *)
Definition match_of (refToolCallId : any) (similarity_c : Q) (i : nat) (header : string)
  : BestMatch :=
  {| placeholder := "{" +:+ toString refToolCallId +:+ "." +:+ string_of_Z (Z.of_nat i)
                    +:+ "." +:+ header +:+ "}";
     similarity := similarity_c;
     rowIndex := Z.of_nat i;
     columnName := header |}.

(** The column argument of the loops for a request: the index of the named
    column, or every column when no column is named. *)
Definition requested_column (headers : list string) (column : string) : option nat :=
  if String.eqb column "" then None else Some (Z.to_nat (indexOf headers column)).

(** A similarity that tells equal strings from different ones. *)
Definition exact_similarity (a b : string) : Q := if String.eqb a b then 1 else 0.

(** The table of names and addresses of the reference scenario. *)
Definition contacts_cache : DataCache :=
  {[ "t1" := TableData ["Name"; "Email"]
               [[JStr "Ana Silva"; JStr "a@x"]; [JStr "Bo Park"; JStr "b@y"]] ]}.

(** [s] holds no opening brace. *)
Definition no_open_brace (s : string) : bool := all_chars (not_char "{") s.

(** A cell that is a scalar (or absent) and whose text holds no opening
    brace. *)
Definition plain_cell (v : any) : bool :=
  match v with
  | JStr s => no_open_brace s
  | JArr _ | JObj _ => false
  | _ => true
  end.

(** Every cell of every cached table is plain. *)
Definition plain_cells (cache : DataCache) : Prop :=
  forall call_id headers rows row v,
    cache !! call_id = Some (TableData headers rows) ->
    In row rows -> In v row -> plain_cell v = true.

(** Outside its placeholders, [s] holds no opening brace. *)
Definition plain_outside (s : string) : bool :=
  forallb (fun p => match p with
                    | Text c => not_char "{" c
                    | Match _ => true
                    end) (scan s).

(** Every string of the tree is plain outside its placeholders. *)
Fixpoint plain_tree (t : any) : bool :=
  match t with
  | JStr s => plain_outside s
  | JArr items => forallb plain_tree items
  | JObj fields => forallb (fun kv => match kv with (_, v) => plain_tree v end) fields
  | _ => true
  end.

(** A table with a cell that is itself a placeholder. *)
Definition chained_cache : DataCache :=
  {[ "t" := TableData ["A"; "B"] [[JStr "{t.1.A}"; JStr "t"]; [JNum 42; JStr "x"]] ]}.

(** A table of plain cells. *)
Definition plain_cache : DataCache :=
  {[ "t" := TableData ["A"; "B"] [[JNum 42; JStr "t"]] ]}.

Definition no_tracking : ResolutionTracking :=
  {| total_placeholders := 0; resolved_placeholders := 0; failed_placeholders := [] |}.

(** What the search answers, in terms of the cells it scans. *)
Definition search_answer
    (jaroWinkler : string -> string -> Q) (call_id keyword : string)
    (headers : list string) (rows : list (list any))
    (cells : list (nat * string * any)) (response : Response ReferenceResult) : Prop :=
  let sim (candidate : nat * string * any) :=
    cell_similarity jaroWinkler keyword (snd candidate) in
  match response with
  | Result r _ =>
      (SIMILARITY_THRESHOLD < ref_similarity r)%Q
      /\ (forall x, In x cells -> (sim x <= ref_similarity r)%Q)
      /\ exists k i header c,
           cells !! k = Some (i, header, c)
           /\ ref_similarity r = sim (i, header, c)
           /\ ref_placeholder r
              = "{" +:+ call_id +:+ "." +:+ string_of_Z (Z.of_nat i) +:+ "." +:+ header +:+ "}"
           /\ row_index (ref_metadata r) = Z.of_nat i
           /\ column_name (ref_metadata r) = header
           /\ (forall k' x, (k' < k)%nat -> cells !! k' = Some x ->
                            (sim x < ref_similarity r)%Q)
  | Error code _ data _ =>
      code = Some (-32002)%Z
      /\ (forall x, In x cells -> (sim x <= SIMILARITY_THRESHOLD)%Q)
      /\ exists best,
           data = NoReference keyword SIMILARITY_THRESHOLD best (length rows) (length headers)
           /\ (forall x, In x cells -> (sim x <= best)%Q)
           /\ (best = (-1) # 1 \/ exists x, In x cells /\ sim x = best)
           /\ ((forall a b, (0 <= jaroWinkler a b)%Q) -> cells <> [] ->
               exists x, In x cells /\ sim x = best)
  end.

(** A tool that sets both consent overrides. *)
Definition both_overrides_tool : Tool :=
  {| name := "sync_contacts";
     isSensitive := true;
     dataPolicy :=
       Some {| data_usage_permissions := None;
               target_permissions := None;
               consent_overrides :=
                 Some {| always_require_consent := true;
                         never_require_consent := true;
                         custom_consent_message := Some "Share the contacts?";
                         allowed_without_consent := None |} |} |}.

(** A tool that allows no target. *)
Definition no_target_tool : Tool :=
  {| name := "get_secrets";
     isSensitive := true;
     dataPolicy :=
       Some {| data_usage_permissions := None;
               target_permissions :=
                 Some {| allowed_targets := Some NoTargets;
                         blocked_targets := None;
                         allowed_clients := None;
                         allowed_servers := None;
                         blocked_servers := None |};
               consent_overrides := None |} |}.

(** A usage context without destination. *)
Definition usage_nowhere (u : DataUsage) (t : TargetType) : McppUsageContext :=
  {| data_usage := u;
     requester := {| host_id := "host"; session_id := None; timestamp := 0 |};
     target := {| type := t; destination := None |} |}.

(** A configuration whose global target policy refuses whatever it can. *)
Definition strict_targets_config : McppServerConfig :=
  {| global_policies :=
       {| default_data_usage_policy := fun _ => Allow;
          default_target_policy :=
            {| policy_client := Deny; policy_server := NoTargets;
               policy_servers := NoTargets; policy_llm := Deny; policy_all := Deny |};
          user_consent_settings := user_consent_settings (global_policies defaultMcppConfig);
          target_categories := ∅ |} |}.

(** [setConsent] with its two readings of [Date.now()]: the entry is stamped
    at [now], the expired entries are removed at [cleanupNow]. *)
Definition setConsent_at (now cleanupNow : Z) (cacheKey : string) (d : ConsentDecision)
    (durationMinutes : Z) (requesterHostId destination dataUsage : string)
    (c : ConsentCache) : ConsentCache :=
  cleanupExpiredEntries cleanupNow
    {| cache :=
         <[cacheKey := {| decision := d; entry_timestamp := now;
                          duration_minutes := durationMinutes;
                          requester_host_id := requesterHostId;
                          entry_destination := destination;
                          entry_data_usage := dataUsage |}]> (cache c);
       pendingRequests := pendingRequests c;
       settled := settled c |}.

(** A consent cache with one decision, recorded at time 0 for one minute. *)
Definition one_decision : ConsentCache :=
  setConsent 0 "host::partner_crm::transfer" DecisionAllow 1 "host" "partner_crm" "transfer"
    {| cache := ∅; pendingRequests := ∅; settled := [] |}.

(** ** Resolution with counters (mcpp-placeholders) *)

(** The groups of the matches of [PLACEHOLDER_REGEX] in a string, left to
    right. *)
Definition placeholder_groups (s : string) : list string :=
  omap (fun p => match p with
                 | Match group => Some group
                 | Text _ => None
                 end) (scan s).

(** The exported [resolveWithTracking] and its local functions. *)
Module Placeholders.

Record Counters : Type := {
  resolvedPlaceholders : nat;
  failedPlaceholders : nat
}.

Record ResolutionStatus : Type := {
  total_placeholders : nat;
  resolved_placeholders : nat;
  failed_placeholders : nat
}.

(** [success_rate], a floating-point quotient of the counters, is left
    out. *)
Record McppResolutionTracking : Type := {
  resolved_data : any;
  resolution_status : ResolutionStatus
}.

(** What [countPlaceholders] adds to [totalPlaceholders]. *)
Fixpoint countPlaceholders (obj : any) : nat :=
  match obj with
  | JStr s => length (placeholder_groups s)
  | JArr items => fold_left (fun n item => (n + countPlaceholders item)%nat) items 0%nat
  | JObj fields =>
      fold_left (fun n kv => match kv with
                             | (_, x) => (n + countPlaceholders x)%nat
                             end) fields 0%nat
  | _ => 0%nat
  end.

Definition count_resolved (c : Counters) : Counters :=
  {| resolvedPlaceholders := S (resolvedPlaceholders c);
     failedPlaceholders := failedPlaceholders c |}.

Definition count_failed (c : Counters) : Counters :=
  {| resolvedPlaceholders := resolvedPlaceholders c;
     failedPlaceholders := S (failedPlaceholders c) |}.

(** The global replacement with its counting callback: the text built so
    far and the counters, one piece of the string after the other. *)
Definition replace_piece (cache : DataCache) (acc : string * Counters) (p : piece)
  : string * Counters :=
  match p with
  | Text c => (fst acc +:+ String c "", snd acc)
  | Match placeholder =>
      let result := resolveSinglePlaceholder placeholder cache in
      if success result then (fst acc +:+ toString (value result), count_resolved (snd acc))
      else (fst acc +:+ braces placeholder, count_failed (snd acc))
  end.

Definition resolveString (cache : DataCache) (s : string) (c : Counters) : any * Counters :=
  match match_single s with
  | Some placeholder =>
      let result := resolveSinglePlaceholder placeholder cache in
      if success result then (value result, count_resolved c)
      else (JStr s, count_failed c)
  | None =>
      let (text, c') := fold_left (replace_piece cache) (scan s) ("", c) in
      (JStr text, c')
  end.

Fixpoint resolveInObject (cache : DataCache) (obj : any) (c : Counters) : any * Counters :=
  match obj with
  | JStr s => resolveString cache s c
  | JArr items =>
      let (items', c') :=
        fold_left (fun acc item =>
                     let (v, c1) := resolveInObject cache item (snd acc) in
                     (fst acc ++ [v], c1))
          items ([], c) in
      (JArr items', c')
  | JObj fields =>
      let (fields', c') :=
        fold_left (fun acc kv =>
                     match kv with
                     | (key, x) =>
                         let (v, c1) := resolveInObject cache x (snd acc) in
                         (fst acc ++ [(key, v)], c1)
                     end)
          fields ([], c) in
      (JObj (assigned fields'), c')
  | _ => (obj, c)
  end.

Definition resolveWithTracking (data : any) (cache : DataCache) : McppResolutionTracking :=
  let totalPlaceholders := countPlaceholders data in
  let (resolved, c) :=
    resolveInObject cache data {| resolvedPlaceholders := 0; failedPlaceholders := 0 |} in
  {| resolved_data := resolved;
     resolution_status :=
       {| total_placeholders := totalPlaceholders;
          resolved_placeholders := resolvedPlaceholders c;
          failed_placeholders := failedPlaceholders c |} |}.

End Placeholders.

(** The placeholder occurrences in the strings of a value, in the order of
    a depth-first walk. *)
Fixpoint placeholders_of (data : any) : list string :=
  match data with
  | JStr s => placeholder_groups s
  | JArr items => flat_map placeholders_of items
  | JObj fields => flat_map (fun kv => match kv with
                                       | (_, x) => placeholders_of x
                                       end) fields
  | _ => []
  end.

(** Whether a placeholder resolves against the cache. *)
Definition resolves (cache : DataCache) (placeholder : string) : bool :=
  success (resolveSinglePlaceholder placeholder cache).

(** The counters after the placeholders [groups] have been met. *)
Definition counted (cache : DataCache) (groups : list string) (c : Placeholders.Counters)
  : Placeholders.Counters :=
  {| Placeholders.resolvedPlaceholders :=
       Placeholders.resolvedPlaceholders c + length (List.filter (resolves cache) groups);
     Placeholders.failedPlaceholders :=
       Placeholders.failedPlaceholders c
       + length (List.filter (fun g => negb (resolves cache g)) groups) |}.

(** The tracking of the endpoint after the placeholders [groups] have
    been met. *)
Definition tracked (cache : DataCache) (groups : list string) (t : ResolutionTracking)
  : ResolutionTracking :=
  {| total_placeholders := total_placeholders t + length groups;
     resolved_placeholders :=
       resolved_placeholders t + length (List.filter (resolves cache) groups);
     failed_placeholders :=
       failed_placeholders t
       ++ map braces (List.filter (fun g => negb (resolves cache g)) groups) |}.

(** No object of the value has an own property [__proto__]. *)
Fixpoint proto_free (data : any) : bool :=
  match data with
  | JArr items => forallb proto_free items
  | JObj fields =>
      forallb (fun kv => match kv with
                         | (key, x) => negb (String.eqb key "__proto__") && proto_free x
                         end) fields
  | _ => true
  end.

(** [s] holds no colon. *)
Definition no_colon (s : string) : bool := all_chars (not_char ":") s.

(** The tool name that [generateCacheKey] appends: a truthy one. *)
Definition key_tool (toolName : option string) : option string :=
  match toolName with
  | Some (String ch r) => Some (String ch r)
  | _ => None
  end.

(** A text that a replacement leaves as it is: no opening brace and no
    dollar sign. *)
Definition literal_text (s : string) : bool :=
  all_chars (fun c => not_char "{" c && not_char "$" c) s.

(** The text of every cell of every cached table is literal. *)
Definition literal_cells (cache : DataCache) : Prop :=
  forall call_id headers rows row v,
    cache !! call_id = Some (TableData headers rows) ->
    In row rows -> In v row -> literal_text (toString v) = true.

(** No occurrence of [pattern] starts inside the prefix [a] of a string. *)
Definition passes (pattern a : string) : Prop :=
  forall x, String.index 0 pattern (a +:+ x)
            = (fun n => (String.length a + n)%nat) <$> String.index 0 pattern x.

(** A value with three placeholders, one of them on a table that is not
    cached. *)
Definition mixed_placeholders : any :=
  JObj [("id", JStr "{t1.0.ID}"); ("note", JStr "age {t1.0.Age}, ref {t9.0.ID}")].

(** ** The [/mcpp] endpoint of the servers (zoho-books-mcpp-server) *)

(** The method of a request with its [params]. *)
Inductive McppCall : Type :=
| GetData (params : option GetDataParams)
| FindReference (params : option FindReferenceParams)
| ResolvePlaceholders (params : option ResolveParams)
| ProvideConsent (params : option ProvideConsentParams).

(** The body of a request for one of the protocol methods.  The member
    [tool_name] of the usage context is not part of [McppUsageContext]: the
    endpoint reads it from the raw body. *)
Record RequestBody : Type := {
  body_call : McppCall;
  body_tool_name : any;
  body_id : any
}.

Inductive McppResponse : Type :=
| GetDataResponse (response : Response CachedData)
| FindReferenceResponse (response : Response ReferenceResult)
| ResolvePlaceholdersResponse (response : Response ResolveResult)
| ProvideConsentResponse (response : Response ProvideConsentResult).

(** [req.body.params?.usage_context?.tool_name]. *)
Definition usage_tool_name (body : RequestBody) : any :=
  let named (usage_context : option McppUsageContext) :=
    match usage_context with
    | Some _ => body_tool_name body
    | None => JUndefined
    end in
  match body_call body with
  | GetData params => named (params ≫= get_usage_context)
  | ResolvePlaceholders params => named (params ≫= resolve_usage_context)
  | _ => JUndefined
  end.

(** The tool of a request: [ZOHO_TOOLS.find(t => t.name === tool_name)] when
    the tool name is truthy. *)
Definition find_tool (ZOHO_TOOLS : list Tool) (tool_name : any) : option Tool :=
  if truthy tool_name then
    match tool_name with
    | JStr n => List.find (fun t => String.eqb (name t) n) ZOHO_TOOLS
    | _ => None
    end
  else None.

(** [response.error ? (response.error.code === special ? status : 400) : 200]. *)
Definition statusCode {R} (special : Z) (status : nat) (response : Response R) : nat :=
  match response with
  | Result _ _ => 200
  | Error code _ _ _ => if bool_decide (code = Some special) then status else 400
  end.

(** The handler of [POST /mcpp] for the protocol methods: the HTTP status,
    the JSON-RPC response and the consent cache afterwards. *)
Definition post_mcpp
    (jaroWinkler : string -> string -> Q) (ZOHO_TOOLS : list Tool)
    (now : Z) (random36 : string)
    (dataCache : DataCache) (consentCache : ConsentCache) (body : RequestBody)
  : nat * McppResponse * ConsentCache :=
  let tool := find_tool ZOHO_TOOLS (usage_tool_name body) in
  match body_call body with
  | GetData params =>
      let response :=
        handleGetData now random36 dataCache params (body_id body) tool
          (Some defaultMcppConfig) in
      (statusCode MCPP_ERRORS.DATA_NOT_FOUND 404 response, GetDataResponse response,
       consentCache)
  | FindReference params =>
      let response := handleFindReference jaroWinkler dataCache params (body_id body) in
      (statusCode MCPP_ERRORS.DATA_NOT_FOUND 404 response, FindReferenceResponse response,
       consentCache)
  | ResolvePlaceholders params =>
      let response :=
        handleResolvePlaceholders now random36 dataCache params (body_id body) tool
          (Some defaultMcppConfig) in
      (statusCode MCPP_ERRORS.INTERNAL_ERROR 500 response,
       ResolvePlaceholdersResponse response, consentCache)
  | ProvideConsent params =>
      let (response, consentCache') :=
        handleProvideConsent consentCache params (body_id body) in
      (match response with
       | Result _ _ => 200%nat
       | Error _ _ _ _ => 400%nat
       end, ProvideConsentResponse response, consentCache')
  end.

(** A sensitive tool whose policy denies every data usage, and the cache
    after one of its results. *)
Definition sealed_tool : Tool :=
  {| name := "get_payroll";
     isSensitive := true;
     dataPolicy :=
       Some {| data_usage_permissions := Some (fun _ => Some Deny);
               target_permissions := None;
               consent_overrides := None |} |}.

Definition payroll_cache : DataCache :=
  snd (processDataResponse (Some sealed_tool) "p1"
         ["Name"; "Salary"] [[JStr "Ana"; JNum 9000]] "employees" ∅).

(** A [get_data] request for a display to a client. *)
Definition display_request (key : string) (tool_name : any) : RequestBody :=
  {| body_call := GetData (Some {| get_tool_call_id := JStr key;
                                   get_usage_context := Some (usage Display Client "dashboard") |});
     body_tool_name := tool_name;
     body_id := JNum 1 |}.

(** ** The evaluator on usage contexts as their type declares them *)

(** [McppUsageContext] declares [destination?: string | string[]], and the
    evaluator casts it with [as string], which checks nothing at run time.
    This module embeds the evaluator on the declared type: a destination is
    absent, a string or an array of strings.  A dictionary is a plain
    object, so that a key it does not own can name a member inherited from
    [Object.prototype].  [None] is a thrown [TypeError]. *)
Module Declared.

Inductive Destination : Type :=
| NoDestination
| OneDestination (d : string)
| ManyDestinations (l : list string).

Record Target : Type := {
  type : TargetType;
  destination : Destination
}.

Record McppUsageContext : Type := {
  data_usage : DataUsage;
  requester : Requester;
  target : Target
}.

(** The truthiness of a destination: an array is truthy, also when empty. *)
Definition given (destination : Destination) : bool :=
  match destination with
  | NoDestination => false
  | OneDestination d => negb (String.eqb d "")
  | ManyDestinations _ => true
  end.

(** [String(destination)], as a template literal and a property key read
    it: an array is joined with commas. *)
Definition destination_text (destination : Destination) : string :=
  match destination with
  | NoDestination => "undefined"
  | OneDestination d => d
  | ManyDestinations l => String.concat "," l
  end.

(** [l.includes(destination)] for an array of strings: an array is equal
    to no string. *)
Definition includes_destination (l : list string) (destination : Destination) : bool :=
  match destination with
  | OneDestination d => includes l d
  | _ => false
  end.

(** The names of the members of [Object.prototype]. *)
Definition Object_prototype : list string :=
  ["constructor"; "__defineGetter__"; "__defineSetter__"; "hasOwnProperty";
   "__lookupGetter__"; "__lookupSetter__"; "isPrototypeOf"; "propertyIsEnumerable";
   "toString"; "valueOf"; "__proto__"; "toLocaleString"].

(** [dictionary[key]]: an own property, else a member inherited from
    [Object.prototype] (a function, or the prototype itself: truthy, and
    every field read from it is [undefined]), else [undefined]. *)
Inductive Member (A : Type) : Type :=
| Own (x : A)
| Inherited
| Missing.

Arguments Own {A} x.
Arguments Inherited {A}.
Arguments Missing {A}.

Definition get_property {A : Type} (dictionary : gmap string A) (key : string) : Member A :=
  match dictionary !! key with
  | Some x => Own x
  | None => if includes Object_prototype key then Inherited else Missing
  end.

(** The fields of a member: those of an own entry. *)
Definition own {A : Type} (m : Member A) : option A :=
  match m with
  | Own x => Some x
  | _ => None
  end.

Definition check_allowed (allowed : option TargetList) (destination : Destination)
    (not_in_list none : string) : option string :=
  match allowed with
  | Some (Targets l) => if includes_destination l destination then None else Some not_in_list
  | Some NoTargets => Some none
  | Some AllTargets | None => None
  end.

Definition check_blocked (blocked : option (list string)) (destination : Destination)
    (blocked_reason : string) : option string :=
  match blocked with
  | Some l => if includes_destination l destination then Some blocked_reason else None
  | None => None
  end.

Definition tool_target_checks (policy : TargetPermissions) (t : TargetType)
    (destination : Destination) : list (option string) :=
  [ check_blocked (blocked_targets policy) destination (TargetType_name t +:+ "_blocked_by_tool");
    check_allowed (allowed_targets policy) destination
      (TargetType_name t +:+ "_not_in_allowlist") "no_targets_allowed" ]
  ++ match t with
     | Server =>
         [ check_blocked (blocked_servers policy) destination "server_blocked_by_tool";
           check_allowed (allowed_servers policy) destination
             "server_not_in_allowlist" "no_servers_allowed" ]
     | Client =>
         [ check_allowed (allowed_clients policy) destination
             "client_not_in_allowlist" "no_clients_allowed" ]
     | _ => []
     end.

(** The global list of servers is consulted when
    [typeof target.destination === 'string']. *)
Definition global_target_checks (policy : TargetPolicy) (t : TargetType)
    (destination : Destination) : list (option string) :=
  match t with
  | Server =>
      [ match policy_server policy, destination with
        | Targets l, OneDestination d =>
            if includes l d then None else Some "server_not_in_global_allowlist"
        | NoTargets, _ => Some "no_servers_allowed_globally"
        | _, _ => None
        end ]
  | Llm =>
      [ match policy_llm policy with
        | Deny => Some "llms_denied_globally"
        | _ => None
        end ]
  | _ => []
  end.

Definition validateTargetPermissions
    (tool : option Tool) (usageContext : McppUsageContext) (serverConfig : McppServerConfig)
  : TargetValidation :=
  let target := target usageContext in
  let tool_checks :=
    match tool_target_permissions tool with
    | Some policy =>
        if given (destination target)
        then tool_target_checks policy (type target) (destination target)
        else []
    | None => []
    end in
  let globalPolicy := default_target_policy (global_policies serverConfig) in
  match first_denial (tool_checks
                      ++ global_target_checks globalPolicy (type target) (destination target)) with
  | Some r => {| target_allowed := false; target_reason := r |}
  | None => {| target_allowed := true; target_reason := "validation_passed" |}
  end.

(** The loop over [trusted_domains].  At a domain that starts with [*.] the
    loop calls [destination.endsWith], which an array does not have. *)
Inductive DomainCheck : Type :=
| TrustedDomain
| NoTrustedDomain
| TypeError.

Fixpoint check_trusted_domains (destination : Destination) (domains : list string)
  : DomainCheck :=
  match domains with
  | [] => NoTrustedDomain
  | domain :: rest =>
      if startsWith domain "*." then
        match destination with
        | OneDestination d =>
            if endsWith d (substring_from 2 domain) then TrustedDomain
            else check_trusted_domains destination rest
        | _ => TypeError
        end
      else
        match destination with
        | OneDestination d =>
            if String.eqb d domain then TrustedDomain
            else check_trusted_domains destination rest
        | _ => check_trusted_domains destination rest
        end
  end.

Definition checkConsentRequired
    (tool : option Tool) (usageContext : McppUsageContext) (serverConfig : McppServerConfig)
  : option ConsentCheckResult :=
  let target := target usageContext in
  let data_usage := data_usage usageContext in
  let settings := user_consent_settings (global_policies serverConfig) in
  let target_categories := target_categories (global_policies serverConfig) in
  let overrides := tool_consent_overrides tool in
  let destination := destination target in
  if bool_decide (data_usage = Display) && bool_decide (type target = Client)
  then Some (no_consent "display_to_client")
  else if default false (never_require_consent <$> overrides)
  then Some (no_consent "tool_override_never")
  else if default false (always_require_consent <$> overrides)
  then Some {| consent_required := true; reason := ["tool_override_always"];
               consent_cache_key := None; trusted_server := false;
               custom_message := overrides ≫= custom_consent_message |}
  else if negb (given destination)
  then Some (no_consent "no_consent_required")
  else if default false ((fun l => includes_destination l destination)
                           <$> (overrides ≫= allowed_without_consent))
  then Some (no_consent "tool_allowed_list")
  else if includes_destination (trusted_targets settings) destination
  then Some (no_consent "trusted_target")
  else
    match check_trusted_domains destination (trusted_domains settings) with
    | TypeError => None
    | TrustedDomain => Some (no_consent "trusted_domain")
    | NoTrustedDomain =>
        let targetInfo := get_property target_categories (destination_text destination) in
        if match targetInfo with
           | Own info => negb (requires_consent info)
           | Inherited => true
           | Missing => false
           end
        then Some (no_consent "category_exemption")
        else
          match consent_reasons tool data_usage (type target)
                  (require_consent_for settings) (own targetInfo) with
          | [] => Some (no_consent "no_consent_required")
          | reasons =>
              Some {| consent_required := true; reason := reasons;
                      consent_cache_key :=
                        Some (destination_text destination +:+ "_" +:+ DataUsage_name data_usage
                              +:+ "_" +:+ TargetType_name (type target));
                      trusted_server := false;
                      custom_message :=
                        Some (string_or (overrides ≫= custom_consent_message)
                                ("This operation will send data to "
                                 +:+ TargetType_name (type target) +:+ " '"
                                 +:+ destination_text destination
                                 +:+ "'. Do you want to proceed?")) |}
          end
    end.

Record TransferDetails : Type := {
  destination_server : Destination;
  destination_description : option string;
  transfer_data_usage : DataUsage;
  transfer_trust_level : TrustLevel
}.

Record ConsentRequest : Type := {
  request_id : string;
  tool_name : string;
  data_summary : DataSummary;
  transfer_details : TransferDetails;
  options : ConsentOptions;
  request_custom_message : option string
}.

Definition createConsentRequest
    (now : Z) (random36 : string)
    (tool : option Tool) (usageContext : McppUsageContext) (serverConfig : McppServerConfig)
    (placeholderData : any) : ConsentRequest :=
  let requestId := "consent_" +:+ string_of_Z now +:+ "_" +:+ String.substring 2 9 random36 in
  let destination := destination (target usageContext) in
  let targetInfo :=
    own (get_property (target_categories (global_policies serverConfig))
           (destination_text destination)) in
  let settings := user_consent_settings (global_policies serverConfig) in
  {| request_id := requestId;
     tool_name := string_or (name <$> tool) "unknown";
     data_summary := summarize placeholderData;
     transfer_details :=
       {| destination_server := destination;
          destination_description := targetInfo ≫= description;
          transfer_data_usage := data_usage usageContext;
          transfer_trust_level := default Low (trust_level <$> targetInfo) |};
     options :=
       {| allow_remember := allow_remember_choice settings;
          timeout_seconds := consent_timeout_seconds settings;
          option_show_data_preview := show_data_preview settings |};
     request_custom_message := tool_consent_overrides tool ≫= custom_consent_message |}.

Record ValidationResult : Type := {
  allowed : bool;
  error_code : option Z;
  error_message : option string;
  consent_request : option ConsentRequest;
  validation_details : ValidationDetails
}.

(** Complete validation; [None] when the consent check throws. *)
Definition validateDataAccess
    (now : Z) (random36 : string)
    (tool : option Tool) (usageContext : McppUsageContext) (serverConfig : McppServerConfig)
    (placeholderData : any) : option ValidationResult :=
  let effectivePermission :=
    getEffectiveDataUsagePermission tool (data_usage usageContext) serverConfig in
  if bool_decide (effectivePermission = Deny) then
    Some {| allowed := false;
            error_code := Some MCPP_ERRORS.INSUFFICIENT_PERMISSIONS;
            error_message :=
              Some ("Data usage '" +:+ DataUsage_name (data_usage usageContext)
                    +:+ "' is not permitted for this tool");
            consent_request := None;
            validation_details :=
              {| data_usage_valid := false; target_permissions_valid := false;
                 consent_check := denied_check "denied" |} |}
  else
    let targetValidation := validateTargetPermissions tool usageContext serverConfig in
    if negb (target_allowed targetValidation) then
      Some {| allowed := false;
              error_code := Some MCPP_ERRORS.INSUFFICIENT_PERMISSIONS;
              error_message := Some ("Target access denied: " +:+ target_reason targetValidation);
              consent_request := None;
              validation_details :=
                {| data_usage_valid := true; target_permissions_valid := false;
                   consent_check := denied_check "target_denied" |} |}
    else
      match checkConsentRequired tool usageContext serverConfig with
      | None => None
      | Some consentCheck =>
          if consent_required consentCheck then
            Some {| allowed := false;
                    error_code := Some MCPP_ERRORS.CONSENT_REQUIRED;
                    error_message := Some "User consent required for data transfer";
                    consent_request :=
                      Some (createConsentRequest now random36 tool usageContext serverConfig
                              placeholderData);
                    validation_details :=
                      {| data_usage_valid := true; target_permissions_valid := true;
                         consent_check := consentCheck |} |}
          else if bool_decide (effectivePermission = Prompt) then
            Some {| allowed := false;
                    error_code := Some MCPP_ERRORS.CONSENT_REQUIRED;
                    error_message := Some "User confirmation required for this operation";
                    consent_request :=
                      Some (createConsentRequest now random36 tool usageContext serverConfig
                              placeholderData);
                    validation_details :=
                      {| data_usage_valid := true; target_permissions_valid := true;
                         consent_check :=
                           {| consent_required := true; reason := ["prompt_required"];
                              consent_cache_key := consent_cache_key consentCheck;
                              trusted_server := trusted_server consentCheck;
                              custom_message := custom_message consentCheck |} |} |}
          else
            Some {| allowed := true;
                    error_code := None;
                    error_message := None;
                    consent_request := None;
                    validation_details :=
                      {| data_usage_valid := true; target_permissions_valid := true;
                         consent_check := consentCheck |} |}
      end.

End Declared.

(** A usage context with a string or absent destination, at its declared
    type. *)
Definition declared_destination (destination : option string) : Declared.Destination :=
  match destination with
  | Some d => Declared.OneDestination d
  | None => Declared.NoDestination
  end.

Definition declared (usageContext : McppUsageContext) : Declared.McppUsageContext :=
  {| Declared.data_usage := data_usage usageContext;
     Declared.requester := requester usageContext;
     Declared.target :=
       {| Declared.type := type (target usageContext);
          Declared.destination := declared_destination (destination (target usageContext)) |} |}.

(** The policies of the tools [add_books_invoice] and
    [delete_books_payment] (zoho-books-mcpp-server): the first asks before a
    transfer, the second denies it; neither restricts the targets. *)
Definition add_books_invoice : Tool :=
  {| name := "add_books_invoice";
     isSensitive := false;
     dataPolicy :=
       Some {| data_usage_permissions :=
                 Some (fun u => match u with
                                | Transfer => Some Prompt
                                | _ => Some Allow
                                end);
               target_permissions := None;
               consent_overrides := None |} |}.

Definition delete_books_payment : Tool :=
  {| name := "delete_books_payment";
     isSensitive := false;
     dataPolicy :=
       Some {| data_usage_permissions :=
                 Some (fun u => match u with
                                | Transfer => Some Deny
                                | _ => Some Allow
                                end);
               target_permissions := None;
               consent_overrides := None |} |}.

(** A usage context whose destination is an array of strings. *)
Definition usage_many (u : DataUsage) (t : TargetType) (l : list string)
  : Declared.McppUsageContext :=
  {| Declared.data_usage := u;
     Declared.requester := {| host_id := "host"; session_id := None; timestamp := 0 |};
     Declared.target := {| Declared.type := t; Declared.destination := Declared.ManyDestinations l |} |}.

(** ** Table format (mcpp-data-utils) *)

(** [/^-?\d+$/.test(s)]. *)
Definition is_integer_text (s : string) : bool :=
  let ds := match s with
            | String "-" r => r
            | _ => s
            end in
  negb (String.eqb ds "") && all_chars is_digit ds.

(** [Object.keys(v)] with the values [v[key]]; [None] when [Object.keys]
    throws, on [null] and [undefined]. *)
Definition own_entries (v : any) : option (list (string * any)) :=
  match v with
  | JObj fields => Some fields
  | JArr items => Some (imap (fun i x => (string_of_Z (Z.of_nat i), x)) items)
  | JStr s =>
      Some (imap (fun i c => (string_of_Z (Z.of_nat i), JStr (String c "")))
              (list_ascii_of_string s))
  | JNum _ | JBool _ => Some []
  | JNull | JUndefined => None
  end.

(** The index that a property name denotes in an array or a string. *)
Definition index_of_key (key : string) : option nat :=
  if negb (String.eqb key "") && all_chars is_digit key
     && String.eqb (string_of_Z (digits_value key)) key
  then Some (Z.to_nat (digits_value key))
  else None.

(** The own property [v[key]] of a value, [None] when it has none of that
    name. *)
Definition own_member (v : any) (key : string) : option any :=
  match v with
  | JObj fields => snd <$> List.find (fun kv => String.eqb (fst kv) key) fields
  | JArr items =>
      if String.eqb key "length" then Some (JNum (Z.of_nat (length items)))
      else index_of_key key ≫= (fun i => items !! i)
  | JStr s =>
      if String.eqb key "length" then Some (JNum (Z.of_nat (String.length s)))
      else index_of_key key
           ≫= (fun i => (fun c => JStr (String c "")) <$> list_ascii_of_string s !! i)
  | _ => None
  end.

(** [Array.prototype.sort()] on strings: by code units. *)
Fixpoint insert_sorted (x : string) (l : list string) : list string :=
  match l with
  | [] => [x]
  | y :: r => if String.leb x y then x :: l else y :: insert_sorted x r
  end.

Definition sort_strings (l : list string) : list string := fold_right insert_sorted [] l.

(** A header or a cell of a converted table: a string, or the member that
    a plain object inherits from [Object.prototype] under a key it does not
    own (a function, or the prototype itself). *)
Inductive TableValue : Type :=
| TableText (text : string)
| InheritedMember (key : string).

Record Table : Type := {
  table_headers : list TableValue;
  table_rows : list (list TableValue)
}.

(** [object[key] || fallback] on a plain object of strings: an inherited
    member is truthy. *)
Definition member_or (object : gmap string string) (key fallback : string) : TableValue :=
  match Declared.get_property object key with
  | Declared.Own (String c r) => TableText (String c r)
  | Declared.Own EmptyString | Declared.Missing => TableText fallback
  | Declared.Inherited => InheritedMember key
  end.


Section table_format.

(** [JSON.parse]; [None] when it throws. *)
Variable JSON_parse : string -> option any.

(** The text that the compact format writes for a member that an item
    inherits from its prototype chain under a key it does not own
    ([String] of a method, [JSON.stringify] of a prototype object); [None]
    when the item inherits no member of that name. *)
Variable inherited_text : any -> string -> option string.

(** A value after the attempt to read a string that is not an integer
    numeral as JSON. *)
Definition parsed_value (value : any) : any :=
  match value with
  | JStr s => if is_integer_text s then value else default value (JSON_parse s)
  | _ => value
  end.

(** [expandedItem[columnName] = text] on an object literal. *)
Definition set_column (columnName text : string) (expandedItem : gmap string string)
  : gmap string string :=
  if String.eqb columnName "__proto__" then expandedItem
  else <[columnName := text]> expandedItem.

(** One turn of the loop over the keys of an item. *)
Definition expand_value (key : string) (value : any) (expandedItem : gmap string string)
  : gmap string string :=
  match value with
  | JNull | JUndefined => set_column key "" expandedItem
  | _ =>
      let processedValue := parsed_value value in
      match processedValue with
      | JObj _ | JArr _ =>
          fold_left (fun acc sub =>
                       match sub with
                       | (subKey, subValue) =>
                           set_column (key +:+ "_" +:+ subKey)
                             match subValue with
                             | JNull | JUndefined => ""
                             | _ => toString subValue
                             end acc
                       end)
            (default [] (own_entries processedValue)) expandedItem
      | _ => set_column key (toString processedValue) expandedItem
      end
  end.

Definition expandItem (item : any) : option (gmap string string) :=
  fields ← own_entries item;
  Some (fold_left (fun acc kv => match kv with
                                 | (key, value) => expand_value key value acc
                                 end) fields ∅).

(** A cell of the compact format, from the value of an own property. *)
Definition compact_cell (value : any) : string :=
  match value with
  | JNull | JUndefined => ""
  | _ =>
      let processedValue := parsed_value value in
      match processedValue with
      | JObj _ | JArr _ => default "" (JSON_stringify processedValue)
      | _ => toString processedValue
      end
  end.

(** The cell of the compact format for [item[header]]; [None] when the
    access throws, on [null] and [undefined]. *)
Definition compact_member (item : any) (header : string) : option TableValue :=
  match item with
  | JNull | JUndefined => None
  | _ =>
      Some (TableText match own_member item header with
                      | Some value => compact_cell value
                      | None => default "" (inherited_text item header)
                      end)
  end.

(** [finalHeaders] of the expanding format. *)
Definition expanded_columns
    (actualMandatoryColumns : list string) (expandedData : list (gmap string string))
  : list string :=
  let allExpandedHeaders :=
    sort_strings
      (elements (union_list (map (fun item : gmap string string => dom item)
                               expandedData) : gset string)) in
  match actualMandatoryColumns with
  | [] => allExpandedHeaders
  | _ =>
      List.filter
        (fun header =>
           existsb (fun mandatoryCol =>
                      String.eqb header mandatoryCol
                      || startsWith header (mandatoryCol +:+ "_"))
             actualMandatoryColumns)
        allExpandedHeaders
  end.

(** [convertToTableFormat]; [None] when it throws. *)
Definition convertToTableFormat
    (dataArray : any) (columnMappingOrMandatoryColumns : gmap string string + list string)
    (mandatoryColumns : list string) (expandJsonObjects : bool) : option Table :=
  let columnMapping :=
    match columnMappingOrMandatoryColumns with
    | inl mapping => mapping
    | inr _ => ∅
    end in
  let actualMandatoryColumns :=
    match columnMappingOrMandatoryColumns with
    | inl _ => mandatoryColumns
    | inr columns => columns
    end in
  let renamed (header : string) := member_or columnMapping header header in
  match dataArray with
  | JArr ((first :: _) as items) =>
      if expandJsonObjects then
        match mapM expandItem items with
        | None => None
        | Some expandedData =>
            let finalHeaders := expanded_columns actualMandatoryColumns expandedData in
            Some {| table_headers := map renamed finalHeaders;
                    table_rows :=
                      map (fun item => map (fun header => member_or item header "") finalHeaders)
                        expandedData |}
        end
      else
        match own_entries first with
        | None => None
        | Some entries =>
            let allOriginalHeaders := map fst entries in
            let originalHeaders :=
              match actualMandatoryColumns with
              | [] => allOriginalHeaders
              | _ => List.filter (includes actualMandatoryColumns) allOriginalHeaders
              end in
            match mapM (fun item => mapM (compact_member item) originalHeaders) items with
            | None => None
            | Some rows => Some {| table_headers := map renamed originalHeaders;
                                   table_rows := rows |}
            end
        end
  | _ => Some {| table_headers := []; table_rows := [] |}
  end.

(** [convertToExpandedTableFormat] and [convertToCompactTableFormat]. *)
Definition convertToExpandedTableFormat
    (dataArray : any) (mandatoryColumns : list string) (columnMapping : gmap string string)
  : option Table :=
  convertToTableFormat dataArray (inl columnMapping) mandatoryColumns true.

Definition convertToCompactTableFormat
    (dataArray : any) (mandatoryColumns : list string) (columnMapping : gmap string string)
  : option Table :=
  convertToTableFormat dataArray (inl columnMapping) mandatoryColumns false.

End table_format.

(** A [JSON.parse] for the scenarios: it reads one object and rejects every
    other text. *)
Definition parse_address (s : string) : option any :=
  if String.eqb s ("{" +:+ JSON_quote "city" +:+ ":" +:+ JSON_quote "Lyon" +:+ "}")
  then Some (JObj [("city", JStr "Lyon")])
  else None.


(** Two records, the first with a key named like a member of
    [Object.prototype]. *)
Definition constructor_records : any :=
  JArr [JObj [("constructor", JStr "x")]; JObj [("a", JStr "1")]].

(** No item inherits a member: the prototype chains are left out. *)
Definition nothing_inherited (item : any) (key : string) : option string := None.

(** ** The placeholder grammar in the words of the specification

    A placeholder is written [{call_id.row_index.column_name}]; [call_id]
    and [column_name] match [[A-Za-z0-9_-]+], and [row_index] is a
    non-negative decimal integer.  The definitions below write this down
    without the matcher of the embedding. *)

Definition identifier_alphabet : list ascii :=
  list_ascii_of_string "abcdefghijklmnopqrstuvwxyzABCDEFGHIJKLMNOPQRSTUVWXYZ0123456789_-".

(** A non-empty string over the alphabet of identifiers. *)
Definition identifier (s : string) : bool :=
  negb (String.eqb s "")
  && forallb (fun c => existsb (Ascii.eqb c) identifier_alphabet) (list_ascii_of_string s).

(** The number written by a non-empty string of decimal digits, read with
    the decimal numerals of the standard library. *)
Definition row_number (row : string) : option nat :=
  if String.eqb row "" then None
  else (fun u => N.to_nat (N.of_uint u)) <$> NilEmpty.uint_of_string row.

Definition placeholder_text (call_id row col : string) : string :=
  "{" +:+ call_id +:+ "." +:+ row +:+ "." +:+ col +:+ "}".

(** A string without opening brace. *)
Definition plain_text (x : string) : Prop :=
  forall c, In c (list_ascii_of_string x) -> c <> "{"%char.

(** ** Numbers whose text is their decimal numeral

    A JavaScript number is a double: an integer stands for one exactly up
    to [Number.MAX_SAFE_INTEGER], and [String] prints such a number as its
    decimal numeral. *)

Definition MAX_SAFE_INTEGER : Z := 9007199254740991.

Fixpoint safe_integers (v : any) : bool :=
  match v with
  | JNum n => (Z.abs n <=? MAX_SAFE_INTEGER)%Z
  | JArr items => forallb safe_integers items
  | JObj fields => forallb (fun kv => safe_integers (snd kv)) fields
  | _ => true
  end.

(** Every cell of every cached table holds safe integers only. *)
Definition safe_cells (cache : DataCache) : Prop :=
  forall call_id headers rows cells v,
    cache !! call_id = Some (TableData headers rows) ->
    In cells rows -> In v cells -> safe_integers v = true.

(** * Properties *)

(** In this part [simpl] and [cbn] unfold the append of strings. *)
#[local] Arguments String.append !_ _ / : simpl nomatch.

(** ** Scenarios *)

Example sole_keeps_type :
  resolveArgumentPlaceholders (JStr "{t1.0.Age}") t1 = JNum 42.
Proof. reflexivity. Qed.

Example embedded_stringified :
  resolveArgumentPlaceholders (JStr "User {t1.0.ID}/{t1.0.Age}") t1 = JStr "User 1/42".
Proof. reflexivity. Qed.

Example unknown_column_kept :
  resolveArgumentPlaceholders (JObj [("a", JArr [JStr "x {t1.0.Nope} {t1.0.ID}"])]) t1
  = JObj [("a", JArr [JStr "x {t1.0.Nope} 1"])].
Proof. reflexivity. Qed.

Example blocked_target_scenario :
  let r := validateDataAccess 0 "0.abcdefghijk" (Some get_books_invoices)
             (usage Transfer Llm "gpt-4") defaultMcppConfig (JStr "{t1.0.Name}") in
  (allowed r, error_code r, error_message r)
  = (false, Some (-32005)%Z, Some "Target access denied: llm_blocked_by_tool").
Proof. vm_compute. reflexivity. Qed.

Example prompt_scenario :
  let r := validateDataAccess 1672531200 "0.abc123xyz99" (Some get_books_invoices)
             (usage Transfer Llm "claude-3") defaultMcppConfig (JStr "Hi {t1.0.Name}, {t1.0.Email}") in
  (allowed r, error_code r, error_message r,
   request_id <$> consent_request r, data_summary <$> consent_request r)
  = (false, Some (-32007)%Z, Some "User confirmation required for this operation",
     Some "consent_1672531200_abc123xyz", 
     Some {| placeholder_count := 2; data_types := ["Name"; "Email"];
             sensitive_fields := ["Email"] |}).
Proof. vm_compute. reflexivity. Qed.

Example tracking_scenario :
  resolveWithTracking t1 (JStr "User {t1.0.ID}/{t1.0.Age} {t1.0.Nope}") no_tracking
  = (JStr "User 1/42 {t1.0.Nope}",
     {| total_placeholders := 3; resolved_placeholders := 2;
        failed_placeholders := ["{t1.0.Nope}"] |}).
Proof. vm_compute. reflexivity. Qed.

Example replacement_pattern_in_value :
  fst (resolveWithTracking {[ "t" := TableData ["A"] [[JStr "<$&>"]] ]}
         (JStr "a {t.0.A} b") no_tracking)
  = JStr "a <{t.0.A}> b".
Proof. vm_compute. reflexivity. Qed.

Example no_reference_scenario :
  handleFindReference exact_similarity contacts_cache
    (Some {| find_tool_call_id := JStr "t1"; find_keyword := "zzzz"; find_column_name := "" |})
    (JNum 3)
  = Error (Some (-32002)%Z) (Some "No suitable reference found for the given keyword")
      (NoReference "zzzz" (7 # 10) 0 2 2) (JNum 3).
Proof. vm_compute. reflexivity. Qed.

Example display_to_client_scenario :
  handleGetData 0 "0.abcdefghijk" invoices_cache
    (Some {| get_tool_call_id := JStr "t1";
             get_usage_context := Some (usage Display Client "dash") |})
    (JNum 7) None (Some defaultMcppConfig)
  = Result invoices_table (JNum 7).
Proof. vm_compute. reflexivity. Qed.

Example consent_cache_freshness :
  let c := setConsent 1000 "host::gpt-4::transfer" DecisionAllow 5 "host" "gpt-4" "transfer"
             {| cache := ∅; pendingRequests := ∅; settled := [] |} in
  fst (getConsent 301000 "host::gpt-4::transfer" c) = Some DecisionAllow
  /\ fst (getConsent 301001 "host::gpt-4::transfer" c) = None
  /\ generateCacheKey "host" "gpt-4" "transfer" None = "host::gpt-4::transfer".
Proof. vm_compute. repeat split; reflexivity. Qed.

(** ** Policy evaluation *)

Lemma validateDataAccess_deny
    (now : Z) (random36 : string) (tool : option Tool) (usageContext : McppUsageContext)
    (serverConfig : McppServerConfig) (placeholderData : any) :
  getEffectiveDataUsagePermission tool (data_usage usageContext) serverConfig = Deny ->
  let r := validateDataAccess now random36 tool usageContext serverConfig placeholderData in
  allowed r = false
  /\ error_code r = Some MCPP_ERRORS.INSUFFICIENT_PERMISSIONS
  /\ error_message r = Some ("Data usage '" +:+ DataUsage_name (data_usage usageContext)
                             +:+ "' is not permitted for this tool")
  /\ data_usage_valid (validation_details r) = false.
Proof.
  intros Hdeny. unfold validateDataAccess. rewrite Hdeny. cbn. auto.
Qed.

Lemma validateDataAccess_target_denied
    (now : Z) (random36 : string) (tool : option Tool) (usageContext : McppUsageContext)
    (serverConfig : McppServerConfig) (placeholderData : any) :
  getEffectiveDataUsagePermission tool (data_usage usageContext) serverConfig <> Deny ->
  target_allowed (validateTargetPermissions tool usageContext serverConfig) = false ->
  let r := validateDataAccess now random36 tool usageContext serverConfig placeholderData in
  allowed r = false
  /\ error_code r = Some MCPP_ERRORS.INSUFFICIENT_PERMISSIONS
  /\ error_message r
     = Some ("Target access denied: "
             +:+ target_reason (validateTargetPermissions tool usageContext serverConfig))
  /\ data_usage_valid (validation_details r) = true
  /\ target_permissions_valid (validation_details r) = false.
Proof.
  intros Hperm Htarget. unfold validateDataAccess.
  rewrite bool_decide_eq_false_2 by exact Hperm.
  rewrite Htarget. cbn. auto.
Qed.

(** The target step does not look at the data usage. *)
Lemma validateTargetPermissions_data_usage
    (tool : option Tool) (u : DataUsage) (usageContext : McppUsageContext)
    (serverConfig : McppServerConfig) :
  validateTargetPermissions tool (with_data_usage u usageContext) serverConfig
  = validateTargetPermissions tool usageContext serverConfig.
Proof. reflexivity. Qed.

(** What [validation_details] tells about the steps that ran. *)
Lemma validation_details_target_step
    (now : Z) (random36 : string) (tool : option Tool) (usageContext : McppUsageContext)
    (serverConfig : McppServerConfig) (placeholderData : any) :
  let r := validateDataAccess now random36 tool usageContext serverConfig placeholderData in
  data_usage_valid (validation_details r) = true ->
  target_permissions_valid (validation_details r) = false ->
  target_allowed (validateTargetPermissions tool usageContext serverConfig) = false.
Proof.
  unfold validateDataAccess.
  destruct (bool_decide _); cbn; [discriminate |].
  destruct (target_allowed _); cbn; [| reflexivity].
  destruct (consent_required _); cbn; [discriminate |].
  destruct (bool_decide _); cbn; discriminate.
Qed.

(** ** The evaluator on declared usage contexts *)

(** On a string the loop over the trusted domains is the search of the
    evaluator on strings. *)
Lemma check_trusted_domains_string (d : string) (domains : list string) :
  Declared.check_trusted_domains (Declared.OneDestination d) domains
  = if existsb (trusted_domain_matches d) domains
    then Declared.TrustedDomain else Declared.NoTrustedDomain.
Proof.
  induction domains as [| domain rest IH]; [reflexivity |].
  cbn [Declared.check_trusted_domains existsb]. unfold trusted_domain_matches at 1.
  destruct (startsWith domain "*.").
  - destruct (endsWith d (substring_from 2 domain)); [reflexivity | exact IH].
  - destruct (String.eqb d domain); [reflexivity | exact IH].
Qed.

(** On an array the loop throws at the first domain that starts with [*.],
    and finds no trusted domain when there is none. *)
Lemma check_trusted_domains_array (l : list string) (domains : list string) :
  Declared.check_trusted_domains (Declared.ManyDestinations l) domains
  = if existsb (fun domain => startsWith domain "*.") domains
    then Declared.TypeError else Declared.NoTrustedDomain.
Proof.
  induction domains as [| domain rest IH]; [reflexivity |].
  cbn [Declared.check_trusted_domains existsb].
  destruct (startsWith domain "*."); [reflexivity | exact IH].
Qed.

(** The target step on a string or absent destination is the one of the
    evaluator on strings. *)
Lemma validateTargetPermissions_declared
    (tool : option Tool) (usageContext : McppUsageContext) (serverConfig : McppServerConfig) :
  Declared.validateTargetPermissions tool (declared usageContext) serverConfig
  = validateTargetPermissions tool usageContext serverConfig.
Proof.
  unfold Declared.validateTargetPermissions, validateTargetPermissions, declared.
  cbn [Declared.target Declared.destination Declared.type].
  destruct (tool_target_permissions tool) as [policy |];
    destruct (destination (target usageContext)) as [[| c d] |]; reflexivity.
Qed.

(** The consent check on a string or absent destination that names no
    member of [Object.prototype], unless the configuration has an entry of
    that name, is the one of the evaluator on strings. *)
Lemma checkConsentRequired_declared
    (tool : option Tool) (usageContext : McppUsageContext) (serverConfig : McppServerConfig) :
  (forall d, destination (target usageContext) = Some d ->
             Declared.get_property (target_categories (global_policies serverConfig)) d
             <> Declared.Inherited) ->
  Declared.checkConsentRequired tool (declared usageContext) serverConfig
  = Some (checkConsentRequired tool usageContext serverConfig).
Proof.
  intros Hown. unfold Declared.checkConsentRequired, checkConsentRequired, declared.
  cbn [Declared.target Declared.destination Declared.type Declared.data_usage].
  destruct (bool_decide (data_usage usageContext = Display)
            && bool_decide (type (target usageContext) = Client)); [reflexivity |].
  destruct (default false (never_require_consent <$> tool_consent_overrides tool));
    [reflexivity |].
  destruct (default false (always_require_consent <$> tool_consent_overrides tool));
    [reflexivity |].
  destruct (destination (target usageContext)) as [[| c d] |] eqn:Hdest; try reflexivity.
  specialize (Hown (String c d) eq_refl).
  cbn [declared_destination Declared.given Declared.includes_destination
       Declared.destination_text].
  replace (negb (String.eqb (String c d) "")) with true by reflexivity.
  cbn [negb].
  destruct (default false (_ <$> tool_consent_overrides tool ≫= allowed_without_consent));
    [reflexivity |].
  destruct (includes _ (String c d)); [reflexivity |].
  rewrite check_trusted_domains_string.
  destruct (existsb _ _); [reflexivity |].
  unfold Declared.get_property in *.
  destruct (target_categories (global_policies serverConfig) !! String c d) as [info |].
  - cbn [Declared.own fmap option_fmap option_map default].
    destruct (negb (requires_consent info)); [reflexivity |].
    destruct (consent_reasons _ _ _ _ _); reflexivity.
  - destruct (includes Declared.Object_prototype (String c d)); [contradiction |].
    cbn [Declared.own fmap option_fmap option_map default].
    destruct (consent_reasons _ _ _ _ _); reflexivity.
Qed.

(** On such a usage context the complete validation returns, with the
    outcome of the evaluator on strings. *)
Lemma validateDataAccess_declared
    (now : Z) (random36 : string) (tool : option Tool) (usageContext : McppUsageContext)
    (serverConfig : McppServerConfig) (placeholderData : any) :
  (forall d, destination (target usageContext) = Some d ->
             Declared.get_property (target_categories (global_policies serverConfig)) d
             <> Declared.Inherited) ->
  let r := validateDataAccess now random36 tool usageContext serverConfig placeholderData in
  exists r',
    Declared.validateDataAccess now random36 tool (declared usageContext) serverConfig
      placeholderData = Some r'
    /\ Declared.allowed r' = allowed r
    /\ Declared.error_code r' = error_code r
    /\ Declared.error_message r' = error_message r
    /\ Declared.validation_details r' = validation_details r
    /\ (is_Some (Declared.consent_request r') <-> is_Some (consent_request r)).
Proof.
  intros Hown. cbn zeta. unfold Declared.validateDataAccess, validateDataAccess.
  rewrite validateTargetPermissions_declared, (checkConsentRequired_declared _ _ _ Hown).
  change (Declared.data_usage (declared usageContext)) with (data_usage usageContext).
  destruct (bool_decide (getEffectiveDataUsagePermission tool (data_usage usageContext)
                           serverConfig = Deny)).
  { eexists. repeat split; intros [x Hx]; discriminate Hx. }
  destruct (negb (target_allowed (validateTargetPermissions tool usageContext serverConfig))).
  { eexists. repeat split; intros [x Hx]; discriminate Hx. }
  destruct (consent_required (checkConsentRequired tool usageContext serverConfig)).
  { eexists. repeat split; intros _; eexists; reflexivity. }
  destruct (bool_decide (getEffectiveDataUsagePermission tool (data_usage usageContext)
                           serverConfig = Prompt)).
  { eexists. repeat split; intros _; eexists; reflexivity. }
  eexists. repeat split; intros [x Hx]; discriminate Hx.
Qed.

(** The consent check throws only on an array, at a trusted domain that
    starts with [*.]. *)
Lemma checkConsentRequired_throws
    (tool : option Tool) (usageContext : Declared.McppUsageContext)
    (serverConfig : McppServerConfig) :
  Declared.checkConsentRequired tool usageContext serverConfig = None ->
  (exists l, Declared.destination (Declared.target usageContext) = Declared.ManyDestinations l)
  /\ existsb (fun domain => startsWith domain "*.")
       (trusted_domains (user_consent_settings (global_policies serverConfig))) = true.
Proof.
  unfold Declared.checkConsentRequired.
  destruct (bool_decide _ && bool_decide _); [discriminate |].
  destruct (default false (never_require_consent <$> _)); [discriminate |].
  destruct (default false (always_require_consent <$> _)); [discriminate |].
  destruct (Declared.destination (Declared.target usageContext)) as [| d | l] eqn:Hdest.
  - discriminate.
  - destruct (negb _); [discriminate |].
    destruct (default false (_ <$> _ ≫= allowed_without_consent)); [discriminate |].
    destruct (Declared.includes_destination _ _); [discriminate |].
    rewrite check_trusted_domains_string.
    destruct (existsb _ _); [discriminate |].
    destruct (Declared.get_property _ _); [destruct (negb _) | |];
      try discriminate; destruct (consent_reasons _ _ _ _ _); discriminate.
  - cbn [Declared.given negb Declared.includes_destination].
    destruct (default false (_ <$> _ ≫= allowed_without_consent)); [discriminate |].
    rewrite check_trusted_domains_array.
    destruct (existsb _ _) eqn:Hwild.
    + intros _. split; [eauto | reflexivity].
    + destruct (Declared.get_property _ _); [destruct (negb _) | |];
        try discriminate; destruct (consent_reasons _ _ _ _ _); discriminate.
Qed.

(** When the consent check returns, a [prompt] permission past the target
    step is answered with [CONSENT_REQUIRED] and a consent request,
    whatever the check says. *)
Lemma prompt_requires_consent_when_checked
    (now : Z) (random36 : string) (tool : option Tool)
    (usageContext : Declared.McppUsageContext) (serverConfig : McppServerConfig)
    (placeholderData : any) (check : ConsentCheckResult) :
  getEffectiveDataUsagePermission tool (Declared.data_usage usageContext) serverConfig
  = Prompt ->
  target_allowed (Declared.validateTargetPermissions tool usageContext serverConfig) = true ->
  Declared.checkConsentRequired tool usageContext serverConfig = Some check ->
  exists r,
    Declared.validateDataAccess now random36 tool usageContext serverConfig placeholderData
    = Some r
    /\ Declared.allowed r = false
    /\ Declared.error_code r = Some MCPP_ERRORS.CONSENT_REQUIRED
    /\ Declared.consent_request r
       = Some (Declared.createConsentRequest now random36 tool usageContext serverConfig
                 placeholderData)
    /\ (consent_required check = false ->
        reason (consent_check (Declared.validation_details r)) = ["prompt_required"]).
Proof.
  intros Hprompt Htarget Hcheck. unfold Declared.validateDataAccess.
  rewrite Hprompt, Htarget, Hcheck. cbn.
  destruct (consent_required check); cbn; eexists; repeat split; try reflexivity.
  discriminate.
Qed.

(** C4.  A transfer by the tool [add_books_invoice], whose policy asks
    before a transfer, to the language models [["gpt-4"]], the destination
    given as an array, under the default configuration: the effective
    permission is [prompt] and the target step passes, and the consent
    check throws a [TypeError] at [destination.endsWith] for the trusted
    domain [*.company.com], so that the evaluator returns no result, where
    a result with code [CONSENT_REQUIRED] (-32007) and a consent request is
    due.  The same request with the destination ["gpt-4"] given as a string
    gets it. *)
Theorem prompt_with_destination_array_throws :
  let tool := Some add_books_invoice in
  let uc := usage_many Transfer Llm ["gpt-4"] in
  getEffectiveDataUsagePermission tool (Declared.data_usage uc) defaultMcppConfig = Prompt
  /\ target_allowed (Declared.validateTargetPermissions tool uc defaultMcppConfig) = true
  /\ Declared.check_trusted_domains (Declared.destination (Declared.target uc))
       (trusted_domains (user_consent_settings (global_policies defaultMcppConfig)))
     = Declared.TypeError
  /\ Declared.checkConsentRequired tool uc defaultMcppConfig = None
  /\ Declared.validateDataAccess 0 "0.abcdefghijk" tool uc defaultMcppConfig (JStr "{t1.0.Age}")
     = None
  /\ (Declared.error_code
        <$> Declared.validateDataAccess 0 "0.abcdefghijk" tool
              (declared (usage Transfer Llm "gpt-4")) defaultMcppConfig (JStr "{t1.0.Age}"))
     = Some (Some (-32007)%Z).
Proof.
  cbn zeta. split; [reflexivity |]. split; [reflexivity |].
  assert (Hloop : Declared.check_trusted_domains (Declared.ManyDestinations ["gpt-4"])
                    (trusted_domains (user_consent_settings (global_policies defaultMcppConfig)))
                  = Declared.TypeError) by reflexivity.
  split; [exact Hloop |].
  assert (Hcheck : Declared.checkConsentRequired (Some add_books_invoice)
                     (usage_many Transfer Llm ["gpt-4"]) defaultMcppConfig = None).
  { unfold Declared.checkConsentRequired.
    cbn [usage_many Declared.target Declared.destination Declared.data_usage Declared.type].
    rewrite Hloop. reflexivity. }
  split; [exact Hcheck |]. split.
  - unfold Declared.validateDataAccess. rewrite Hcheck. reflexivity.
  - vm_compute. reflexivity.
Qed.

(** C5, as stated, fails: [delete_books_payment] denies [transfer], and a
    transfer request is refused with the code -32005 of
    [INSUFFICIENT_PERMISSIONS], not with -32006. *)
Lemma deny_is_not_invalid_data_usage_counterexample :
  let r := validateDataAccess 0 "0.abcdefghijk" (Some delete_books_payment)
             (usage Transfer Server "partner_crm") defaultMcppConfig (JStr "{t1.0.ID}") in
  getEffectiveDataUsagePermission (Some delete_books_payment) Transfer defaultMcppConfig = Deny
  /\ allowed r = false
  /\ error_code r = Some (-32005)%Z
  /\ error_message r = Some "Data usage 'transfer' is not permitted for this tool"
  /\ MCPP_ERRORS.INVALID_DATA_USAGE = (-32006)%Z
  /\ bool_decide (error_code r = Some MCPP_ERRORS.INVALID_DATA_USAGE) = false.
Proof. vm_compute. repeat split; reflexivity. Qed.

(** C5, amended.  When the effective data-usage permission of a (tool,
    usage context) pair at the requested level is [deny], the evaluator
    refuses with the code -32005 of [INSUFFICIENT_PERMISSIONS] and the
    message that names the level, whatever the target and the destination
    (a string, an array or none); and the deny is evaluated strictly at the
    requested level: a tool and a configuration with the same two entries
    at that level are refused alike, whatever their entries at the other
    levels and whatever the rest of the request. *)
Theorem deny_reports_insufficient_permissions
    (now : Z) (random36 : string) (tool : option Tool)
    (usageContext : Declared.McppUsageContext) (serverConfig : McppServerConfig)
    (placeholderData : any) :
  getEffectiveDataUsagePermission tool (Declared.data_usage usageContext) serverConfig
  = Deny ->
  (exists r,
     Declared.validateDataAccess now random36 tool usageContext serverConfig placeholderData
     = Some r
     /\ Declared.allowed r = false
     /\ Declared.error_code r = Some (-32005)%Z
     /\ MCPP_ERRORS.INSUFFICIENT_PERMISSIONS = (-32005)%Z
     /\ Declared.error_message r
        = Some ("Data usage '" +:+ DataUsage_name (Declared.data_usage usageContext)
                +:+ "' is not permitted for this tool")
     /\ Declared.consent_request r = None)
  /\ forall (now' : Z) (random36' : string) (tool' : option Tool)
            (usageContext' : Declared.McppUsageContext) (serverConfig' : McppServerConfig)
            (placeholderData' : any),
       Declared.data_usage usageContext' = Declared.data_usage usageContext ->
       tool_data_usage_permissions tool'
         ≫= (fun perms => perms (Declared.data_usage usageContext))
       = tool_data_usage_permissions tool
           ≫= (fun perms => perms (Declared.data_usage usageContext)) ->
       default_data_usage_policy (global_policies serverConfig')
         (Declared.data_usage usageContext)
       = default_data_usage_policy (global_policies serverConfig)
           (Declared.data_usage usageContext) ->
       Declared.error_code
         <$> Declared.validateDataAccess now' random36' tool' usageContext' serverConfig'
               placeholderData'
       = Some (Some (-32005)%Z).
Proof.
  intros Hdeny. split.
  - unfold Declared.validateDataAccess. rewrite Hdeny. cbn.
    eexists. repeat split; reflexivity.
  - intros now' random36' tool' usageContext' serverConfig' placeholderData' Hlevel Htool
           Hglobal.
    assert (Hdeny' : getEffectiveDataUsagePermission tool' (Declared.data_usage usageContext')
                       serverConfig' = Deny).
    { rewrite Hlevel. unfold getEffectiveDataUsagePermission in *.
      rewrite Htool, Hglobal. exact Hdeny. }
    unfold Declared.validateDataAccess. rewrite Hdeny'. reflexivity.
Qed.

Lemma deny_reports_insufficient_permissions_witness :
  getEffectiveDataUsagePermission (Some delete_books_payment)
    (Declared.data_usage (usage_many Transfer Servers ["partner_crm"; "backup_service"]))
    defaultMcppConfig = Deny
  /\ exists r,
       Declared.validateDataAccess 0 "0.abcdefghijk" (Some delete_books_payment)
         (usage_many Transfer Servers ["partner_crm"; "backup_service"]) defaultMcppConfig
         (JStr "{t1.0.ID}") = Some r
       /\ Declared.allowed r = false
       /\ Declared.error_code r = Some (-32005)%Z
       /\ MCPP_ERRORS.INSUFFICIENT_PERMISSIONS = (-32005)%Z
       /\ Declared.error_message r
          = Some "Data usage 'transfer' is not permitted for this tool"
       /\ Declared.consent_request r = None.
Proof.
  split; [reflexivity |].
  exact (proj1 (deny_reports_insufficient_permissions 0 "0.abcdefghijk" (Some delete_books_payment)
                  (usage_many Transfer Servers ["partner_crm"; "backup_service"])
                  defaultMcppConfig (JStr "{t1.0.ID}") eq_refl)).
Defined.

(** C3, as stated, fails: [no_display_tool] denies [display], and the same
    request at [process] is allowed. *)
Lemma display_deny_not_inherited_counterexample :
  let at_level (u : DataUsage) :=
    validateDataAccess 0 "0.abcdefghijk" (Some no_display_tool)
      (usage u Client "dashboard") defaultMcppConfig JNull in
  getEffectiveDataUsagePermission (Some no_display_tool) Display defaultMcppConfig = Deny
  /\ allowed (at_level Display) = false
  /\ error_code (at_level Display) = Some (-32005)%Z
  /\ allowed (at_level Process) = true.
Proof. vm_compute. repeat split; reflexivity. Qed.

(** C3, amended.  When the evaluation at [display] is refused at the
    target-permission step (the usage step passed), the evaluation of the
    same tool with the same target at any usage level is refused with
    [INSUFFICIENT_PERMISSIONS]. *)
Theorem target_denial_holds_at_every_level
    (now now' : Z) (random36 random36' : string) (tool : option Tool)
    (usageContext : McppUsageContext) (serverConfig : McppServerConfig)
    (placeholderData placeholderData' : any) (u : DataUsage) :
  let r := validateDataAccess now random36 tool (with_data_usage Display usageContext)
             serverConfig placeholderData in
  data_usage_valid (validation_details r) = true ->
  target_permissions_valid (validation_details r) = false ->
  let r' := validateDataAccess now' random36' tool (with_data_usage u usageContext)
              serverConfig placeholderData' in
  allowed r' = false /\ error_code r' = Some MCPP_ERRORS.INSUFFICIENT_PERMISSIONS.
Proof.
  intros r Husage Htarget r'.
  pose proof (validation_details_target_step _ _ _ _ _ _ Husage Htarget) as Hdenied.
  rewrite validateTargetPermissions_data_usage in Hdenied.
  destruct (decide (getEffectiveDataUsagePermission tool u serverConfig = Deny)) as [Hd | Hd].
  - destruct (validateDataAccess_deny now' random36' tool (with_data_usage u usageContext)
                serverConfig placeholderData' Hd) as (Ha & Hc & _).
    split; assumption.
  - destruct (validateDataAccess_target_denied now' random36' tool
                (with_data_usage u usageContext) serverConfig placeholderData' Hd) as (Ha & Hc & _).
    + rewrite validateTargetPermissions_data_usage. exact Hdenied.
    + split; assumption.
Qed.

Lemma target_denial_holds_at_every_level_witness :
  let r := validateDataAccess 0 "0.abcdefghijk" (Some get_books_invoices)
             (with_data_usage Display (usage Display Llm "gpt-4")) defaultMcppConfig JNull in
  data_usage_valid (validation_details r) = true
  /\ target_permissions_valid (validation_details r) = false
  /\ let r' := validateDataAccess 5 "0.zyxwvutsrqp" (Some get_books_invoices)
                 (with_data_usage Transfer (usage Display Llm "gpt-4")) defaultMcppConfig
                 (JStr "{t1.0.Age}") in
     allowed r' = false /\ error_code r' = Some MCPP_ERRORS.INSUFFICIENT_PERMISSIONS.
Proof.
  split; [vm_compute; reflexivity |]. split; [vm_compute; reflexivity |].
  apply (target_denial_holds_at_every_level 0 5 "0.abcdefghijk" "0.zyxwvutsrqp"
           (Some get_books_invoices) (usage Display Llm "gpt-4") defaultMcppConfig
           JNull (JStr "{t1.0.Age}") Transfer);
    vm_compute; reflexivity.
Defined.

Lemma includes_In (l : list string) (x : string) : includes l x = true <-> In x l.
Proof.
  unfold includes. rewrite existsb_exists. split.
  - intros (y & Hy & Heq). apply String.eqb_eq in Heq. subst. exact Hy.
  - intros Hx. exists x. split; [exact Hx | apply String.eqb_refl].
Qed.

(** C6, as stated, fails on two inputs: a tool that blocks [gpt-4] and
    denies [transfer] refuses the transfer with the data-usage message, not
    with the reason of the block; and a block list that holds the empty
    string does not refuse the empty destination. *)
Lemma blocked_target_reason_counterexample :
  (let r := validateDataAccess 0 "0.abcdefghijk" (Some no_transfer_tool)
              (usage Transfer Llm "gpt-4") defaultMcppConfig JNull in
   tool_target_permissions (Some no_transfer_tool) ≫= blocked_targets = Some ["gpt-4"]
   /\ error_code r = Some (-32005)%Z
   /\ error_message r = Some "Data usage 'transfer' is not permitted for this tool")
  /\ (let r := validateDataAccess 0 "0.abcdefghijk" (Some blocks_empty_tool)
                 (usage Display Client "") defaultMcppConfig JNull in
      tool_target_permissions (Some blocks_empty_tool) ≫= blocked_targets = Some [""]
      /\ validateTargetPermissions (Some blocks_empty_tool) (usage Display Client "")
           defaultMcppConfig
         = {| target_allowed := true; target_reason := "validation_passed" |}
      /\ allowed r = true).
Proof. vm_compute. repeat split; reflexivity. Qed.

(** C6, amended.  When the destination is a non-empty string of the tool's
    [blocked_targets], the target step denies with the reason
    [<type>_blocked_by_tool], whatever [allowed_targets] holds, and the
    evaluation is refused with -32005; its message carries that reason
    unless the data-usage step has denied before. *)
Theorem blocked_target_denied
    (now : Z) (random36 : string) (tool : option Tool) (policy : TargetPermissions)
    (blocked : list string) (usageContext : McppUsageContext)
    (serverConfig : McppServerConfig) (placeholderData : any) (d : string) :
  tool_target_permissions tool = Some policy ->
  blocked_targets policy = Some blocked ->
  destination (target usageContext) = Some d ->
  d <> "" ->
  In d blocked ->
  let blocked_reason := TargetType_name (type (target usageContext)) +:+ "_blocked_by_tool" in
  let r := validateDataAccess now random36 tool usageContext serverConfig placeholderData in
  validateTargetPermissions tool usageContext serverConfig
  = {| target_allowed := false; target_reason := blocked_reason |}
  /\ allowed r = false
  /\ error_code r = Some (-32005)%Z
  /\ (getEffectiveDataUsagePermission tool (data_usage usageContext) serverConfig <> Deny ->
      error_message r = Some ("Target access denied: " +:+ blocked_reason)).
Proof.
  intros Hpolicy Hblocked Hdest Hne Hin blocked_reason r.
  assert (Htarget : validateTargetPermissions tool usageContext serverConfig
                    = {| target_allowed := false; target_reason := blocked_reason |}).
  { unfold validateTargetPermissions. rewrite Hpolicy, Hdest.
    destruct d as [| c d']; [congruence |].
    unfold tool_target_checks, check_blocked. rewrite Hblocked.
    apply includes_In in Hin. rewrite Hin. reflexivity. }
  split; [exact Htarget |].
  destruct (decide (getEffectiveDataUsagePermission tool (data_usage usageContext) serverConfig
                    = Deny)) as [Hd | Hd].
  - destruct (validateDataAccess_deny now random36 tool usageContext serverConfig
                placeholderData Hd) as (Ha & Hc & _).
    repeat split; [exact Ha | exact Hc | intros Hn; contradiction].
  - destruct (validateDataAccess_target_denied now random36 tool usageContext serverConfig
                placeholderData Hd) as (Ha & Hc & Hm & _).
    + rewrite Htarget. reflexivity.
    + repeat split; [exact Ha | exact Hc |].
      intros _. subst r. rewrite Hm, Htarget. reflexivity.
Qed.

Lemma blocked_target_denied_witness :
  tool_target_permissions (Some get_books_invoices)
  = Some {| allowed_targets := Some (Targets ["internal_llm"; "claude-3"]);
            blocked_targets := Some ["gpt-4"];
            allowed_clients := None; allowed_servers := None; blocked_servers := None |}
  /\ "gpt-4" <> ""
  /\ In "gpt-4" ["gpt-4"]
  /\ let r := validateDataAccess 0 "0.abcdefghijk" (Some get_books_invoices)
                (usage Transfer Llm "gpt-4") defaultMcppConfig (JStr "{t1.0.Name}") in
     validateTargetPermissions (Some get_books_invoices) (usage Transfer Llm "gpt-4")
       defaultMcppConfig
     = {| target_allowed := false; target_reason := "llm_blocked_by_tool" |}
     /\ allowed r = false
     /\ error_code r = Some (-32005)%Z
     /\ (getEffectiveDataUsagePermission (Some get_books_invoices) Transfer defaultMcppConfig
         <> Deny ->
         error_message r = Some "Target access denied: llm_blocked_by_tool").
Proof.
  split; [reflexivity |]. split; [discriminate |]. split; [left; reflexivity |].
  apply (blocked_target_denied 0 "0.abcdefghijk" (Some get_books_invoices)
           {| allowed_targets := Some (Targets ["internal_llm"; "claude-3"]);
              blocked_targets := Some ["gpt-4"];
              allowed_clients := None; allowed_servers := None; blocked_servers := None |}
           ["gpt-4"] (usage Transfer Llm "gpt-4") defaultMcppConfig (JStr "{t1.0.Name}")
           "gpt-4");
    [reflexivity | reflexivity | reflexivity | discriminate | left; reflexivity].
Defined.

(** ** Endpoints *)

(** C1, as stated, fails: a request for the cached entry [t1] of a sensitive
    tool that supplies no usage context is answered with the entry, and no
    policy evaluation takes place; the same entry asked for a transfer to
    the model [gpt-4] is refused. *)
Lemma get_data_without_usage_context_counterexample :
  let params := {| get_tool_call_id := JStr "t1"; get_usage_context := None |} in
  let asked := {| get_tool_call_id := JStr "t1";
                  get_usage_context := Some (usage Transfer Llm "gpt-4") |} in
  invoices_cache !! "t1" = Some invoices_table
  /\ get_usage_context params = None
  /\ handleGetData 0 "0.abcdefghijk" invoices_cache (Some params) (JNum 7)
       None (Some defaultMcppConfig)
     = Result invoices_table (JNum 7)
  /\ (exists code message data,
         handleGetData 0 "0.abcdefghijk" invoices_cache (Some asked) (JNum 7)
           None (Some defaultMcppConfig)
         = Error code message data (JNum 7)).
Proof.
  cbn zeta. split; [vm_compute; reflexivity |]. split; [reflexivity |].
  split; [vm_compute; reflexivity |].
  eexists _, _, _. vm_compute. reflexivity.
Qed.

(** C1, amended.  For a request on a cached entry: when a usage context is
    supplied (and the server has a configuration) the entry is returned
    exactly when the policy evaluation has [allowed = true], and the error
    of the evaluation is returned otherwise; when no usage context is
    supplied the entry is returned without a policy evaluation. *)
Theorem get_data_returns_entry_on_allow
    (now : Z) (random36 : string) (dataCache : DataCache) (params : GetDataParams)
    (id : any) (tool : option Tool) (serverConfig : option McppServerConfig)
    (data : CachedData) :
  truthy (get_tool_call_id params) = true ->
  cache_get dataCache (get_tool_call_id params) = Some data ->
  let response := handleGetData now random36 dataCache (Some params) id tool serverConfig in
  (forall usage_context config,
      get_usage_context params = Some usage_context ->
      serverConfig = Some config ->
      let validation :=
        validateDataAccess now random36 tool usage_context config (CachedData_value data) in
      (allowed validation = true -> response = Result data (or_else id JNull))
      /\ (allowed validation = false -> response = validation_error validation id)
      /\ (forall entry id', response = Result entry id' ->
                            entry = data /\ allowed validation = true))
  /\ (get_usage_context params = None \/ serverConfig = None ->
      response = Result data (or_else id JNull)).
Proof.
  intros Htruthy Hcached response. subst response. unfold handleGetData. cbn.
  rewrite Htruthy, Hcached. cbn. split.
  - intros usage_context config Hctx Hcfg. rewrite Hctx, Hcfg. cbn zeta.
    destruct (allowed (validateDataAccess now random36 tool usage_context config
                         (CachedData_value data))); cbn.
    + repeat split; try discriminate; congruence.
    + repeat split; try discriminate.
  - intros [Hnone | Hnone]; rewrite Hnone; [reflexivity |].
    destruct (get_usage_context params); reflexivity.
Qed.

Lemma get_data_returns_entry_on_allow_witness :
  let params := {| get_tool_call_id := JStr "t1";
                   get_usage_context := Some (usage Display Client "dash") |} in
  truthy (get_tool_call_id params) = true
  /\ cache_get invoices_cache (get_tool_call_id params) = Some invoices_table
  /\ allowed (validateDataAccess 0 "0.abcdefghijk" (Some get_books_invoices)
                (usage Display Client "dash") defaultMcppConfig
                (CachedData_value invoices_table))
     = false
  /\ handleGetData 0 "0.abcdefghijk" invoices_cache (Some params) (JNum 7)
       (Some get_books_invoices) (Some defaultMcppConfig)
     = validation_error
         (validateDataAccess 0 "0.abcdefghijk" (Some get_books_invoices)
            (usage Display Client "dash") defaultMcppConfig (CachedData_value invoices_table))
         (JNum 7).
Proof.
  cbn zeta. split; [reflexivity |]. split; [vm_compute; reflexivity |].
  split; [vm_compute; reflexivity |].
  refine (proj1 (proj2 (proj1
    (get_data_returns_entry_on_allow 0 "0.abcdefghijk" invoices_cache
       {| get_tool_call_id := JStr "t1";
          get_usage_context := Some (usage Display Client "dash") |}
       (JNum 7) (Some get_books_invoices) (Some defaultMcppConfig) invoices_table
       _ _) (usage Display Client "dash") defaultMcppConfig _ _)) _);
    vm_compute; reflexivity.
Defined.

(** [handleProvideConsent] never writes to the decision cache. *)
Lemma handleProvideConsent_cache
    (consentCache : ConsentCache) (params : option ProvideConsentParams) (id : any) :
  cache (snd (handleProvideConsent consentCache params id)) = cache consentCache.
Proof.
  unfold handleProvideConsent.
  destruct params as [params |]; [| reflexivity].
  destruct (negb (truthy (consent_request_id params)) || negb (truthy (consent_decision params)));
    [reflexivity |].
  destruct (parse_decision (consent_decision params)) as [d |]; [| reflexivity].
  destruct (consent_request_id params) as [| | b | n | requestId | items | fields];
    try reflexivity.
  unfold resolveConsentRequest.
  destruct (pendingRequests consentCache !! requestId); cbn; [| reflexivity].
  destruct (truthy (remember params) && truthy (consent_duration_minutes params)); reflexivity.
Qed.

(** C2.  With [remember = true] and [duration_minutes = 60],
    [provide_consent] resolves the pending request and answers
    [remembered: true], but the decision cache stays empty: no later lookup,
    at any time and under any key, returns the decision. *)
Theorem provide_consent_remember_records_nothing :
  let params := {| consent_request_id := JStr "consent_0_abcdefghi";
                   consent_decision := JStr "allow";
                   remember := JBool true;
                   consent_duration_minutes := JNum 60 |} in
  let outcome := handleProvideConsent one_pending (Some params) (JNum 1) in
  fst outcome
  = Result {| provided_request_id := JStr "consent_0_abcdefghi";
              provided_decision := JStr "allow";
              remembered := JBool true;
              provided_message := "Consent allow recorded successfully" |} (JNum 1)
  /\ settled (snd outcome) = [("consent_0_abcdefghi", Resolved DecisionAllow)]
  /\ cache (snd outcome) = ∅
  /\ (forall (now : Z) (host destination dataUsage : string) (toolName : option string),
         fst (getConsent now (generateCacheKey host destination dataUsage toolName)
                (snd outcome)) = None).
Proof.
  cbn zeta.
  assert (Hcache : cache (snd (handleProvideConsent one_pending
                                 (Some {| consent_request_id := JStr "consent_0_abcdefghi";
                                          consent_decision := JStr "allow";
                                          remember := JBool true;
                                          consent_duration_minutes := JNum 60 |})
                                 (JNum 1))) = ∅).
  { rewrite handleProvideConsent_cache. reflexivity. }
  split; [vm_compute; reflexivity |]. split; [vm_compute; reflexivity |].
  split; [exact Hcache |].
  intros now host destination dataUsage toolName.
  unfold getConsent. rewrite Hcache, lookup_empty. reflexivity.
Qed.

(** C10.  [resolve_placeholders] answers each of the falsy values [""], [0],
    [false] and [null] of [data] with [INVALID_PARAMS] (-32602, data is
    required), whatever the other arguments are, although the resolver
    itself returns each of them unchanged. *)
Theorem resolve_placeholders_rejects_falsy_data
    (now : Z) (random36 : string) (dataCache : DataCache)
    (usage_context : option McppUsageContext) (id : any)
    (tool : option Tool) (serverConfig : option McppServerConfig) :
  Forall (fun data =>
            handleResolvePlaceholders now random36 dataCache
              (Some {| resolve_data := data; resolve_usage_context := usage_context |})
              id tool serverConfig
            = Error (Some (-32602)%Z)
                (Some "Invalid params: data is required for placeholder resolution")
                (RequiredParams ["data"]) id
            /\ resolveArgumentPlaceholders data dataCache = data)
    [JStr ""; JNum 0; JBool false; JNull].
Proof.
  repeat constructor.
Qed.

(** ** Strings and the placeholder grammar *)

Lemma string_app_assoc (a b c : string) : (a +:+ b) +:+ c = a +:+ (b +:+ c).
Proof. induction a as [| x a IH]; simpl; [reflexivity | now rewrite IH]. Qed.

Lemma string_app_nil_r (a : string) : a +:+ "" = a.
Proof. induction a as [| x a IH]; simpl; [reflexivity | now rewrite IH]. Qed.

Lemma string_app_length (a b : string) :
  String.length (a +:+ b) = (String.length a + String.length b)%nat.
Proof. induction a as [| x a IH]; simpl; [reflexivity | now rewrite IH]. Qed.

Lemma drop_chars_app (a b : string) : drop_chars (String.length a) (a +:+ b) = b.
Proof. induction a as [| x a IH]; simpl; [now destruct b | exact IH]. Qed.

Lemma all_chars_app (p : ascii -> bool) (a b : string) :
  all_chars p (a +:+ b) = all_chars p a && all_chars p b.
Proof.
  induction a as [| x a IH]; simpl; [reflexivity |].
  rewrite IH. now rewrite andb_assoc.
Qed.

(** [span] cuts the string in two; the first part satisfies [p] and the
    second does not start with a character that does. *)
Lemma span_spec (p : ascii -> bool) (s a b : string) :
  span p s = (a, b) ->
  s = a +:+ b
  /\ all_chars p a = true
  /\ match b with
     | EmptyString => True
     | String c _ => p c = false
     end.
Proof.
  revert a b. induction s as [| x s IH]; cbn; intros a b H.
  - inversion H. subst. auto.
  - destruct (p x) eqn:Hx.
    + destruct (span p s) as [a' b'] eqn:Hs.
      destruct (IH a' b' eq_refl) as (Hs' & Ha & Hb).
      inversion H. subst. cbn. rewrite Hx, Ha. auto.
    + inversion H. subst. cbn. rewrite Hx. auto.
Qed.

(** A run of characters of [p] followed by a character outside [p] is what
    [span] returns. *)
Lemma span_app (p : ascii -> bool) (a : string) (c : ascii) (r : string) :
  all_chars p a = true -> p c = false -> span p (a +:+ String c r) = (a, String c r).
Proof.
  intros Ha Hc. induction a as [| x a IH]; cbn in *.
  - now rewrite Hc.
  - apply andb_true_iff in Ha as [Hx Ha]. rewrite Hx, (IH Ha). reflexivity.
Qed.

Lemma span_all (p : ascii -> bool) (a : string) :
  all_chars p a = true -> span p a = (a, "").
Proof.
  intros Ha. induction a as [| x a IH]; cbn in *; [reflexivity |].
  apply andb_true_iff in Ha as [Hx Ha]. rewrite Hx, (IH Ha). reflexivity.
Qed.

Lemma is_digit_not_dot (c : ascii) : is_digit c = true -> Ascii.eqb c "." = false.
Proof.
  intros H. destruct (Ascii.eqb_spec c "."); [subst; discriminate | reflexivity].
Qed.

Lemma is_id_char_not_dot (c : ascii) : is_id_char c = true -> Ascii.eqb c "." = false.
Proof.
  intros H. destruct (Ascii.eqb_spec c "."); [subst; discriminate | reflexivity].
Qed.

Lemma all_chars_impl (p q : ascii -> bool) (s : string) :
  (forall c, p c = true -> q c = true) -> all_chars p s = true -> all_chars q s = true.
Proof.
  intros Hpq. induction s as [| x s IH]; cbn; [reflexivity |].
  intros H. apply andb_true_iff in H as [Hx Hs].
  rewrite (Hpq x Hx), (IH Hs). reflexivity.
Qed.

(** [split] on a part without separator followed by a separator. *)
Lemma split_app (sep : ascii) (a r : string) :
  all_chars (fun c => negb (Ascii.eqb c sep)) a = true ->
  split sep (a +:+ String sep r) = a :: split sep r.
Proof.
  intros Ha. induction a as [| x a IH]; cbn in *.
  - now rewrite Ascii.eqb_refl.
  - apply andb_true_iff in Ha as [Hx Ha]. apply negb_true_iff in Hx.
    rewrite Hx, (IH Ha). reflexivity.
Qed.

Lemma split_none (sep : ascii) (a : string) :
  all_chars (fun c => negb (Ascii.eqb c sep)) a = true -> split sep a = [a].
Proof.
  intros Ha. induction a as [| x a IH]; cbn in *; [reflexivity |].
  apply andb_true_iff in Ha as [Hx Ha]. apply negb_true_iff in Hx.
  rewrite Hx, (IH Ha). reflexivity.
Qed.

Lemma match_group_spec (s group rest : string) :
  match_group s = Some (group, rest) ->
  exists call_id row col,
    group = call_id +:+ "." +:+ row +:+ "." +:+ col
    /\ s = group +:+ rest
    /\ group_shape call_id row col
    /\ match rest with
       | EmptyString => True
       | String c _ => is_id_char c = false
       end.
Proof.
  unfold match_group.
  destruct (span is_id_char s) as [call_id r1] eqn:H1.
  destruct (String.eqb_spec call_id ""); [discriminate |].
  destruct r1 as [| c1 r2]; [discriminate |].
  destruct (Ascii.eqb_spec c1 "."); [subst c1 | now destruct c1 as [[] [] [] [] [] [] [] []]].
  destruct (span is_digit r2) as [row r3] eqn:H2.
  destruct (String.eqb_spec row ""); [discriminate |].
  destruct r3 as [| c3 r4]; [discriminate |].
  destruct (Ascii.eqb_spec c3 "."); [subst c3 | now destruct c3 as [[] [] [] [] [] [] [] []]].
  destruct (span is_id_char r4) as [col r5] eqn:H3.
  destruct (String.eqb_spec col ""); [discriminate |].
  intros H. inversion H. subst. clear H.
  apply span_spec in H1 as (-> & Hid & _).
  apply span_spec in H2 as (-> & Hrow & _).
  apply span_spec in H3 as (-> & Hcol & Hrest).
  exists call_id, row, col. repeat split; try assumption.
  rewrite !string_app_assoc. cbn. rewrite !string_app_assoc. reflexivity.
Qed.

Lemma match_placeholder_spec (s group rest : string) :
  match_placeholder s = Some (group, rest) ->
  s = braces group +:+ rest
  /\ exists call_id row col,
       group = call_id +:+ "." +:+ row +:+ "." +:+ col /\ group_shape call_id row col.
Proof.
  unfold match_placeholder.
  destruct s as [| c0 r]; [discriminate |].
  destruct (Ascii.eqb_spec c0 "{"); [subst c0 | now destruct c0 as [[] [] [] [] [] [] [] []]].
  destruct (match_group r) as [[g rest'] |] eqn:Hg; [| discriminate].
  destruct rest' as [| c1 rest'']; [discriminate |].
  destruct (Ascii.eqb_spec c1 "}"); [subst c1 | now destruct c1 as [[] [] [] [] [] [] [] []]].
  intros H. inversion H. subst. clear H.
  apply match_group_spec in Hg as (call_id & row & col & Hgroup & Hr & Hshape & _).
  split.
  - unfold braces. cbn. rewrite Hr, string_app_assoc. reflexivity.
  - exists call_id, row, col. split; assumption.
Qed.

(** A well-shaped group between braces is matched, whatever follows. *)
Lemma match_placeholder_complete (call_id row col rest : string) :
  group_shape call_id row col ->
  match_placeholder (braces (call_id +:+ "." +:+ row +:+ "." +:+ col) +:+ rest)
  = Some (call_id +:+ "." +:+ row +:+ "." +:+ col, rest).
Proof.
  intros (Hid & Hidc & Hrow & Hrowc & Hcol & Hcolc).
  assert (Htext : braces (call_id +:+ "." +:+ row +:+ "." +:+ col) +:+ rest
                  = String "{" (call_id +:+ String "." (row +:+ String "."
                                  (col +:+ String "}" rest)))).
  { unfold braces. repeat first [rewrite string_app_assoc | progress cbn]. reflexivity. }
  rewrite Htext. unfold match_placeholder, match_group.
  rewrite (span_app is_id_char call_id "." _ Hidc eq_refl).
  destruct (String.eqb_spec call_id ""); [contradiction |].
  rewrite (span_app is_digit row "." _ Hrowc eq_refl).
  destruct (String.eqb_spec row ""); [contradiction |].
  rewrite (span_app is_id_char col "}" _ Hcolc eq_refl).
  destruct (String.eqb_spec col ""); [contradiction |].
  reflexivity.
Qed.

Lemma concat_empty_cons (x : string) (l : list string) :
  String.concat "" (x :: l) = x +:+ String.concat "" l.
Proof.
  destruct l as [| y l]; cbn; [now rewrite string_app_nil_r | reflexivity].
Qed.

Lemma concat_empty_app (l1 l2 : list string) :
  String.concat "" (l1 ++ l2) = String.concat "" l1 +:+ String.concat "" l2.
Proof.
  induction l1 as [| x l1 IH]; [reflexivity |].
  rewrite <- app_comm_cons, !concat_empty_cons, IH, string_app_assoc. reflexivity.
Qed.

Lemma drop_chars_nil (n : nat) : drop_chars n "" = "".
Proof. destruct n; reflexivity. Qed.

(** The pieces of a scan are the consecutive parts of the string. *)
Lemma scan_from_text (skip : nat) (s : string) :
  String.concat "" (map piece_text (scan_from skip s)) = drop_chars skip s.
Proof.
  revert skip. induction s as [| c r IH]; intros skip.
  - cbn. now rewrite drop_chars_nil.
  - destruct skip as [| k]; [| exact (IH k)].
    cbn [scan_from drop_chars].
    destruct (match_placeholder (String c r)) as [[group rest] |] eqn:Hm.
    + cbn [map]. rewrite concat_empty_cons, IH. cbn [piece_text].
      apply match_placeholder_spec in Hm as (Hs & _).
      assert (Hr : r = (group +:+ "}") +:+ rest).
      { unfold braces in Hs. cbn in Hs. inversion Hs. now rewrite string_app_assoc. }
      rewrite Hs. f_equal. rewrite Hr.
      replace (String.length group + 1)%nat
        with (String.length (group +:+ "}")) by (rewrite string_app_length; reflexivity).
      apply drop_chars_app.
    + cbn [map]. rewrite concat_empty_cons, IH. reflexivity.
Qed.

Lemma scan_text (s : string) : String.concat "" (map piece_text (scan s)) = s.
Proof. exact (scan_from_text 0 s). Qed.

(** ** Resolution of one placeholder *)

Lemma split_group (call_id row col : string) :
  group_shape call_id row col ->
  split "." (call_id +:+ "." +:+ row +:+ "." +:+ col) = [call_id; row; col].
Proof.
  intros (_ & Hidc & _ & Hrowc & _ & Hcolc).
  assert (Hno : forall p s, (forall c, p c = true -> Ascii.eqb c "." = false) ->
                            all_chars p s = true ->
                            all_chars (fun c => negb (Ascii.eqb c ".")) s = true).
  { intros p s Hp. apply all_chars_impl. intros c Hc. now rewrite (Hp c Hc). }
  cbn.
  rewrite (split_app "." call_id _ (Hno _ _ is_id_char_not_dot Hidc)).
  rewrite (split_app "." row _ (Hno _ _ is_digit_not_dot Hrowc)).
  rewrite (split_none "." col (Hno _ _ is_id_char_not_dot Hcolc)).
  reflexivity.
Qed.

Lemma digits_value_nonneg (ds : string) : (0 <= digits_value ds)%Z.
Proof.
  unfold digits_value.
  assert (H : forall l acc, (0 <= acc)%Z ->
                            (0 <= fold_left (fun a c => (10 * a + digit_value c)%Z) l acc)%Z).
  { induction l as [| c l IH]; intros acc Hacc; cbn; [exact Hacc |].
    apply IH. unfold digit_value. lia. }
  apply H. lia.
Qed.

Lemma parseInt_digits (row : string) :
  row <> "" -> all_chars is_digit row = true -> parseInt row = Some (digits_value row).
Proof.
  intros Hne Hdigits.
  destruct row as [| c r]; [contradiction |].
  pose proof Hdigits as Hc. cbn in Hc. apply andb_true_iff in Hc as [Hc _].
  assert (Hws : is_white_space c = false).
  { destruct c as [[] [] [] [] [] [] [] []]; first [discriminate Hc | reflexivity]. }
  unfold parseInt.
  change (span is_white_space (String c r))
    with (if is_white_space c
          then let (a, b) := span is_white_space r in (String c a, b)
          else ("", String c r)).
  rewrite Hws. cbn [snd].
  destruct c as [[] [] [] [] [] [] [] []]; try discriminate Hc;
    (cbv beta iota zeta; rewrite (span_all is_digit _ Hdigits); cbn [fst];
     rewrite Z.mul_1_l; reflexivity).
Qed.

Lemma indexOf_found (l : list string) (x : string) :
  indexOf l x = (-1)%Z /\ ~ In x l
  \/ (0 <= indexOf l x)%Z /\ l !! Z.to_nat (indexOf l x) = Some x.
Proof.
  induction l as [| y l IH]; cbn.
  - left. split; [reflexivity | tauto].
  - destruct (String.eqb_spec y x) as [-> | Hne].
    + right. split; [lia | reflexivity].
    + destruct IH as [[Hi Hn] | [Hi Hl]].
      * left. rewrite Hi. cbn. split; [reflexivity | tauto].
      * right. destruct (Z.eqb_spec (indexOf l x) (-1)); [lia |].
        split; [lia |].
        replace (Z.to_nat (indexOf l x + 1)) with (S (Z.to_nat (indexOf l x))) by lia.
        exact Hl.
Qed.

Lemma indexOf_In (l : list string) (x : string) : indexOf l x <> (-1)%Z <-> In x l.
Proof.
  destruct (indexOf_found l x) as [[Hi Hn] | [Hi Hl]].
  - rewrite Hi. tauto.
  - split; [| lia]. intros _.
    apply list_elem_of_In. apply list_elem_of_lookup. eauto.
Qed.

(** The resolution of a well-shaped group, without the parsing. *)
Lemma resolveSinglePlaceholder_group (cache : DataCache) (call_id row col : string) :
  group_shape call_id row col ->
  resolveSinglePlaceholder (call_id +:+ "." +:+ row +:+ "." +:+ col) cache
  = match cache !! call_id with
    | Some (TableData headers rows) =>
        match (indexOf headers col =? -1)%Z, rows !! Z.to_nat (digits_value row) with
        | false, Some r =>
            {| success := true; value := cell r (Z.to_nat (indexOf headers col)) |}
        | _, _ => unresolved
        end
    | _ => unresolved
    end.
Proof.
  intros Hshape. unfold resolveSinglePlaceholder.
  rewrite (split_group _ _ _ Hshape).
  destruct Hshape as (_ & _ & Hrow & Hrowc & _ & _).
  rewrite (parseInt_digits row Hrow Hrowc).
  destruct (cache !! call_id) as [[headers rows | |] |]; try reflexivity.
  unfold at_index at 1.
  pose proof (digits_value_nonneg row) as Hnn.
  destruct (Z.ltb_spec (digits_value row) 0); [lia |].
  destruct (Z.eqb_spec (indexOf headers col) (-1)) as [Hi | Hi]; [reflexivity |].
  destruct (rows !! Z.to_nat (digits_value row)) as [r |]; [| reflexivity].
  unfold at_index, cell.
  destruct (indexOf_found headers col) as [[Hi' _] | [Hi' _]]; [contradiction |].
  destruct (Z.ltb_spec (indexOf headers col) 0); [lia | reflexivity].
Qed.

Lemma resolveSinglePlaceholder_success (cache : DataCache) (call_id row col : string) :
  group_shape call_id row col ->
  let result := resolveSinglePlaceholder (call_id +:+ "." +:+ row +:+ "." +:+ col) cache in
  (success result = true <-> resolvable cache call_id row col)
  /\ (success result = true -> named_cell cache call_id row col (value result)).
Proof.
  intros Hshape. cbn zeta. rewrite (resolveSinglePlaceholder_group cache _ _ _ Hshape).
  pose proof (digits_value_nonneg row) as Hnn.
  unfold resolvable, named_cell.
  destruct (cache !! call_id) as [[headers rows | |] |] eqn:Hcache; cbn.
  2-4: split; [split; [discriminate | intros (h & r & Heq & _); discriminate]
              | discriminate].
  destruct (Z.eqb_spec (indexOf headers col) (-1)) as [Hi | Hi].
  { split; [split; [discriminate |] | discriminate].
    intros (h & r & Heq & Hin & _). inversion Heq. subst.
    apply indexOf_In in Hin. contradiction. }
  destruct (rows !! Z.to_nat (digits_value row)) as [r |] eqn:Hrow; cbn.
  - split; [split; [intros _ | reflexivity] |].
    + exists headers, rows. repeat split.
      * now apply indexOf_In.
      * apply lookup_lt_Some in Hrow. lia.
    + intros _. exists headers, rows, r, (Z.to_nat (indexOf headers col)).
      repeat split; try assumption.
      destruct (indexOf_found headers col) as [[Hi' _] | [_ Hl]]; [contradiction | exact Hl].
  - split; [split; [discriminate |] | discriminate].
    intros (h & rs & Heq & _ & Hlt). inversion Heq. subst.
    apply lookup_ge_None in Hrow. lia.
Qed.

(** ** The scan of a string *)

Lemma scan_from_skip (a b : string) (k : nat) :
  scan_from (String.length a + k) (a +:+ b) = scan_from k b.
Proof. induction a as [| x a IH]; cbn; [reflexivity | exact IH]. Qed.

Lemma scan_match (s group rest : string) :
  match_placeholder s = Some (group, rest) -> scan s = Match group :: scan rest.
Proof.
  intros Hm. pose proof (match_placeholder_spec _ _ _ Hm) as (Hs & _).
  unfold scan. destruct s as [| c r]; [discriminate |].
  cbn [scan_from]. rewrite Hm. f_equal.
  assert (Hr : r = (group +:+ "}") +:+ rest).
  { unfold braces in Hs. cbn in Hs. inversion Hs. now rewrite string_app_assoc. }
  rewrite Hr.
  replace (String.length group + 1)%nat
    with (String.length (group +:+ "}") + 0)%nat by (rewrite string_app_length; cbn; lia).
  apply scan_from_skip.
Qed.

Lemma scan_text_char (c : ascii) (r : string) :
  match_placeholder (String c r) = None -> scan (String c r) = Text c :: scan r.
Proof. intros Hm. unfold scan. cbn [scan_from]. now rewrite Hm. Qed.

(** Every match of a scan is a well-shaped group. *)
Lemma scan_from_shape (skip : nat) (s group : string) :
  In (Match group) (scan_from skip s) ->
  exists call_id row col,
    group = call_id +:+ "." +:+ row +:+ "." +:+ col /\ group_shape call_id row col.
Proof.
  revert skip. induction s as [| c r IH]; intros skip; cbn [scan_from]; [intros [] |].
  destruct skip as [| k]; [| apply IH].
  destruct (match_placeholder (String c r)) as [[g rest] |] eqn:Hm.
  - intros [Heq | Hin]; [| exact (IH _ Hin)].
    inversion Heq. subst. apply match_placeholder_spec in Hm as (_ & Hshape). exact Hshape.
  - intros [Heq | Hin]; [discriminate | exact (IH _ Hin)].
Qed.

Lemma match_single_spec (s group : string) :
  match_single s = Some group ->
  s = braces group /\ scan s = [Match group].
Proof.
  unfold match_single.
  destruct (match_placeholder s) as [[g rest] |] eqn:Hm; [| discriminate].
  destruct rest; [| discriminate]. intros H. inversion H. subst.
  split.
  - apply match_placeholder_spec in Hm as (Hs & _). now rewrite string_app_nil_r in Hs.
  - now rewrite (scan_match _ _ _ Hm).
Qed.

(** ** The reference finder *)

Lemma Qgtb_lt (a b : Q) : Qgtb a b = true <-> (b < a)%Q.
Proof.
  unfold Qgtb. rewrite negb_true_iff. split.
  - intros H. apply Qnot_le_lt. intros Hle. apply Qle_bool_iff in Hle. congruence.
  - intros H. destruct (Qle_bool a b) eqn:Hle; [| reflexivity].
    apply Qle_bool_iff in Hle. exfalso. exact (Qlt_not_le _ _ H Hle).
Qed.

Lemma Qgtb_le (a b : Q) : Qgtb a b = false <-> (a <= b)%Q.
Proof.
  unfold Qgtb. rewrite negb_false_iff. apply Qle_bool_iff.
Qed.

Section find_reference_properties.

Variable jaroWinkler : string -> string -> Q.
Variable refToolCallId : any.
Variable keyword : string.

Let sim (candidate : nat * string * any) : Q :=
  cell_similarity jaroWinkler keyword (snd candidate).

(** The loop: the result is the match it started with when no cell is
    strictly more similar, and otherwise the match of the first cell that
    reaches the greatest similarity. *)
Lemma fold_consider (cells : list (nat * string * any)) (start : BestMatch) :
  let best := fold_left (consider jaroWinkler refToolCallId keyword) cells start in
  (best = start /\ forall x, In x cells -> (sim x <= similarity start)%Q)
  \/ exists k i header c,
       cells !! k = Some (i, header, c)
       /\ best = match_of refToolCallId (sim (i, header, c)) i header
       /\ (similarity start < sim (i, header, c))%Q
       /\ (forall x, In x cells -> (sim x <= sim (i, header, c))%Q)
       /\ (forall k' x, (k' < k)%nat -> cells !! k' = Some x -> (sim x < sim (i, header, c))%Q).
Proof.
  revert start. induction cells as [| x cells IH]; intros start; cbn zeta.
  - left. split; [reflexivity | intros x []].
  - cbn [fold_left].
    destruct x as [[i header] c].
    destruct (Qgtb (sim (i, header, c)) (similarity start)) eqn:Hgt.
    + assert (Hstep : consider jaroWinkler refToolCallId keyword start (i, header, c)
                      = match_of refToolCallId (sim (i, header, c)) i header).
      { unfold consider, sim in *. cbn [snd] in *. now rewrite Hgt. }
      rewrite Hstep. apply Qgtb_lt in Hgt.
      destruct (IH (match_of refToolCallId (sim (i, header, c)) i header))
        as [[Hbest Hall] | (k & i' & header' & c' & Hk & Hbest & Hlt & Hall & Hfirst)].
      * right. exists 0%nat, i, header, c. repeat split; try assumption.
        -- intros x [<- | Hx]; [apply Qle_refl | exact (Hall x Hx)].
        -- intros k' x Hk'. lia.
      * right. exists (S k), i', header', c'. cbn [similarity match_of] in Hlt.
        repeat split; try assumption.
        -- exact (Qlt_trans _ _ _ Hgt Hlt).
        -- intros x [<- | Hx]; [apply Qlt_le_weak; exact Hlt | exact (Hall x Hx)].
        -- intros k' x Hk' Hx. destruct k' as [| k'].
           ++ cbn in Hx. inversion Hx. subst. exact Hlt.
           ++ apply (Hfirst k' x); [lia | exact Hx].
    + assert (Hstep : consider jaroWinkler refToolCallId keyword start (i, header, c) = start).
      { unfold consider, sim in *. cbn [snd] in *. now rewrite Hgt. }
      rewrite Hstep. apply Qgtb_le in Hgt.
      destruct (IH start)
        as [[Hbest Hall] | (k & i' & header' & c' & Hk & Hbest & Hlt & Hall & Hfirst)].
      * left. split; [exact Hbest |].
        intros x [<- | Hx]; [exact Hgt | exact (Hall x Hx)].
      * right. exists (S k), i', header', c'. repeat split; try assumption.
        -- intros x [<- | Hx]; [| exact (Hall x Hx)].
           apply Qlt_le_weak. exact (Qle_lt_trans _ _ _ Hgt Hlt).
        -- intros k' x Hk' Hx. destruct k' as [| k'].
           ++ cbn in Hx. inversion Hx. subst. exact (Qle_lt_trans _ _ _ Hgt Hlt).
           ++ apply (Hfirst k' x); [lia | exact Hx].
Qed.

End find_reference_properties.

(** The visit is row after row, and within a row header after header. *)
Lemma concat_imap_lookup {A B : Type} (f : nat -> A -> list B) (l : list A) (n i j : nat) (x : A) :
  (forall k y, length (f k y) = n) ->
  l !! i = Some x -> (j < n)%nat ->
  concat (imap f l) !! (i * n + j)%nat = f i x !! j.
Proof.
  intros Hlen. revert f Hlen i. induction l as [| y l IH]; intros f Hlen i Hi Hj.
  - destruct i; discriminate.
  - cbn [imap concat]. destruct i as [| i].
    + cbn in Hi. inversion Hi. subst. cbn.
      apply lookup_app_l. rewrite Hlen. exact Hj.
    + cbn in Hi. rewrite lookup_app_r by (rewrite Hlen; lia).
      rewrite Hlen. replace (S i * n + j - n)%nat with (i * n + j)%nat by lia.
      apply (IH (f ∘ S)); [intros k z; apply Hlen | exact Hi | exact Hj].
Qed.

Lemma scanned_cells_all (headers : list string) (rows : list (list any))
    (i j : nat) (row : list any) (header : string) :
  rows !! i = Some row -> headers !! j = Some header ->
  scanned_cells headers rows None !! (i * length headers + j)%nat
  = Some (i, header, cell row j).
Proof.
  intros Hi Hj. unfold scanned_cells.
  rewrite (concat_imap_lookup _ rows (length headers) i j row).
  - rewrite list_lookup_imap, Hj. reflexivity.
  - intros k y. apply length_imap.
  - exact Hi.
  - apply lookup_lt_Some in Hj. exact Hj.
Qed.

Lemma scanned_cells_column (headers : list string) (rows : list (list any))
    (i j : nat) (row : list any) (header : string) :
  rows !! i = Some row -> headers !! j = Some header ->
  scanned_cells headers rows (Some j) !! i = Some (i, header, cell row j).
Proof.
  intros Hi Hj. unfold scanned_cells. rewrite list_lookup_imap, Hi, Hj. reflexivity.
Qed.

Lemma searchTable_answer
    (jaroWinkler : string -> string -> Q) (call_id keyword : string)
    (headers : list string) (rows : list (list any)) (colIndex : option nat) (id : any) :
  search_answer jaroWinkler call_id keyword headers rows
    (scanned_cells headers rows colIndex)
    (searchTable jaroWinkler (JStr call_id) keyword headers rows colIndex id).
Proof.
  unfold search_answer, searchTable, findBestMatch.
  set (cells := scanned_cells headers rows colIndex).
  destruct (fold_consider jaroWinkler (JStr call_id) keyword cells initialMatch)
    as [[Hbest Hall] | (k & i & header & c & Hk & Hbest & Hlt & Hall & Hfirst)];
    cbn zeta in Hbest; rewrite Hbest.
  - assert (Hlow : Qgtb (similarity initialMatch) SIMILARITY_THRESHOLD = false)
      by reflexivity.
    rewrite Hlow. split; [reflexivity |]. split.
    + intros x Hx. apply Qle_trans with (similarity initialMatch); [exact (Hall x Hx) |].
      apply Qgtb_le. exact Hlow.
    + exists (similarity initialMatch). split; [reflexivity |].
      split; [exact Hall |]. split; [left; reflexivity |].
      intros Hrange Hcells. destruct cells as [| x cells']; [contradiction |].
      exfalso. pose proof (Hall x (or_introl eq_refl)) as Hx.
      pose proof (Hrange (toLowerCase keyword) (toLowerCase (toString (snd x)))) as H0.
      unfold cell_similarity in Hx. cbn [similarity initialMatch] in Hx.
      pose proof (Qle_trans _ _ _ H0 Hx) as Hbad.
      unfold Qle in Hbad. cbn in Hbad. lia.
  - destruct (Qgtb (similarity (match_of (JStr call_id)
                                  (cell_similarity jaroWinkler keyword (snd (i, header, c)))
                                  i header)) SIMILARITY_THRESHOLD) eqn:Hgt.
    + apply Qgtb_lt in Hgt. cbn [similarity match_of] in Hgt.
      split; [exact Hgt |]. split; [exact Hall |].
      exists k, i, header, c. repeat split; try assumption.
    + apply Qgtb_le in Hgt. cbn [similarity match_of] in Hgt.
      split; [reflexivity |]. split.
      * intros x Hx. exact (Qle_trans _ _ _ (Hall x Hx) Hgt).
      * assert (Hin : In (i, header, c) cells)
          by (apply list_elem_of_In, list_elem_of_lookup; eauto).
        eexists. split; [reflexivity |]. split; [exact Hall |].
        split; [right |]; [| intros _ _]; exists (i, header, c); split;
          [exact Hin | reflexivity | exact Hin | reflexivity].
Qed.

(** ** Repeated resolution *)

(** C8, as stated, fails.  A cell that is itself a placeholder is resolved
    by a second application, in [resolveArgumentPlaceholders] and in the
    walk of [handleResolvePlaceholders] alike; and with plain cells, text
    around an embedded placeholder can form a new placeholder with the
    value put in its place. *)
Lemma resolution_not_idempotent_counterexample :
  (resolveArgumentPlaceholders (JStr "{t.0.A}") chained_cache = JStr "{t.1.A}"
   /\ resolveArgumentPlaceholders (JStr "{t.1.A}") chained_cache = JNum 42)
  /\ (fst (resolveWithTracking chained_cache (JStr "{t.0.A}") no_tracking) = JStr "{t.1.A}"
      /\ fst (resolveWithTracking chained_cache (JStr "{t.1.A}") no_tracking) = JNum 42)
  /\ (resolveArgumentPlaceholders (JStr "{{t.0.B}.0.A}") plain_cache = JStr "{t.0.A}"
      /\ resolveArgumentPlaceholders (JStr "{t.0.A}") plain_cache = JNum 42).
Proof. vm_compute. repeat split; reflexivity. Qed.

Lemma match_placeholder_no_brace (c : ascii) (r : string) :
  not_char "{" c = true -> match_placeholder (String c r) = None.
Proof.
  unfold not_char. intros H. apply negb_true_iff in H.
  unfold match_placeholder.
  destruct c as [[] [] [] [] [] [] [] []]; first [reflexivity | discriminate H].
Qed.

(** A text without opening brace is scanned character by character. *)
Lemma scan_app_no_brace (a b : string) :
  no_open_brace a = true ->
  scan (a +:+ b) = map Text (list_ascii_of_string a) ++ scan b.
Proof.
  unfold no_open_brace. induction a as [| c a IH]; intros Ha; [reflexivity |].
  cbn [all_chars] in Ha. apply andb_true_iff in Ha as [Hc Ha].
  change (String c a +:+ b) with (String c (a +:+ b)).
  rewrite (scan_text_char c (a +:+ b) (match_placeholder_no_brace c _ Hc)).
  cbn [list_ascii_of_string map]. rewrite <- app_comm_cons. now rewrite (IH Ha).
Qed.

Lemma scan_no_brace (a : string) (group : string) :
  no_open_brace a = true -> ~ In (Match group) (scan a).
Proof.
  intros Ha Hin. rewrite <- (string_app_nil_r a) in Hin.
  rewrite (scan_app_no_brace a "" Ha) in Hin.
  apply in_app_or in Hin as [Hin | []].
  apply in_map_iff in Hin as (c & Hc & _). discriminate.
Qed.

(** A string none of whose placeholders resolves is returned as it is. *)
Lemma resolveString_unresolved (cache : DataCache) (s : string) :
  (forall group, In (Match group) (scan s) ->
                 success (resolveSinglePlaceholder group cache) = false) ->
  resolveString cache s = JStr s.
Proof.
  intros Hfail. unfold resolveString.
  destruct (match_single s) as [group |] eqn:Hsingle.
  - destruct (match_single_spec _ _ Hsingle) as [_ Hscan].
    rewrite (Hfail group); [reflexivity |]. rewrite Hscan. now left.
  - f_equal. unfold replace_callback.
    rewrite <- (scan_text s) at 2. f_equal.
    apply map_ext_in. intros [c | group] Hin; [reflexivity |].
    unfold resolve_match, piece_text. now rewrite (Hfail group Hin).
Qed.

Lemma plain_cell_resolved (cache : DataCache) (v : any) :
  plain_cell v = true -> resolveInObject cache v = v.
Proof.
  destruct v as [| | b | n | s | items | fields]; cbn; try reflexivity; try discriminate.
  intros Hs. apply resolveString_unresolved.
  intros group Hin. destruct (scan_no_brace s group Hs Hin).
Qed.

Lemma string_of_uint_no_brace (u : Decimal.uint) :
  no_open_brace (NilEmpty.string_of_uint u) = true.
Proof. induction u; cbn; auto. Qed.

Lemma string_of_Z_no_brace (n : Z) : no_open_brace (string_of_Z n) = true.
Proof.
  unfold string_of_Z, NilZero.string_of_int, NilZero.string_of_uint.
  destruct (Z.to_int n) as [u | u]; destruct u; cbn;
    try reflexivity; apply string_of_uint_no_brace.
Qed.

Lemma plain_cell_text (v : any) : plain_cell v = true -> no_open_brace (toString v) = true.
Proof.
  destruct v as [| | [] | n | s | items | fields]; cbn; try reflexivity; try discriminate.
  - intros _. apply string_of_Z_no_brace.
  - auto.
Qed.

(** With plain cells, the value of a placeholder that resolves is plain. *)
Lemma resolved_value_plain (cache : DataCache) (group : string) :
  plain_cells cache ->
  (exists call_id row col,
      group = call_id +:+ "." +:+ row +:+ "." +:+ col /\ group_shape call_id row col) ->
  success (resolveSinglePlaceholder group cache) = true ->
  plain_cell (value (resolveSinglePlaceholder group cache)) = true.
Proof.
  intros Hplain (call_id & row & col & -> & Hshape) Hsuccess.
  destruct (resolveSinglePlaceholder_success cache call_id row col Hshape) as [_ Hcell].
  destruct (Hcell Hsuccess) as (headers & rows & r & j & Hcache & Hr & _ & ->).
  unfold cell. destruct (r !! j) as [v |] eqn:Hv; [| reflexivity]. cbn.
  apply (Hplain call_id headers rows r v Hcache).
  - apply list_elem_of_In, list_elem_of_lookup. eauto.
  - apply list_elem_of_In, list_elem_of_lookup. eauto.
Qed.

(** The matches left in the output of a first pass are the placeholders
    that did not resolve. *)
Lemma scan_resolved_pieces (cache : DataCache) (pieces : list piece) (group : string) :
  plain_cells cache ->
  (forall p, In p pieces ->
             match p with
             | Text c => not_char "{" c = true
             | Match g =>
                 exists call_id row col,
                   g = call_id +:+ "." +:+ row +:+ "." +:+ col /\ group_shape call_id row col
             end) ->
  In (Match group) (scan (String.concat "" (map (resolved_piece cache) pieces))) ->
  success (resolveSinglePlaceholder group cache) = false.
Proof.
  intros Hplain. induction pieces as [| p pieces IH]; intros Hpieces Hin; [destruct Hin |].
  cbn [map] in Hin. rewrite concat_empty_cons in Hin.
  assert (Hrest : forall q, In q pieces ->
                            match q with
                            | Text c => not_char "{" c = true
                            | Match g =>
                                exists call_id row col,
                                  g = call_id +:+ "." +:+ row +:+ "." +:+ col
                                  /\ group_shape call_id row col
                            end) by (intros q Hq; apply Hpieces; now right).
  pose proof (Hpieces p (or_introl eq_refl)) as Hp.
  destruct p as [c | g]; cbn [resolved_piece] in Hin.
  - cbn [String.append] in Hin.
    rewrite (scan_text_char c _ (match_placeholder_no_brace c _ Hp)) in Hin.
    destruct Hin as [Heq | Hin]; [discriminate | exact (IH Hrest Hin)].
  - unfold resolve_match in Hin.
    destruct (success (resolveSinglePlaceholder g cache)) eqn:Hg.
    + rewrite scan_app_no_brace in Hin
        by (apply plain_cell_text, resolved_value_plain; assumption).
      apply in_app_or in Hin as [Hin | Hin]; [| exact (IH Hrest Hin)].
      apply in_map_iff in Hin as (c & Hc & _). discriminate.
    + destruct Hp as (call_id & row & col & -> & Hshape).
      rewrite (scan_match _ _ _ (match_placeholder_complete call_id row col _ Hshape)) in Hin.
      destruct Hin as [Heq | Hin]; [| exact (IH Hrest Hin)].
      inversion Heq. subst. exact Hg.
Qed.

Lemma resolveString_twice (cache : DataCache) (s : string) :
  plain_cells cache -> plain_outside s = true ->
  resolveInObject cache (resolveString cache s) = resolveString cache s.
Proof.
  intros Hplain Hs. unfold resolveString.
  destruct (match_single s) as [group |] eqn:Hsingle.
  - destruct (success (resolveSinglePlaceholder group cache)) eqn:Hg.
    + apply plain_cell_resolved. apply resolved_value_plain; [assumption | | assumption].
      destruct (match_single_spec _ _ Hsingle) as [_ Hscan].
      apply (scan_from_shape 0 s). fold (scan s). rewrite Hscan. now left.
    + cbn [resolveInObject]. unfold resolveString. now rewrite Hsingle, Hg.
  - cbn [resolveInObject]. apply resolveString_unresolved.
    intros group Hin. unfold replace_callback in Hin.
    apply (scan_resolved_pieces cache (scan s) group Hplain); [| exact Hin].
    intros p Hp. unfold plain_outside in Hs. rewrite forallb_forall in Hs.
    specialize (Hs p Hp). destruct p as [c | g]; [exact Hs |].
    exact (scan_from_shape 0 s g Hp).
Qed.

Lemma assigned_map (f : any -> any) (l : list (string * any)) :
  assigned (map (fun kv => match kv with (key, v) => (key, f v) end) l)
  = map (fun kv => match kv with (key, v) => (key, f v) end) (assigned l).
Proof.
  unfold assigned. induction l as [| [key v] l IH]; cbn; [reflexivity |].
  destruct (negb (String.eqb key "__proto__")); cbn; now rewrite IH.
Qed.

Lemma assigned_idempotent (l : list (string * any)) : assigned (assigned l) = assigned l.
Proof.
  unfold assigned. induction l as [| [key v] l IH]; cbn; [reflexivity |].
  destruct (negb (String.eqb key "__proto__")) eqn:Hkey; cbn; [| exact IH].
  now rewrite Hkey, IH.
Qed.

Lemma assigned_In (kv : string * any) (l : list (string * any)) :
  In kv (assigned l) -> In kv l.
Proof. unfold assigned. intros H. apply filter_In in H. tauto. Qed.

(** C8, amended.  When every cell of the cached tables is a scalar whose
    text holds no opening brace, and the strings of the input tree hold no
    opening brace outside their placeholders, applying
    [resolveArgumentPlaceholders] to the output of a first application
    returns that output unchanged. *)
Theorem resolution_idempotent_on_plain_data (cache : DataCache) (t : any) :
  plain_cells cache ->
  plain_tree t = true ->
  resolveArgumentPlaceholders (resolveArgumentPlaceholders t cache) cache
  = resolveArgumentPlaceholders t cache.
Proof.
  intros Hplain. unfold resolveArgumentPlaceholders.
  induction t as [| | b | n | s | items IH | fields IH] using any_nested_ind;
    intros Htree; try reflexivity.
  - cbn [resolveInObject]. apply resolveString_twice; assumption.
  - cbn [resolveInObject plain_tree] in *. f_equal.
    rewrite map_map. apply map_ext_in. intros x Hx.
    rewrite List.Forall_forall in IH. rewrite forallb_forall in Htree.
    apply IH; [exact Hx | exact (Htree x Hx)].
  - cbn [resolveInObject plain_tree] in *. f_equal.
    rewrite !(assigned_map (resolveInObject cache)).
    rewrite assigned_idempotent. rewrite map_map.
    apply map_ext_in. intros [key v] Hkv.
    apply assigned_In in Hkv.
    rewrite List.Forall_forall in IH. rewrite forallb_forall in Htree.
    f_equal. apply (IH (key, v) Hkv). exact (Htree (key, v) Hkv).
Qed.

Lemma t1_plain_cells : plain_cells t1.
Proof.
  intros call_id headers rows row v Hcache Hrow Hv. unfold t1 in Hcache.
  apply lookup_singleton_Some in Hcache as [_ Heq]. inversion Heq. subst. clear Heq.
  destruct Hrow as [<- | []].
  destruct Hv as [<- | [<- | []]]; reflexivity.
Defined.

Lemma resolution_idempotent_on_plain_data_witness :
  plain_cells t1
  /\ plain_tree (JObj [("a", JArr [JStr "User {t1.0.ID}/{t1.0.Age} {t1.0.Nope}"; JStr "{t1.0.Age}"])])
     = true
  /\ resolveArgumentPlaceholders
       (JObj [("a", JArr [JStr "User {t1.0.ID}/{t1.0.Age} {t1.0.Nope}"; JStr "{t1.0.Age}"])]) t1
     = JObj [("a", JArr [JStr "User 1/42 {t1.0.Nope}"; JNum 42])]
  /\ resolveArgumentPlaceholders
       (resolveArgumentPlaceholders
          (JObj [("a", JArr [JStr "User {t1.0.ID}/{t1.0.Age} {t1.0.Nope}"; JStr "{t1.0.Age}"])])
          t1) t1
     = resolveArgumentPlaceholders
         (JObj [("a", JArr [JStr "User {t1.0.ID}/{t1.0.Age} {t1.0.Nope}"; JStr "{t1.0.Age}"])])
         t1.
Proof.
  split; [exact t1_plain_cells |]. split; [vm_compute; reflexivity |].
  split; [vm_compute; reflexivity |].
  apply (resolution_idempotent_on_plain_data t1
           (JObj [("a", JArr [JStr "User {t1.0.ID}/{t1.0.Age} {t1.0.Nope}";
                              JStr "{t1.0.Age}"])])
           t1_plain_cells).
  vm_compute. reflexivity.
Defined.

(** * Further properties *)

(** ** The usage hierarchy and the evaluator *)

(** X1.  [validateDataUsage] orders the usage levels totally: a grant covers
    its own level and every lower one, [display] is covered by every grant
    and a grant of [transfer] covers every level. *)
Theorem validateDataUsage_total_order (a b c : DataUsage) :
  validateDataUsage a a = true
  /\ (validateDataUsage a b = true -> validateDataUsage b c = true ->
      validateDataUsage a c = true)
  /\ (validateDataUsage a b = true -> validateDataUsage b a = true -> a = b)
  /\ (validateDataUsage a b = true \/ validateDataUsage b a = true)
  /\ validateDataUsage Display a = true
  /\ validateDataUsage a Transfer = true
  /\ (validateDataUsage Transfer a = true -> a = Transfer).
Proof.
  destruct a, b, c; cbn; repeat split; try reflexivity; try discriminate; auto.
Qed.

(** X2.  The result of [validateDataAccess] is allowed exactly when the
    effective permission is [allow], the target step passes and the consent
    check asks for nothing.  A refusal carries the code -32005 or -32007 and
    a message; a consent request comes exactly with -32007; an allowed
    result carries no code, no message and no consent request. *)
Theorem validateDataAccess_outcome
    (now : Z) (random36 : string) (tool : option Tool) (usageContext : McppUsageContext)
    (serverConfig : McppServerConfig) (placeholderData : any) :
  let r := validateDataAccess now random36 tool usageContext serverConfig placeholderData in
  (allowed r = true
   <-> getEffectiveDataUsagePermission tool (data_usage usageContext) serverConfig = Allow
       /\ target_allowed (validateTargetPermissions tool usageContext serverConfig) = true
       /\ consent_required (checkConsentRequired tool usageContext serverConfig) = false)
  /\ (allowed r = true <-> error_code r = None)
  /\ (allowed r = false ->
      error_code r = Some (-32005)%Z \/ error_code r = Some (-32007)%Z)
  /\ (is_Some (consent_request r) <-> error_code r = Some (-32007)%Z)
  /\ (is_Some (error_message r) <-> allowed r = false)
  /\ (allowed r = true ->
      data_usage_valid (validation_details r) = true
      /\ target_permissions_valid (validation_details r) = true
      /\ consent_required (consent_check (validation_details r)) = false).
Proof.
  unfold validateDataAccess.
  destruct (getEffectiveDataUsagePermission tool (data_usage usageContext) serverConfig);
    repeat case_bool_decide; try discriminate;
    destruct (target_allowed (validateTargetPermissions tool usageContext serverConfig));
    cbn;
    destruct (consent_required (checkConsentRequired tool usageContext serverConfig)) eqn:Hc;
    cbn; rewrite ?Hc;
    repeat split; intros; try discriminate; try tauto; try (eexists; reflexivity);
    try (match goal with H : is_Some None |- _ => destruct H; discriminate end);
    try (match goal with H : _ /\ _ |- _ => destruct H as (? & ? & ?); discriminate end);
    auto.
Qed.

(** ** The consent check *)

(** X3.  The order in which the consent check decides for a tool with
    consent overrides: a display to a client needs no consent even when the
    tool always requires it; otherwise [never_require_consent] wins over
    [always_require_consent], and [always_require_consent] asks for consent
    with the tool's message before any list of trusted targets is read. *)
Theorem consent_overrides_decide_first
    (tool : option Tool) (overrides : ConsentOverrides)
    (usageContext : McppUsageContext) (serverConfig : McppServerConfig) :
  tool_consent_overrides tool = Some overrides ->
  (data_usage usageContext = Display -> type (target usageContext) = Client ->
   checkConsentRequired tool usageContext serverConfig = no_consent "display_to_client")
  /\ (data_usage usageContext <> Display \/ type (target usageContext) <> Client ->
      (never_require_consent overrides = true ->
       checkConsentRequired tool usageContext serverConfig
       = no_consent "tool_override_never")
      /\ (never_require_consent overrides = false ->
          always_require_consent overrides = true ->
          checkConsentRequired tool usageContext serverConfig
          = {| consent_required := true; reason := ["tool_override_always"];
               consent_cache_key := None; trusted_server := false;
               custom_message := custom_consent_message overrides |})).
Proof.
  intros Ho. unfold checkConsentRequired. rewrite Ho. cbn. split.
  - intros -> ->. reflexivity.
  - intros Hnot.
    assert (Hfirst : bool_decide (data_usage usageContext = Display)
                     && bool_decide (type (target usageContext) = Client) = false).
    { destruct Hnot as [H | H]; repeat case_bool_decide; try reflexivity; contradiction. }
    rewrite Hfirst. split.
    + intros ->. reflexivity.
    + intros -> ->. reflexivity.
Qed.

Lemma consent_overrides_decide_first_witness :
  tool_consent_overrides (Some both_overrides_tool)
  = Some {| always_require_consent := true; never_require_consent := true;
            custom_consent_message := Some "Share the contacts?";
            allowed_without_consent := None |}
  /\ checkConsentRequired (Some both_overrides_tool) (usage Display Client "dash")
       defaultMcppConfig
     = no_consent "display_to_client"
  /\ checkConsentRequired (Some both_overrides_tool) (usage Transfer Llm "gpt-4")
       defaultMcppConfig
     = no_consent "tool_override_never".
Proof.
  split; [reflexivity |].
  pose proof (consent_overrides_decide_first (Some both_overrides_tool)
                {| always_require_consent := true; never_require_consent := true;
                   custom_consent_message := Some "Share the contacts?";
                   allowed_without_consent := None |}) as Horder.
  split.
  - exact (proj1 (Horder (usage Display Client "dash") defaultMcppConfig eq_refl)
             eq_refl eq_refl).
  - refine (proj1 (proj2 (Horder (usage Transfer Llm "gpt-4") defaultMcppConfig eq_refl) _)
              eq_refl).
    left. discriminate.
Defined.

Lemma substring_whole (s : string) : String.substring 0 (String.length s) s = s.
Proof. induction s as [| c s IH]; cbn; [reflexivity | now rewrite IH]. Qed.

Lemma substring_skip (a b : string) (m : nat) :
  String.substring (String.length a) m (a +:+ b) = String.substring 0 m b.
Proof. induction a as [| c a IH]; cbn; [reflexivity | exact IH]. Qed.

(** A destination ends with each of its suffixes. *)
Lemma endsWith_suffix (pre suffix : string) : endsWith (pre +:+ suffix) suffix = true.
Proof.
  unfold endsWith, substring_from. rewrite string_app_length.
  apply andb_true_iff. split; [apply Nat.leb_le; lia |].
  replace (String.length pre + String.length suffix - String.length suffix)%nat
    with (String.length pre) by lia.
  replace (String.length pre + String.length suffix - String.length pre)%nat
    with (String.length suffix) by lia.
  rewrite substring_skip, substring_whole. apply String.eqb_refl.
Qed.

Lemma wildcard_matches_suffix (pre suffix : string) :
  trusted_domain_matches (pre +:+ suffix) ("*." +:+ suffix) = true.
Proof.
  unfold trusted_domain_matches, startsWith, substring_from. cbn.
  replace (String.length suffix - 0)%nat with (String.length suffix) by lia.
  rewrite substring_whole.
  replace (String.prefix "" suffix) with true by (now destruct suffix).
  apply endsWith_suffix.
Qed.

(** X4.  A trusted domain [*.suffix] is a test on the end of the
    destination: every non-empty destination that ends in [suffix], with or
    without a dot before it, needs no consent unless the tool always
    requires it. *)
Theorem wildcard_domain_trusts_every_suffix
    (tool : option Tool) (usageContext : McppUsageContext) (serverConfig : McppServerConfig)
    (pre suffix : string) :
  In ("*." +:+ suffix)
    (trusted_domains (user_consent_settings (global_policies serverConfig))) ->
  destination (target usageContext) = Some (pre +:+ suffix) ->
  pre +:+ suffix <> "" ->
  default false (always_require_consent <$> tool_consent_overrides tool) = false ->
  consent_required (checkConsentRequired tool usageContext serverConfig) = false.
Proof.
  intros Hdomain Hdest Hne Halways. unfold checkConsentRequired.
  destruct (bool_decide (data_usage usageContext = Display)
            && bool_decide (type (target usageContext) = Client)); [reflexivity |].
  destruct (default false (never_require_consent <$> tool_consent_overrides tool));
    [reflexivity |].
  rewrite Halways, Hdest. clear Halways.
  destruct (pre +:+ suffix) as [| c d] eqn:Hd; [contradiction |].
  destruct (default false (_ <$> tool_consent_overrides tool ≫= allowed_without_consent));
    [reflexivity |].
  destruct (includes _ (String c d)); [reflexivity |].
  assert (Hmatch : existsb (trusted_domain_matches (String c d))
                     (trusted_domains (user_consent_settings (global_policies serverConfig)))
                   = true).
  { apply existsb_exists. exists ("*." +:+ suffix). split; [exact Hdomain |].
    rewrite <- Hd. apply wildcard_matches_suffix. }
  rewrite Hmatch. reflexivity.
Qed.

Lemma wildcard_domain_trusts_every_suffix_witness :
  In ("*." +:+ "company.com")
    (trusted_domains (user_consent_settings (global_policies defaultMcppConfig)))
  /\ destination (target (usage Transfer Server "evilcompany.com"))
     = Some ("evil" +:+ "company.com")
  /\ "evil" +:+ "company.com" <> ""
  /\ default false (always_require_consent <$> tool_consent_overrides (Some get_books_invoices))
     = false
  /\ consent_required (checkConsentRequired (Some get_books_invoices)
                         (usage Transfer Server "evilcompany.com") defaultMcppConfig)
     = false.
Proof.
  split; [left; reflexivity |]. split; [reflexivity |]. split; [discriminate |].
  split; [reflexivity |].
  apply (wildcard_domain_trusts_every_suffix (Some get_books_invoices)
           (usage Transfer Server "evilcompany.com") defaultMcppConfig "evil" "company.com");
    [left; reflexivity | reflexivity | discriminate | reflexivity].
Defined.

(** ** Target permissions *)

(** X5.  Without a destination, or with the empty one, the target
    permissions of the tool are not consulted at all: the request is judged
    as if the tool had no policy, and it asks for consent only when the tool
    always requires it. *)
Theorem no_destination_skips_tool_targets
    (tool : option Tool) (usageContext : McppUsageContext) (serverConfig : McppServerConfig) :
  destination (target usageContext) = None \/ destination (target usageContext) = Some "" ->
  validateTargetPermissions tool usageContext serverConfig
  = validateTargetPermissions None usageContext serverConfig
  /\ (consent_required (checkConsentRequired tool usageContext serverConfig) = true ->
      default false (always_require_consent <$> tool_consent_overrides tool) = true
      /\ reason (checkConsentRequired tool usageContext serverConfig)
         = ["tool_override_always"]).
Proof.
  intros Hdest. split.
  - unfold validateTargetPermissions. cbn zeta.
    destruct Hdest as [-> | ->]; destruct (tool_target_permissions tool); reflexivity.
  - unfold checkConsentRequired.
    destruct (bool_decide (data_usage usageContext = Display)
              && bool_decide (type (target usageContext) = Client)); [discriminate |].
    destruct (default false (never_require_consent <$> tool_consent_overrides tool));
      [discriminate |].
    destruct (default false (always_require_consent <$> tool_consent_overrides tool));
      [intros _; split; reflexivity |].
    destruct Hdest as [-> | ->]; discriminate.
Qed.

Lemma no_destination_skips_tool_targets_witness :
  (destination (target (usage_nowhere Transfer Llm)) = None
   \/ destination (target (usage_nowhere Transfer Llm)) = Some "")
  /\ validateTargetPermissions (Some no_target_tool) (usage_nowhere Transfer Llm)
       defaultMcppConfig
     = {| target_allowed := true; target_reason := "validation_passed" |}
  /\ consent_required (checkConsentRequired (Some no_target_tool)
                         (usage_nowhere Transfer Llm) defaultMcppConfig) = false.
Proof.
  split; [left; reflexivity |].
  destruct (no_destination_skips_tool_targets (Some no_target_tool)
              (usage_nowhere Transfer Llm) defaultMcppConfig (or_introl eq_refl))
    as [Htarget Hconsent].
  split; [rewrite Htarget; reflexivity |].
  destruct (consent_required _) eqn:Hc; [| reflexivity].
  destruct (Hconsent eq_refl) as [Habs _]. discriminate Habs.
Defined.

(** X6.  The global target policy is enforced for the target types
    [server] and [llm] only: its entries for [client], [servers] and [all]
    are never read, so a tool without target permissions may send to such a
    target whatever the configuration says. *)
Theorem global_policy_covers_server_and_llm_only
    (tool : option Tool) (usageContext : McppUsageContext) (serverConfig : McppServerConfig) :
  tool_target_permissions tool = None ->
  type (target usageContext) <> Server ->
  type (target usageContext) <> Llm ->
  validateTargetPermissions tool usageContext serverConfig
  = {| target_allowed := true; target_reason := "validation_passed" |}.
Proof.
  intros Hnone Hserver Hllm. unfold validateTargetPermissions. cbn zeta. rewrite Hnone.
  destruct (type (target usageContext)); try contradiction; reflexivity.
Qed.

Lemma global_policy_covers_server_and_llm_only_witness :
  tool_target_permissions None = None
  /\ type (target (usage Transfer Client "kiosk")) <> Server
  /\ type (target (usage Transfer Client "kiosk")) <> Llm
  /\ policy_client (default_target_policy (global_policies strict_targets_config)) = Deny
  /\ validateTargetPermissions None (usage Transfer Client "kiosk") strict_targets_config
     = {| target_allowed := true; target_reason := "validation_passed" |}.
Proof.
  split; [reflexivity |]. split; [discriminate |]. split; [discriminate |].
  split; [reflexivity |].
  apply (global_policy_covers_server_and_llm_only None (usage Transfer Client "kiosk")
           strict_targets_config); [reflexivity | discriminate | discriminate].
Defined.

Lemma includes_false_not_In (l : list string) (x : string) :
  ~ In x l -> includes l x = false.
Proof.
  intros Hnot. destruct (includes l x) eqn:Hin; [| reflexivity].
  exfalso. apply Hnot. now apply includes_In.
Qed.

(** X7.  An allow-list of the tool is enforced for every target type: a
    non-empty destination outside [allowed_targets], or any destination when
    it is ['none'], is refused by the target step, and the evaluator answers
    with the permission error, never with a consent request. *)
Theorem allowed_targets_enforced
    (now : Z) (random36 : string) (tool : option Tool) (policy : TargetPermissions)
    (usageContext : McppUsageContext) (serverConfig : McppServerConfig)
    (placeholderData : any) (d : string) :
  tool_target_permissions tool = Some policy ->
  destination (target usageContext) = Some d ->
  d <> "" ->
  allowed_targets policy = Some NoTargets
  \/ (exists l, allowed_targets policy = Some (Targets l) /\ ~ In d l) ->
  let r := validateDataAccess now random36 tool usageContext serverConfig placeholderData in
  target_allowed (validateTargetPermissions tool usageContext serverConfig) = false
  /\ allowed r = false
  /\ error_code r = Some (-32005)%Z
  /\ consent_request r = None.
Proof.
  intros Hpolicy Hdest Hne Hlist.
  assert (Htarget : target_allowed (validateTargetPermissions tool usageContext serverConfig)
                    = false).
  { unfold validateTargetPermissions. cbn zeta. rewrite Hpolicy, Hdest.
    destruct d as [| c d]; [contradiction |].
    unfold tool_target_checks. cbn [app first_denial].
    destruct (check_blocked _ _ _); [reflexivity |].
    destruct Hlist as [-> | (l & -> & Hnot)]; cbn [check_allowed]; [reflexivity |].
    rewrite (includes_false_not_In _ _ Hnot). reflexivity. }
  cbn zeta. split; [exact Htarget |].
  unfold validateDataAccess. rewrite Htarget.
  destruct (bool_decide _); cbn; auto.
Qed.

Lemma allowed_targets_enforced_witness :
  tool_target_permissions (Some no_target_tool)
  = Some {| allowed_targets := Some NoTargets; blocked_targets := None;
            allowed_clients := None; allowed_servers := None; blocked_servers := None |}
  /\ destination (target (usage Display Client "dashboard")) = Some "dashboard"
  /\ "dashboard" <> ""
  /\ allowed (validateDataAccess 0 "0.abcdefghijk" (Some no_target_tool)
                (usage Display Client "dashboard") defaultMcppConfig JNull) = false.
Proof.
  split; [reflexivity |]. split; [reflexivity |]. split; [discriminate |].
  refine (proj1 (proj2 (allowed_targets_enforced 0 "0.abcdefghijk" (Some no_target_tool) _
                          (usage Display Client "dashboard") defaultMcppConfig JNull
                          "dashboard" eq_refl eq_refl _ (or_introl eq_refl)))).
  discriminate.
Defined.

(** ** Consent requests and the consent cache *)

Lemma unique_from_spec (seen l : list string) :
  List.NoDup (unique_from seen l)
  /\ forall x, In x (unique_from seen l) <-> In x l /\ ~ In x seen.
Proof.
  revert seen. induction l as [| y l IH]; intros seen; cbn.
  - split; [constructor | tauto].
  - destruct (includes seen y) eqn:Hy.
    + apply includes_In in Hy. destruct (IH seen) as [Hnd Hin]. split; [exact Hnd |].
      intros x. rewrite Hin. split; [tauto |].
      intros [[<- | Hx] Hnot]; [contradiction | tauto].
    + assert (Hnot : ~ In y seen) by (rewrite <- includes_In, Hy; discriminate).
      destruct (IH (y :: seen)) as [Hnd Hin]. split.
      * apply List.NoDup_cons; [| exact Hnd]. rewrite Hin. cbn. tauto.
      * intros x. cbn. rewrite Hin. cbn. split.
        -- intros [<- | [Hx Hs]]; tauto.
        -- intros [[<- | Hx] Hs]; [tauto |].
           destruct (String.eqb_spec y x) as [-> | Hne]; tauto.
Qed.

(** X8.  The data summary of a consent request lists each field name
    once, the fields of a string are exactly the third parts of its
    three-part placeholders, every sensitive field is one of the listed
    fields, and data that is not a string has no fields at all. *)
Theorem summary_lists_each_field_once (placeholderData : any) :
  let summary := summarize placeholderData in
  NoDup (data_types summary)
  /\ NoDup (sensitive_fields summary)
  /\ (forall field, In field (sensitive_fields summary)
                    <-> In field (data_types summary) /\ is_sensitive_field field = true)
  /\ (forall s, placeholderData = JStr s ->
                forall field, In field (data_types summary)
                              <-> In field (map field_of_match (regex_matches match_dotted s)))
  /\ ((forall s, placeholderData <> JStr s) ->
      data_types summary = [] /\ sensitive_fields summary = []).
Proof.
  cbn zeta. unfold summarize. cbn [data_types sensitive_fields].
  assert (Hnd : List.NoDup match placeholderData with
                           | JStr s => unique_from []
                                         (map field_of_match (regex_matches match_dotted s))
                           | _ => []
                           end).
  { destruct placeholderData; try constructor. apply unique_from_spec. }
  split; [apply NoDup_ListNoDup; exact Hnd |].
  split; [apply NoDup_ListNoDup, List.NoDup_filter; exact Hnd |].
  split; [intros field; apply filter_In |]. split.
  - intros s ->. intros field.
    destruct (unique_from_spec [] (map field_of_match (regex_matches match_dotted s)))
      as [_ Hin].
    rewrite Hin. cbn. tauto.
  - intros Hnot. destruct placeholderData; try (split; reflexivity).
    exfalso. eapply Hnot. reflexivity.
Qed.

(** X9.  A decision stored by [setConsent] is returned by [getConsent]
    under the same key up to its expiry time, the last millisecond
    included, and the lookup leaves the cache as it is; after that time the
    lookup returns nothing and the entry is gone.  The clock may move
    between the stamp of the entry and the removal of the expired entries. *)
Theorem consent_is_kept_until_expiry
    (now cleanupNow later : Z) (cacheKey : string) (d : ConsentDecision) (durationMinutes : Z)
    (requesterHostId destination dataUsage : string) (c : ConsentCache) :
  (now <= cleanupNow <= later)%Z ->
  let stored :=
    setConsent_at now cleanupNow cacheKey d durationMinutes requesterHostId destination
      dataUsage c in
  setConsent now cacheKey d durationMinutes requesterHostId destination dataUsage c
  = setConsent_at now now cacheKey d durationMinutes requesterHostId destination dataUsage c
  /\ ((later <= now + durationMinutes * 60 * 1000)%Z ->
      getConsent later cacheKey stored = (Some d, stored)
      /\ hasConsent later cacheKey stored = (true, stored))
  /\ ((now + durationMinutes * 60 * 1000 < later)%Z ->
      fst (getConsent later cacheKey stored) = None
      /\ cache (snd (getConsent later cacheKey stored)) !! cacheKey = None
      /\ fst (hasConsent later cacheKey stored) = false).
Proof.
  intros Htime. cbn zeta. split; [reflexivity |].
  set (entry := {| decision := d; entry_timestamp := now; duration_minutes := durationMinutes;
                   requester_host_id := requesterHostId; entry_destination := destination;
                   entry_data_usage := dataUsage |}).
  set (stored := setConsent_at now cleanupNow cacheKey d durationMinutes requesterHostId
                   destination dataUsage c).
  assert (Hlookup : cache stored !! cacheKey
                    = if expired cleanupNow entry then None else Some entry).
  { unfold stored, setConsent_at, cleanupExpiredEntries. cbn [cache]. fold entry.
    destruct (expired cleanupNow entry) eqn:He.
    - apply map_lookup_filter_None. right. intros x Hx.
      rewrite lookup_insert_eq in Hx. inversion Hx. subst x. cbn. rewrite He. discriminate.
    - apply map_lookup_filter_Some. split; [apply lookup_insert_eq | exact He]. }
  unfold expired, expiryTime in Hlookup. cbn [entry_timestamp duration_minutes entry] in Hlookup.
  split.
  - intros Hfresh.
    assert (Hget : getConsent later cacheKey stored = (Some d, stored)).
    { unfold getConsent. rewrite Hlookup.
      destruct (Z.ltb_spec (now + durationMinutes * 60 * 1000) cleanupNow); [lia |].
      unfold expired, expiryTime. cbn [entry_timestamp duration_minutes entry decision].
      destruct (Z.ltb_spec (now + durationMinutes * 60 * 1000) later); [lia | reflexivity]. }
    split; [exact Hget |]. unfold hasConsent. rewrite Hget.
    case_bool_decide; [reflexivity | discriminate].
  - intros Hlate.
    assert (Hget : fst (getConsent later cacheKey stored) = None
                   /\ cache (snd (getConsent later cacheKey stored)) !! cacheKey = None).
    { unfold getConsent. rewrite Hlookup.
      destruct (Z.ltb_spec (now + durationMinutes * 60 * 1000) cleanupNow) as [Hgone | Hkept].
      - cbn. split; [reflexivity | exact Hlookup].
      - unfold expired, expiryTime. cbn [entry_timestamp duration_minutes entry].
        destruct (Z.ltb_spec (now + durationMinutes * 60 * 1000) later); [| lia].
        cbn. split; [reflexivity | apply lookup_delete_eq]. }
    destruct Hget as [Hnone Hgone]. split; [exact Hnone |]. split; [exact Hgone |].
    unfold hasConsent. destruct (getConsent later cacheKey stored) as [r c'].
    cbn in Hnone. subst r. reflexivity.
Qed.

Lemma consent_is_kept_until_expiry_witness :
  (0 <= 0 <= 60000)%Z
  /\ getConsent 60000 "host::partner_crm::transfer" one_decision
     = (Some DecisionAllow, one_decision)
  /\ fst (getConsent 60001 "host::partner_crm::transfer" one_decision) = None.
Proof.
  split; [lia |]. split.
  - refine (proj1 (proj1 (proj2 (consent_is_kept_until_expiry 0 0 60000
                                   "host::partner_crm::transfer" DecisionAllow 1 "host"
                                   "partner_crm" "transfer"
                                   {| cache := ∅; pendingRequests := ∅; settled := [] |} _))
                     _));
      lia.
  - refine (proj1 (proj2 (proj2 (consent_is_kept_until_expiry 0 0 60001
                                   "host::partner_crm::transfer" DecisionAllow 1 "host"
                                   "partner_crm" "transfer"
                                   {| cache := ∅; pendingRequests := ∅; settled := [] |} _))
                     _));
      lia.
Defined.

(** X10.  After [setConsent] no entry of the cache is expired; the
    entries under other keys that are not expired are kept as they were, so
    the answer of [getConsent] for another key at that time is the answer it
    had before; the pending requests are not touched. *)
Theorem setConsent_purges_only_expired
    (now cleanupNow : Z) (cacheKey : string) (d : ConsentDecision) (durationMinutes : Z)
    (requesterHostId destination dataUsage : string) (c : ConsentCache) :
  let stored :=
    setConsent_at now cleanupNow cacheKey d durationMinutes requesterHostId destination
      dataUsage c in
  (forall key entry, cache stored !! key = Some entry -> (cleanupNow <= expiryTime entry)%Z)
  /\ (forall key, key <> cacheKey ->
        cache stored !! key
        = cache c !! key
          ≫= (fun entry => if expired cleanupNow entry then None else Some entry))
  /\ (forall key, key <> cacheKey ->
        fst (getConsent cleanupNow key stored) = fst (getConsent cleanupNow key c))
  /\ pendingRequests stored = pendingRequests c
  /\ settled stored = settled c.
Proof.
  cbn zeta.
  assert (Hother : forall key, key <> cacheKey ->
            cache (setConsent_at now cleanupNow cacheKey d durationMinutes requesterHostId
                     destination dataUsage c) !! key
            = cache c !! key
              ≫= (fun entry => if expired cleanupNow entry then None else Some entry)).
  { intros key Hne. unfold setConsent_at, cleanupExpiredEntries. cbn [cache].
    destruct (cache c !! key) as [entry |] eqn:Hkey; cbn.
    - destruct (expired cleanupNow entry) eqn:He.
      + apply map_lookup_filter_None. right. intros x Hx.
        rewrite lookup_insert_ne in Hx by congruence.
        rewrite Hkey in Hx. inversion Hx. subst x. cbn. rewrite He. discriminate.
      + apply map_lookup_filter_Some. split; [| exact He].
        rewrite lookup_insert_ne by congruence. exact Hkey.
    - apply map_lookup_filter_None. left.
      rewrite lookup_insert_ne by congruence. exact Hkey. }
  split; [| split; [exact Hother | split; [| split; reflexivity]]].
  - intros key entry Hentry. unfold setConsent_at, cleanupExpiredEntries in Hentry.
    cbn [cache] in Hentry. apply map_lookup_filter_Some in Hentry as [_ He].
    cbn in He. unfold expired in He. lia.
  - intros key Hne. unfold getConsent. rewrite (Hother key Hne).
    destruct (cache c !! key) as [entry |]; cbn; [| reflexivity].
    destruct (expired cleanupNow entry) eqn:He; cbn; [reflexivity |]. rewrite He. reflexivity.
Qed.

(** X11.  [provide_consent] settles a pending request at most once.  A
    successful answer names a pending request, removes exactly that request
    from the pending ones and delivers exactly one decision, the one of the
    request; the same answer sent again finds nothing (-32004).  An answer
    with an error (-32602 or -32004) leaves the consent state untouched. *)
Theorem provide_consent_settles_once
    (consentCache : ConsentCache) (params : option ProvideConsentParams) (id : any) :
  let outcome := handleProvideConsent consentCache params id in
  match fst outcome with
  | Result r _ =>
      exists p requestId d,
        params = Some p
        /\ consent_request_id p = JStr requestId
        /\ parse_decision (consent_decision p) = Some d
        /\ requestId ∈ getPendingRequests consentCache
        /\ getPendingRequests (snd outcome) = getPendingRequests consentCache ∖ {[requestId]}
        /\ settled (snd outcome) = (requestId, Resolved d) :: settled consentCache
        /\ handleProvideConsent (snd outcome) params id
           = (Error (Some (-32004)%Z) (Some "Consent request not found or expired")
                (ConsentNotFound (JStr requestId)
                   (getPendingRequests consentCache ∖ {[requestId]})) id,
              snd outcome)
  | Error code _ _ _ =>
      snd outcome = consentCache
      /\ (code = Some (-32602)%Z \/ code = Some (-32004)%Z)
  end.
Proof.
  cbn zeta. unfold handleProvideConsent.
  destruct params as [p |]; [| cbn; auto].
  destruct (negb (truthy (consent_request_id p)) || negb (truthy (consent_decision p)))
    eqn:Hmissing; [cbn; auto |].
  destruct (parse_decision (consent_decision p)) as [d |] eqn:Hd; [| cbn; auto].
  destruct (consent_request_id p) as [| | b | n | requestId | items | fields] eqn:Hid;
    try (cbn; auto; fail).
  unfold resolveConsentRequest.
  destruct (pendingRequests consentCache !! requestId) as [timer |] eqn:Hpending;
    [| cbn; auto].
  cbn [negb fst snd].
  assert (Hsame : (if truthy (remember p) && truthy (consent_duration_minutes p)
                   then {| cache := cache consentCache;
                           pendingRequests := delete requestId (pendingRequests consentCache);
                           settled := (requestId, Resolved d) :: settled consentCache |}
                   else {| cache := cache consentCache;
                           pendingRequests := delete requestId (pendingRequests consentCache);
                           settled := (requestId, Resolved d) :: settled consentCache |})
                  = {| cache := cache consentCache;
                       pendingRequests := delete requestId (pendingRequests consentCache);
                       settled := (requestId, Resolved d) :: settled consentCache |})
    by (destruct (truthy (remember p) && truthy (consent_duration_minutes p)); reflexivity).
  rewrite Hsame. cbn [fst snd].
  exists p, requestId, d.
  split; [reflexivity |]. split; [exact Hid |]. split; [exact Hd |].
  split; [apply elem_of_dom; eauto |].
  split; [apply dom_delete_L |]. split; [reflexivity |].
  cbn [pendingRequests]. rewrite lookup_delete_eq.
  cbn [negb]. unfold getPendingRequests. cbn [pendingRequests]. rewrite dom_delete_L.
  reflexivity.
Qed.

(** ** The cache of tool results and [mcpp/get_data] *)

(** X12.  [get_data] never returns anything but the entry cached under
    the requested [tool_call_id], a non-empty string.  A missing or falsy
    [tool_call_id] is answered with -32602; an id that is not a key of the
    cache with -32004, and that error lists every key of the cache; both
    come before any policy evaluation. *)
Theorem get_data_returns_only_the_cached_entry
    (now : Z) (random36 : string) (dataCache : DataCache) (params : option GetDataParams)
    (id : any) (tool : option Tool) (serverConfig : option McppServerConfig) :
  let tool_call_id := default JUndefined (get_tool_call_id <$> params) in
  let response := handleGetData now random36 dataCache params id tool serverConfig in
  (forall data id', response = Result data id' ->
      exists key, tool_call_id = JStr key /\ key <> "" /\ dataCache !! key = Some data
                  /\ id' = or_else id JNull)
  /\ (truthy tool_call_id = false ->
      response = Error (Some (-32602)%Z) (Some "Invalid params: tool_call_id is required")
                   (RequiredParams ["tool_call_id"]) (or_else id JNull))
  /\ (truthy tool_call_id = true -> cache_get dataCache tool_call_id = None ->
      response = Error (Some (-32004)%Z)
                   (Some "Cached data not found for the given tool_call_id")
                   (CacheNotFound tool_call_id (dom dataCache)) (or_else id JNull)).
Proof.
  cbn zeta. unfold handleGetData.
  destruct (truthy (default JUndefined (get_tool_call_id <$> params))) eqn:Htruthy; cbn [negb].
  2: { split; [discriminate |]. split; [reflexivity | discriminate]. }
  destruct (cache_get dataCache (default JUndefined (get_tool_call_id <$> params)))
    as [data |] eqn:Hcached.
  2: { split; [discriminate |]. split; [discriminate | reflexivity]. }
  split; [| split; discriminate].
  assert (Hkey : exists key, default JUndefined (get_tool_call_id <$> params) = JStr key
                             /\ key <> "" /\ dataCache !! key = Some data).
  { destruct (default JUndefined (get_tool_call_id <$> params)) as [| | | | key | |];
      try discriminate Hcached.
    exists key. split; [reflexivity |]. split; [| exact Hcached].
    intros ->. discriminate Htruthy. }
  destruct Hkey as (key & Hid & Hne & Hdata).
  intros data' id' Hresponse. exists key. split; [exact Hid |]. split; [exact Hne |].
  destruct (params ≫= get_usage_context) as [usage_context |];
    [destruct serverConfig as [config |] |].
  - destruct (allowed (validateDataAccess now random36 tool usage_context config
                         (CachedData_value data))); cbn in Hresponse.
    + inversion Hresponse. subst. auto.
    + discriminate Hresponse.
  - inversion Hresponse. subst. auto.
  - inversion Hresponse. subst. auto.
Qed.

(** ** Decimal numerals *)

Lemma digits_of_uint_acc (d : Decimal.uint) (acc : positive) :
  fold_left (fun a c => (10 * a + digit_value c)%Z)
    (list_ascii_of_string (NilEmpty.string_of_uint d)) (Z.pos acc)
  = Z.pos (Pos.of_uint_acc d acc).
Proof.
  revert acc. induction d; intros acc; cbn [NilEmpty.string_of_uint list_ascii_of_string
                                              fold_left Pos.of_uint_acc];
    try reflexivity; rewrite <- IHd; f_equal;
    match goal with
    | |- context [digit_value ?c] =>
        let v := eval vm_compute in (digit_value c) in change (digit_value c) with v
    end; lia.
Qed.

Lemma digits_value_of_uint (d : Decimal.uint) :
  digits_value (NilEmpty.string_of_uint d) = Z.of_uint d.
Proof.
  unfold digits_value, Z.of_uint.
  induction d; cbn [NilEmpty.string_of_uint list_ascii_of_string fold_left Pos.of_uint];
    try reflexivity; try exact IHd;
    match goal with
    | |- fold_left _ _ ?a = _ =>
        let p := eval cbv in (Z.to_pos a) in
        change a with (Z.pos p); rewrite digits_of_uint_acc; reflexivity
    end.
Qed.

Lemma all_digits_of_uint (d : Decimal.uint) :
  all_chars is_digit (NilEmpty.string_of_uint d) = true.
Proof. induction d; cbn; auto. Qed.

(** The decimal numeral of a natural number: digits only, and read back by
    [digits_value]. *)
Lemma string_of_Z_digits (n : Z) :
  (0 <= n)%Z ->
  string_of_Z n <> ""
  /\ all_chars is_digit (string_of_Z n) = true
  /\ digits_value (string_of_Z n) = n.
Proof.
  intros Hn. pose proof (DecimalZ.of_to n) as Hround.
  unfold string_of_Z, NilZero.string_of_int.
  destruct (Z.to_int n) as [d | d] eqn:Hd.
  - cbn [Z.of_int] in Hround.
    assert (Hcases : d = Decimal.Nil
                     \/ NilZero.string_of_uint d = NilEmpty.string_of_uint d
                        /\ NilEmpty.string_of_uint d <> "").
    { destruct d; [left; reflexivity | right; split; [reflexivity | discriminate] ..]. }
    destruct Hcases as [-> | [-> Hne]].
    + split; [discriminate |]. split; [reflexivity |]. rewrite <- Hround. reflexivity.
    + split; [exact Hne |]. split; [apply all_digits_of_uint |].
      rewrite <- Hround. apply digits_value_of_uint.
  - exfalso. destruct n; cbn in Hd; try discriminate. lia.
Qed.

(** ** From a cached table to a resolved placeholder *)

Lemma indexOf_NoDup (l : list string) (j : nat) (x : string) :
  NoDup l -> l !! j = Some x -> indexOf l x = Z.of_nat j.
Proof.
  intros Hnd Hj. destruct (indexOf_found l x) as [[_ Hnot] | [Hpos Hfound]].
  - exfalso. apply Hnot. apply list_elem_of_In. eapply list_elem_of_lookup_2. exact Hj.
  - pose proof (NoDup_lookup l _ _ x Hnd Hfound Hj). lia.
Qed.

(** The placeholder written for row [i] and a header of a cached table
    resolves to the cell of that row in the first column with that header. *)
Lemma minted_placeholder_resolves
    (cache : DataCache) (call_id header : string) (i j : nat)
    (headers : list string) (rows : list (list any)) (row : list any) :
  call_id <> "" -> all_chars is_id_char call_id = true ->
  header <> "" -> all_chars is_id_char header = true ->
  cache !! call_id = Some (TableData headers rows) ->
  rows !! i = Some row ->
  indexOf headers header = Z.of_nat j ->
  resolveString cache
    ("{" +:+ call_id +:+ "." +:+ string_of_Z (Z.of_nat i) +:+ "." +:+ header +:+ "}")
  = cell row j.
Proof.
  intros Hid Hidc Hh Hhc Hcache Hrow Hindex.
  destruct (string_of_Z_digits (Z.of_nat i)) as (Hne & Hdigits & Hvalue); [lia |].
  set (row_s := string_of_Z (Z.of_nat i)) in *.
  assert (Hshape : group_shape call_id row_s header) by (repeat split; assumption).
  assert (Htext : "{" +:+ call_id +:+ "." +:+ row_s +:+ "." +:+ header +:+ "}"
                  = braces (call_id +:+ "." +:+ row_s +:+ "." +:+ header) +:+ "").
  { unfold braces. repeat first [rewrite string_app_assoc | progress cbn]. reflexivity. }
  rewrite Htext. unfold resolveString, match_single.
  rewrite (match_placeholder_complete call_id row_s header "" Hshape).
  rewrite (resolveSinglePlaceholder_group cache call_id row_s header Hshape).
  rewrite Hcache, Hindex, Hvalue, Nat2Z.id, Hrow.
  destruct (Z.eqb_spec (Z.of_nat j) (-1)); [lia |]. cbn. now rewrite Nat2Z.id.
Qed.



Lemma scanned_cells_inv (headers : list string) (rows : list (list any))
    (colIndex : option nat) (k i : nat) (header : string) (c : any) :
  scanned_cells headers rows colIndex !! k = Some (i, header, c) ->
  match colIndex with
  | Some j0 => is_Some (headers !! j0)
  | None => True
  end ->
  exists row j, rows !! i = Some row /\ headers !! j = Some header /\ c = cell row j.
Proof.
  unfold scanned_cells. destruct colIndex as [j0 |].
  - rewrite list_lookup_imap. intros Hk [h Hh].
    destruct (rows !! k) as [row |] eqn:Hrow; [| discriminate].
    cbn in Hk. rewrite Hh in Hk. cbn in Hk. inversion Hk. subst.
    exists row, j0. auto.
  - intros Hk _. apply list_elem_of_lookup_2, list_elem_of_In, in_concat in Hk.
    destruct Hk as (cells & Hcells & Hin).
    apply list_elem_of_In, elem_of_lookup_imap_1 in Hcells as (i' & row & -> & Hrow).
    apply list_elem_of_In, elem_of_lookup_imap_1 in Hin as (j & h & Heq & Hh).
    inversion Heq. subst. exists row, j. auto.
Qed.

(** X14.  The placeholder that [find_reference] returns can be resolved:
    for a table cached under a placeholder name, with pairwise different
    headers that are placeholder names, the resolver turns the returned
    placeholder into the cell of the reported row and column, and the
    reported similarity is the similarity of the keyword to that cell. *)
Theorem found_reference_resolves_to_its_cell
    (jaroWinkler : string -> string -> Q) (dataCache : DataCache)
    (call_id keyword column : string) (id : any)
    (headers : list string) (rows : list (list any)) :
  call_id <> "" ->
  all_chars is_id_char call_id = true ->
  dataCache !! call_id = Some (TableData headers rows) ->
  NoDup headers ->
  Forall (fun header => header <> "" /\ all_chars is_id_char header = true) headers ->
  match handleFindReference jaroWinkler dataCache
          (Some {| find_tool_call_id := JStr call_id; find_keyword := keyword;
                   find_column_name := column |}) id with
  | Result r _ =>
      exists i j row,
        rows !! i = Some row
        /\ headers !! j = Some (column_name (ref_metadata r))
        /\ row_index (ref_metadata r) = Z.of_nat i
        /\ ref_similarity r = cell_similarity jaroWinkler keyword (cell row j)
        /\ resolveArgumentPlaceholders (JStr (ref_placeholder r)) dataCache = cell row j
  | Error _ _ _ _ => True
  end.
Proof.
  intros Hid Hidc Hcache Hnd Hnames.
  assert (Hsearch : forall colIndex,
             match colIndex with
             | Some j0 => is_Some (headers !! j0)
             | None => True
             end ->
             match searchTable jaroWinkler (JStr call_id) keyword headers rows colIndex id with
             | Result r _ =>
                 exists i j row,
                   rows !! i = Some row
                   /\ headers !! j = Some (column_name (ref_metadata r))
                   /\ row_index (ref_metadata r) = Z.of_nat i
                   /\ ref_similarity r = cell_similarity jaroWinkler keyword (cell row j)
                   /\ resolveArgumentPlaceholders (JStr (ref_placeholder r)) dataCache
                      = cell row j
             | Error _ _ _ _ => True
             end).
  { intros colIndex Hcol.
    pose proof (searchTable_answer jaroWinkler call_id keyword headers rows colIndex id)
      as Hanswer.
    destruct (searchTable jaroWinkler (JStr call_id) keyword headers rows colIndex id)
      as [r id' | code message data id']; [| exact I].
    destruct Hanswer as (_ & _ & k & i & header & c & Hk & Hsim & Hph & Hrow & Hcolumn & _).
    destruct (scanned_cells_inv headers rows colIndex k i header c Hk Hcol)
      as (row & j & Hi & Hj & ->).
    exists i, j, row. rewrite Hcolumn, Hsim, Hph.
    split; [exact Hi |]. split; [exact Hj |]. split; [exact Hrow |].
    split; [reflexivity |].
    destruct (proj1 (Forall_lookup _ _) Hnames j header Hj) as [Hh Hhc].
    unfold resolveArgumentPlaceholders. cbn [resolveInObject].
    apply (minted_placeholder_resolves dataCache call_id header i j headers rows row);
      try assumption.
    apply indexOf_NoDup; assumption. }
  unfold handleFindReference. cbn [find_tool_call_id find_keyword find_column_name truthy].
  destruct (negb (negb (call_id =? "")%string) || (keyword =? "")%string); [exact I |].
  cbn [cache_get]. rewrite Hcache.
  destruct (String.eqb column ""); [apply Hsearch; exact I |].
  destruct (Z.eqb_spec (indexOf headers column) (-1)) as [Hnone | Hsome]; [exact I |].
  apply Hsearch.
  destruct (indexOf_found headers column) as [[Habs _] | [_ Hfound]]; [contradiction |].
  eauto.
Qed.

Lemma found_reference_resolves_to_its_cell_witness :
  "t1" <> ""
  /\ all_chars is_id_char "t1" = true
  /\ contacts_cache !! "t1"
     = Some (TableData ["Name"; "Email"]
               [[JStr "Ana Silva"; JStr "a@x"]; [JStr "Bo Park"; JStr "b@y"]])
  /\ NoDup ["Name"; "Email"]
  /\ Forall (fun header => header <> "" /\ all_chars is_id_char header = true)
       ["Name"; "Email"]
  /\ (exists r,
         handleFindReference exact_similarity contacts_cache
           (Some {| find_tool_call_id := JStr "t1"; find_keyword := "bo park";
                    find_column_name := "" |}) (JNum 1)
         = Result r (JNum 1)
         /\ ref_placeholder r = "{t1.1.Name}")
  /\ match handleFindReference exact_similarity contacts_cache
             (Some {| find_tool_call_id := JStr "t1"; find_keyword := "bo park";
                      find_column_name := "" |}) (JNum 1) with
     | Result r _ =>
         exists i j row,
           [[JStr "Ana Silva"; JStr "a@x"]; [JStr "Bo Park"; JStr "b@y"]] !! i = Some row
           /\ ["Name"; "Email"] !! j = Some (column_name (ref_metadata r))
           /\ row_index (ref_metadata r) = Z.of_nat i
           /\ ref_similarity r = cell_similarity exact_similarity "bo park" (cell row j)
           /\ resolveArgumentPlaceholders (JStr (ref_placeholder r)) contacts_cache
              = cell row j
     | Error _ _ _ _ => True
     end.
Proof.
  assert (Hnd : NoDup ["Name"; "Email"]).
  { apply NoDup_ListNoDup. repeat constructor; cbn; intuition discriminate. }
  assert (Hnames : Forall (fun header => header <> "" /\ all_chars is_id_char header = true)
                     ["Name"; "Email"]).
  { repeat constructor; discriminate. }
  split; [discriminate |]. split; [reflexivity |]. split; [reflexivity |].
  split; [exact Hnd |]. split; [exact Hnames |].
  split; [eexists; split; vm_compute; reflexivity |].
  apply (found_reference_resolves_to_its_cell exact_similarity contacts_cache "t1" "bo park"
           "" (JNum 1) ["Name"; "Email"]
           [[JStr "Ana Silva"; JStr "a@x"]; [JStr "Bo Park"; JStr "b@y"]]);
    [discriminate | reflexivity | reflexivity | exact Hnd | exact Hnames].
Defined.

(** X15.  What [find_reference] refuses: a request without a truthy
    [tool_call_id] or without a keyword (-32602); an id under which the
    cache holds no table, a cached text or JSON entry included (-32004, with
    the keys of the cache); a named column that is not a header of the table
    (-32602, with the headers).  A placeholder is returned only for a table
    cached under the id, with at least one row and one header. *)
Theorem find_reference_refusals
    (jaroWinkler : string -> string -> Q) (dataCache : DataCache)
    (params : option FindReferenceParams) (id : any) :
  let response := handleFindReference jaroWinkler dataCache params id in
  let missing : Response ReferenceResult :=
    Error (Some (-32602)%Z) (Some "Missing tool_call_id or keyword parameter")
      NoErrorData id in
  (params = None -> response = missing)
  /\ forall p, params = Some p ->
       (truthy (find_tool_call_id p) = false \/ find_keyword p = "" -> response = missing)
       /\ (truthy (find_tool_call_id p) = true -> find_keyword p <> "" ->
           (forall headers rows,
               cache_get dataCache (find_tool_call_id p) <> Some (TableData headers rows)) ->
           response
           = Error (Some (-32004)%Z)
               (Some "Cached data not found or not in table format for the given tool_call_id")
               (CacheNotFound (find_tool_call_id p) (dom dataCache)) id)
       /\ (forall headers rows,
              truthy (find_tool_call_id p) = true -> find_keyword p <> "" ->
              cache_get dataCache (find_tool_call_id p) = Some (TableData headers rows) ->
              find_column_name p <> "" -> ~ In (find_column_name p) headers ->
              response
              = Error (Some (-32602)%Z)
                  (Some ("Invalid params: column '" +:+ find_column_name p +:+ "' not found"))
                  (InvalidColumn (find_column_name p) headers) id)
       /\ (forall r id', response = Result r id' ->
              id' = id
              /\ exists call_id headers rows,
                   find_tool_call_id p = JStr call_id
                   /\ dataCache !! call_id = Some (TableData headers rows)
                   /\ rows <> [] /\ headers <> []).
Proof.
  cbn zeta. split; [intros ->; reflexivity |].
  intros p ->. unfold handleFindReference.
  destruct (truthy (find_tool_call_id p)) eqn:Htruthy; cbn [negb orb].
  2: { split; [reflexivity |]. split; [discriminate |]. split; [discriminate |].
       discriminate. }
  destruct (String.eqb_spec (find_keyword p) "") as [Hkeyword | Hkeyword].
  { split; [reflexivity |]. split; [contradiction |]. split; [intros; contradiction |].
    discriminate. }
  split; [intros [Habs | Habs]; [discriminate | contradiction] |].
  destruct (cache_get dataCache (find_tool_call_id p)) as [[headers rows | text | json] |]
    eqn:Hcached.
  2-4: (split; [reflexivity |]; split; [discriminate |]; discriminate).
  split; [intros _ _ Hnot; destruct (Hnot headers rows eq_refl) |].
  split.
  - intros headers' rows' _ _ Heq Hcolumn Hnot. inversion Heq. subst headers' rows'.
    destruct (String.eqb_spec (find_column_name p) ""); [contradiction |].
    destruct (Z.eqb_spec (indexOf headers (find_column_name p)) (-1)) as [_ | Hfound];
      [reflexivity |].
    apply indexOf_In in Hfound. contradiction.
  - intros r id' Hresponse.
    destruct (find_tool_call_id p) as [| | | | call_id | |] eqn:Hcall; try discriminate Hcached.
    cbn [cache_get] in Hcached.
    assert (Hsearch : forall colIndex,
               match colIndex with
               | Some j0 => is_Some (headers !! j0)
               | None => True
               end ->
               searchTable jaroWinkler (JStr call_id) (find_keyword p) headers rows colIndex id
               = Result r id' ->
               id' = id /\ rows <> [] /\ headers <> []).
    { intros colIndex Hcol Hresult.
      pose proof (searchTable_answer jaroWinkler call_id (find_keyword p) headers rows
                    colIndex id) as Hanswer.
      assert (Hid : id' = id).
      { unfold searchTable in Hresult. destruct (Qgtb _ _); inversion Hresult. reflexivity. }
      rewrite Hresult in Hanswer.
      destruct Hanswer as (_ & _ & k & i & header & c & Hk & _).
      destruct (scanned_cells_inv headers rows colIndex k i header c Hk Hcol)
        as (row & j & Hi & Hj & _).
      split; [exact Hid |]. split; intros ->; [destruct i | destruct j]; discriminate. }
    assert (Hfinal : id' = id /\ rows <> [] /\ headers <> []).
    { destruct (String.eqb (find_column_name p) ""); [apply (Hsearch None I Hresponse) |].
      destruct (Z.eqb_spec (indexOf headers (find_column_name p)) (-1)) as [_ | Hfound];
        [discriminate Hresponse |].
      apply (Hsearch (Some (Z.to_nat (indexOf headers (find_column_name p)))));
        [| exact Hresponse].
      destruct (indexOf_found headers (find_column_name p)) as [[Habs _] | [_ Hlookup]];
        [contradiction | eauto]. }
    destruct Hfinal as (Hid & Hrows & Hheaders).
    split; [exact Hid |]. exists call_id, headers, rows. auto.
Qed.

(** ** Resolution with counters *)

Lemma counted_nil (cache : DataCache) (c : Placeholders.Counters) : counted cache [] c = c.
Proof. destruct c. unfold counted. cbn. f_equal; lia. Qed.

Lemma counted_app (cache : DataCache) (a b : list string) (c : Placeholders.Counters) :
  counted cache (a ++ b) c = counted cache b (counted cache a c).
Proof.
  unfold counted. cbn. rewrite !List.filter_app, !length_app. f_equal; lia.
Qed.

Lemma counted_one (cache : DataCache) (g : string) (c : Placeholders.Counters) :
  counted cache [g] c
  = if resolves cache g then Placeholders.count_resolved c else Placeholders.count_failed c.
Proof.
  destruct c. unfold counted, Placeholders.count_resolved, Placeholders.count_failed. cbn.
  destruct (resolves cache g); cbn; f_equal; lia.
Qed.

Lemma placeholder_groups_single (s group : string) :
  match_single s = Some group -> placeholder_groups s = [group].
Proof.
  intros H. apply match_single_spec in H as [_ Hscan].
  unfold placeholder_groups. rewrite Hscan. reflexivity.
Qed.

(** The counting replacement builds the text of the plain replacement. *)
Lemma replace_piece_fold (cache : DataCache) (pieces : list piece)
    (text : string) (c : Placeholders.Counters) :
  fold_left (Placeholders.replace_piece cache) pieces (text, c)
  = (text +:+ String.concat ""
                (map (fun p => match p with
                               | Text ch => String ch ""
                               | Match group => resolve_match cache (braces group) group
                               end) pieces),
     counted cache
       (omap (fun p => match p with
                       | Match group => Some group
                       | Text _ => None
                       end) pieces) c).
Proof.
  revert text c. induction pieces as [| p pieces IH]; intros text c.
  - cbn. now rewrite string_app_nil_r, counted_nil.
  - cbn [fold_left map]. rewrite concat_empty_cons, <- string_app_assoc.
    destruct p as [ch | group].
    + cbn [Placeholders.replace_piece fst snd]. rewrite IH. reflexivity.
    + cbn [Placeholders.replace_piece fst snd omap list_omap].
      change (Match group :: pieces) with ([Match group] ++ pieces).
      change (group :: ?l) with ([group] ++ l). 
      rewrite (counted_app cache [group]), counted_one.
      unfold resolve_match, resolves.
      destruct (success (resolveSinglePlaceholder group cache)); rewrite IH; reflexivity.
Qed.

Lemma counting_resolveString (cache : DataCache) (s : string) (c : Placeholders.Counters) :
  Placeholders.resolveString cache s c
  = (resolveString cache s, counted cache (placeholder_groups s) c).
Proof.
  unfold Placeholders.resolveString, resolveString.
  destruct (match_single s) as [group |] eqn:Hsingle.
  - rewrite (placeholder_groups_single s group Hsingle), counted_one. unfold resolves.
    destruct (success (resolveSinglePlaceholder group cache)); reflexivity.
  - rewrite replace_piece_fold. reflexivity.
Qed.

Lemma counting_resolveInObject (cache : DataCache) (obj : any) (c : Placeholders.Counters) :
  Placeholders.resolveInObject cache obj c
  = (resolveInObject cache obj, counted cache (placeholders_of obj) c).
Proof.
  revert c.
  induction obj as [| | b | n | s | items IH | fields IH] using any_nested_ind; intros c;
    try (cbn; now rewrite counted_nil).
  - cbn [Placeholders.resolveInObject resolveInObject placeholders_of].
    apply counting_resolveString.
  - cbn [Placeholders.resolveInObject resolveInObject placeholders_of].
    assert (Hfold : forall done c0,
               fold_left (fun acc item =>
                            let (v, c1) := Placeholders.resolveInObject cache item (snd acc) in
                            (fst acc ++ [v], c1)) items (done, c0)
               = (done ++ map (resolveInObject cache) items,
                  counted cache (flat_map placeholders_of items) c0)).
    { induction IH as [| x items Hx _ IHitems]; intros done c0.
      - cbn. now rewrite app_nil_r, counted_nil.
      - cbn [fold_left fst snd map flat_map]. rewrite Hx, IHitems, counted_app.
        rewrite <- app_assoc. reflexivity. }
    rewrite Hfold. reflexivity.
  - cbn [Placeholders.resolveInObject resolveInObject placeholders_of].
    assert (Hfold : forall done c0,
               fold_left (fun acc kv =>
                            match kv with
                            | (key, x) =>
                                let (v, c1) :=
                                  Placeholders.resolveInObject cache x (snd acc) in
                                (fst acc ++ [(key, v)], c1)
                            end) fields (done, c0)
               = (done ++ map (fun kv => match kv with
                                         | (key, v) => (key, resolveInObject cache v)
                                         end) fields,
                  counted cache
                    (flat_map (fun kv => match kv with
                                         | (_, x) => placeholders_of x
                                         end) fields) c0)).
    { induction IH as [| [key x] fields Hx _ IHfields]; intros done c0.
      - cbn. now rewrite app_nil_r, counted_nil.
      - cbn [fold_left fst snd map flat_map]. cbn [snd] in Hx.
        rewrite Hx, IHfields, counted_app. rewrite <- app_assoc. reflexivity. }
    rewrite Hfold. reflexivity.
Qed.

Lemma countPlaceholders_length (obj : any) :
  Placeholders.countPlaceholders obj = length (placeholders_of obj).
Proof.
  induction obj as [| | b | n | s | items IH | fields IH] using any_nested_ind;
    try reflexivity.
  - cbn [Placeholders.countPlaceholders placeholders_of].
    assert (Hfold : forall n0,
               fold_left (fun n item => (n + Placeholders.countPlaceholders item)%nat) items n0
               = (n0 + length (flat_map placeholders_of items))%nat).
    { induction IH as [| x items Hx _ IHitems]; intros n0; cbn [fold_left flat_map].
      - cbn. lia.
      - rewrite IHitems, Hx, length_app. lia. }
    apply Hfold.
  - cbn [Placeholders.countPlaceholders placeholders_of].
    assert (Hfold : forall n0,
               fold_left (fun n kv => match kv with
                                      | (_, x) => (n + Placeholders.countPlaceholders x)%nat
                                      end) fields n0
               = (n0 + length (flat_map (fun kv => match kv with
                                                   | (_, x) => placeholders_of x
                                                   end) fields))%nat).
    { induction IH as [| [key x] fields Hx _ IHfields]; intros n0; cbn [fold_left flat_map].
      - cbn. lia.
      - cbn [snd] in Hx. rewrite IHfields, Hx, length_app. lia. }
    apply Hfold.
Qed.

Lemma filter_partition_length {A : Type} (f : A -> bool) (l : list A) :
  length l = (length (List.filter f l) + length (List.filter (fun x => negb (f x)) l))%nat.
Proof. induction l as [| x l IH]; cbn; [reflexivity |]. destruct (f x); cbn; lia. Qed.

Lemma tracking_counts_exported (data : any) (cache : DataCache) :
  let status := Placeholders.resolution_status
                  (Placeholders.resolveWithTracking data cache) in
  Placeholders.total_placeholders status = length (placeholders_of data)
  /\ Placeholders.resolved_placeholders status
     = length (List.filter (resolves cache) (placeholders_of data))
  /\ Placeholders.failed_placeholders status
     = length (List.filter (fun g => negb (resolves cache g)) (placeholders_of data)).
Proof.
  cbn zeta. unfold Placeholders.resolveWithTracking.
  rewrite counting_resolveInObject, countPlaceholders_length. cbn. auto.
Qed.

(** X16.  The exported [resolveWithTracking] returns the data that
    [resolveArgumentPlaceholders] returns, and its three counters are
    consistent although they come from two separate walks: the total is the
    number of placeholder occurrences in the strings of the data, the
    resolved ones are those occurrences that resolve against the cache, and
    every occurrence is counted as resolved or as failed, never as both. *)
Theorem tracking_counts_every_placeholder_once (data : any) (cache : DataCache) :
  let tracking := Placeholders.resolveWithTracking data cache in
  let status := Placeholders.resolution_status tracking in
  Placeholders.resolved_data tracking = resolveArgumentPlaceholders data cache
  /\ Placeholders.total_placeholders status = length (placeholders_of data)
  /\ Placeholders.resolved_placeholders status
     = length (List.filter (resolves cache) (placeholders_of data))
  /\ Placeholders.failed_placeholders status
     = length (List.filter (fun g => negb (resolves cache g)) (placeholders_of data))
  /\ Placeholders.total_placeholders status
     = (Placeholders.resolved_placeholders status
        + Placeholders.failed_placeholders status)%nat.
Proof.
  cbn zeta. unfold Placeholders.resolveWithTracking.
  rewrite counting_resolveInObject, countPlaceholders_length. cbn.
  repeat split. apply filter_partition_length.
Qed.

Lemma tracked_nil (cache : DataCache) (t : ResolutionTracking) : tracked cache [] t = t.
Proof. destruct t. unfold tracked. cbn. rewrite app_nil_r. f_equal; lia. Qed.

Lemma tracked_app (cache : DataCache) (a b : list string) (t : ResolutionTracking) :
  tracked cache (a ++ b) t = tracked cache b (tracked cache a t).
Proof.
  unfold tracked. cbn. rewrite !List.filter_app, !length_app, map_app, app_assoc.
  f_equal; lia.
Qed.

Lemma tracked_one (cache : DataCache) (g : string) (t : ResolutionTracking) :
  tracked cache [g] t
  = if resolves cache g then count_resolved t else count_failed (braces g) t.
Proof.
  destruct t. unfold tracked, count_resolved, count_failed. cbn.
  destruct (resolves cache g); cbn; rewrite ?app_nil_r; f_equal; lia.
Qed.

Lemma track_match_fold (cache : DataCache) (pieces : list piece)
    (text : string) (t : ResolutionTracking) :
  snd (fold_left (track_match cache) pieces (text, t))
  = tracked cache
      (omap (fun p => match p with
                      | Match group => Some group
                      | Text _ => None
                      end) pieces) t.
Proof.
  revert text t. induction pieces as [| p pieces IH]; intros text t.
  - cbn. now rewrite tracked_nil.
  - cbn [fold_left]. destruct p as [ch | group].
    + cbn [track_match omap list_omap]. apply IH.
    + cbn [track_match fst snd omap list_omap].
      change (group :: ?l) with ([group] ++ l).
      rewrite (tracked_app cache [group]), tracked_one. unfold resolves.
      destruct (success (resolveSinglePlaceholder group cache)); apply IH.
Qed.

Lemma tracking_trackString (cache : DataCache) (s : string) (t : ResolutionTracking) :
  snd (trackString cache s t) = tracked cache (placeholder_groups s) t.
Proof.
  unfold trackString.
  destruct (match_single s) as [group |] eqn:Hsingle.
  - rewrite (placeholder_groups_single s group Hsingle), tracked_one. unfold resolves.
    apply match_single_spec in Hsingle as [-> _].
    destruct (success (resolveSinglePlaceholder group cache)); reflexivity.
  - pose proof (track_match_fold cache (scan s) s t) as Hfold.
    destruct (fold_left (track_match cache) (scan s) (s, t)) as [text t']. exact Hfold.
Qed.

Lemma falsy_no_placeholders (data : any) : truthy data = false -> placeholders_of data = [].
Proof.
  destruct data as [| | b | n | s | items | fields]; cbn; try reflexivity; try discriminate.
  destruct (String.eqb_spec s ""); [subst; reflexivity | discriminate].
Qed.

(** The endpoint's walk meets the placeholder occurrences of the data. *)
Lemma tracking_resolveWithTracking (cache : DataCache) (data : any) (t : ResolutionTracking) :
  snd (resolveWithTracking cache data t) = tracked cache (placeholders_of data) t.
Proof.
  revert t.
  induction data as [| | b | n | s | items IH | fields IH] using any_nested_ind; intros t;
    try (cbn; now rewrite tracked_nil).
  - destruct b; cbn; now rewrite tracked_nil.
  - cbn. destruct (negb (n =? 0)%Z); cbn; now rewrite tracked_nil.
  - destruct (truthy (JStr s)) eqn:Htruthy.
    + cbn [resolveWithTracking]. rewrite Htruthy. cbn [negb placeholders_of].
      apply tracking_trackString.
    + cbn [resolveWithTracking]. rewrite Htruthy. cbn [negb snd].
      rewrite (falsy_no_placeholders _ Htruthy). now rewrite tracked_nil.
  - cbn [resolveWithTracking truthy negb placeholders_of].
    assert (Hfold : forall done t0,
               snd (fold_left (fun acc item =>
                                 let (v, t1) := resolveWithTracking cache item (snd acc) in
                                 (fst acc ++ [v], t1)) items (done, t0))
               = tracked cache (flat_map placeholders_of items) t0).
    { induction IH as [| x items Hx _ IHitems]; intros done t0.
      - cbn. now rewrite tracked_nil.
      - cbn [fold_left fst snd flat_map]. specialize (Hx t0).
        destruct (resolveWithTracking cache x t0) as [v t1]. cbn [snd] in Hx. subst t1.
        rewrite IHitems, tracked_app. reflexivity. }
    specialize (Hfold [] t).
    destruct (fold_left _ items ([], t)) as [items' t']. exact Hfold.
  - cbn [resolveWithTracking truthy negb placeholders_of].
    assert (Hfold : forall done t0,
               snd (fold_left (fun acc kv =>
                                 match kv with
                                 | (key, x) =>
                                     let (v, t1) := resolveWithTracking cache x (snd acc) in
                                     (fst acc ++ [(key, v)], t1)
                                 end) fields (done, t0))
               = tracked cache
                   (flat_map (fun kv => match kv with
                                        | (_, x) => placeholders_of x
                                        end) fields) t0).
    { induction IH as [| [key x] fields Hx _ IHfields]; intros done t0.
      - cbn. now rewrite tracked_nil.
      - cbn [fold_left fst snd flat_map]. cbn [snd] in Hx. specialize (Hx t0).
        destruct (resolveWithTracking cache x t0) as [v t1]. cbn [snd] in Hx. subst t1.
        rewrite IHfields, tracked_app. reflexivity. }
    specialize (Hfold [] t).
    destruct (fold_left _ fields ([], t)) as [fields' t']. exact Hfold.
Qed.

(** X17.  The [resolution_status] of [mcpp/resolve_placeholders]: the
    total is the number of placeholder occurrences in the strings of
    [data], the resolved ones are the occurrences that resolve against the
    cache, the failed list holds the text of each occurrence that does not
    (in some order), so [total = resolved + failed]; and the counters agree
    with those of the exported [resolveWithTracking]. *)
Theorem resolve_placeholders_status
    (now : Z) (random36 : string) (dataCache : DataCache)
    (params : option ResolveParams) (id : any)
    (tool : option Tool) (serverConfig : option McppServerConfig) :
  let data := default JUndefined (resolve_data <$> params) in
  match handleResolvePlaceholders now random36 dataCache params id tool serverConfig with
  | Result r _ =>
      let status := resolution_status r in
      let exported := Placeholders.resolution_status
                        (Placeholders.resolveWithTracking data dataCache) in
      total_placeholders status = length (placeholders_of data)
      /\ resolved_placeholders status
         = length (List.filter (resolves dataCache) (placeholders_of data))
      /\ failed_placeholders status
         ≡ₚ map braces (List.filter (fun g => negb (resolves dataCache g))
                          (placeholders_of data))
      /\ total_placeholders status
         = (resolved_placeholders status + length (failed_placeholders status))%nat
      /\ total_placeholders status = Placeholders.total_placeholders exported
      /\ resolved_placeholders status = Placeholders.resolved_placeholders exported
      /\ length (failed_placeholders status) = Placeholders.failed_placeholders exported
  | Error _ _ _ _ => True
  end.
Proof.
  cbn zeta. unfold handleResolvePlaceholders.
  set (data := default JUndefined (resolve_data <$> params)).
  destruct (negb (truthy data)); [exact I |].
  assert (Hresolve :
            match (let (resolvedData, resolutionTracking) :=
                     resolveWithTracking dataCache data no_tracking in
                   @Result ResolveResult
                     {| resolved_data := resolvedData;
                        resolution_status := resolutionTracking |} id) with
            | Result r _ =>
                let status := resolution_status r in
                let exported := Placeholders.resolution_status
                                  (Placeholders.resolveWithTracking data dataCache) in
                total_placeholders status = length (placeholders_of data)
                /\ resolved_placeholders status
                   = length (List.filter (resolves dataCache) (placeholders_of data))
                /\ failed_placeholders status
                   ≡ₚ map braces (List.filter (fun g => negb (resolves dataCache g))
                                    (placeholders_of data))
                /\ total_placeholders status
                   = (resolved_placeholders status + length (failed_placeholders status))%nat
                /\ total_placeholders status = Placeholders.total_placeholders exported
                /\ resolved_placeholders status = Placeholders.resolved_placeholders exported
                /\ length (failed_placeholders status)
                   = Placeholders.failed_placeholders exported
            | Error _ _ _ _ => True
            end).
  { pose proof (tracking_resolveWithTracking dataCache data no_tracking) as Htracked.
    destruct (resolveWithTracking dataCache data no_tracking) as [resolvedData t].
    cbn [snd] in Htracked. subst t. cbn zeta.
    destruct (tracking_counts_exported data dataCache) as (Htotal & Hresolved & Hfailed).
    rewrite Htotal, Hresolved, Hfailed.
    cbn [resolution_status tracked total_placeholders resolved_placeholders
           failed_placeholders no_tracking app]. rewrite length_map.
    repeat split; try reflexivity. apply filter_partition_length. }
  destruct (params ≫= resolve_usage_context) as [usage_context |];
    [destruct serverConfig as [config |] |]; try exact Hresolve.
  destruct (negb (allowed (validateDataAccess now random36 tool usage_context config data)));
    [exact I | exact Hresolve].
Qed.

Lemma placeholder_groups_In (s group : string) :
  In (Match group) (scan s) <-> In group (placeholder_groups s).
Proof.
  unfold placeholder_groups. induction (scan s) as [| p pieces IH]; [reflexivity |].
  destruct p as [c | g]; cbn.
  - rewrite <- IH. split; [intros [H | H]; [discriminate | exact H] | auto].
  - rewrite <- IH. split; (intros [H | H]; [left; congruence | auto]).
Qed.

Lemma assigned_proto_free (fields : list (string * any)) :
  forallb (fun kv => negb (String.eqb (fst kv) "__proto__")) fields = true ->
  assigned fields = fields.
Proof.
  unfold assigned. induction fields as [| kv fields IH]; cbn; [reflexivity |].
  intros H. apply andb_true_iff in H as [Hkv Hrest]. rewrite Hkv, (IH Hrest). reflexivity.
Qed.

(** The endpoint's loop leaves a string none of whose placeholders resolves
    as it is. *)
Lemma track_match_unresolved (cache : DataCache) (pieces : list piece)
    (text : string) (t : ResolutionTracking) :
  (forall group, In (Match group) pieces -> resolves cache group = false) ->
  fst (fold_left (track_match cache) pieces (text, t)) = text.
Proof.
  revert t. induction pieces as [| p pieces IH]; intros t Hfail; [reflexivity |].
  cbn [fold_left]. destruct p as [c | group].
  - cbn [track_match]. apply IH. intros g Hg. apply Hfail. now right.
  - cbn [track_match fst snd]. unfold resolves in Hfail.
    rewrite (Hfail group (or_introl eq_refl)).
    apply IH. intros g Hg. apply Hfail. now right.
Qed.

(** X18.  Where no placeholder of the data resolves against the cache, as
    with an empty cache or with data that holds no placeholder, both
    resolvers return the data as they received it, provided no object in it
    has an own property [__proto__]; the endpoint's resolver then reports
    every placeholder as failed. *)
Theorem unresolved_data_is_returned_unchanged
    (cache : DataCache) (data : any) (tracking : ResolutionTracking) :
  (forall group, In group (placeholders_of data) -> resolves cache group = false) ->
  proto_free data = true ->
  resolveArgumentPlaceholders data cache = data
  /\ fst (resolveWithTracking cache data tracking) = data
  /\ resolved_placeholders (snd (resolveWithTracking cache data tracking))
     = resolved_placeholders tracking.
Proof.
  intros Hfail Hproto. split; [| split].
  - unfold resolveArgumentPlaceholders.
    induction data as [| | b | n | s | items IH | fields IH] using any_nested_ind;
      try reflexivity.
    + cbn [resolveInObject]. apply resolveString_unresolved.
      intros group Hin. apply (Hfail group). cbn [placeholders_of].
      now apply placeholder_groups_In.
    + cbn [resolveInObject]. f_equal. cbn [placeholders_of proto_free] in Hfail, Hproto.
      rewrite forallb_forall in Hproto. rewrite List.Forall_forall in IH.
      rewrite <- (map_id items) at 2. apply map_ext_in. intros x Hx.
      apply (IH x Hx); [| exact (Hproto x Hx)].
      intros group Hgroup. apply Hfail. apply in_flat_map. eauto.
    + cbn [resolveInObject]. f_equal. cbn [placeholders_of proto_free] in Hfail, Hproto.
      rewrite forallb_forall in Hproto. rewrite List.Forall_forall in IH.
      assert (Hmap : map (fun kv => match kv with
                                    | (key, v) => (key, resolveInObject cache v)
                                    end) fields = fields).
      { rewrite <- (map_id fields) at 2. apply map_ext_in. intros [key x] Hx.
        f_equal. specialize (Hproto _ Hx). cbn in Hproto.
        apply andb_true_iff in Hproto as [_ Hx'].
        apply (IH _ Hx); [| exact Hx'].
        intros group Hgroup. apply Hfail. apply in_flat_map. exists (key, x). auto. }
      rewrite Hmap. apply assigned_proto_free. apply forallb_forall.
      intros [key x] Hx. specialize (Hproto _ Hx). cbn in Hproto.
      apply andb_true_iff in Hproto as [Hkey _]. exact Hkey.
  - revert tracking.
    induction data as [| | b | n | s | items IH | fields IH] using any_nested_ind;
      intros tracking; try reflexivity.
    + destruct b; reflexivity.
    + cbn. destruct (negb (n =? 0)%Z); reflexivity.
    + cbn [resolveWithTracking]. destruct (negb (truthy (JStr s))); [reflexivity |].
      unfold trackString.
      destruct (match_single s) as [group |] eqn:Hsingle.
      * assert (Hgroup : resolves cache group = false).
        { apply Hfail. cbn [placeholders_of]. apply placeholder_groups_In.
          apply match_single_spec in Hsingle as [_ Hscan]. rewrite Hscan. now left. }
        unfold resolves in Hgroup. rewrite Hgroup. reflexivity.
      * pose proof (track_match_unresolved cache (scan s) s tracking) as Hfold.
        destruct (fold_left (track_match cache) (scan s) (s, tracking)) as [text t'].
        cbn [fst] in *. rewrite Hfold; [reflexivity |].
        intros group Hin. apply Hfail. cbn [placeholders_of].
        now apply placeholder_groups_In.
    + cbn [resolveWithTracking truthy negb]. cbn [placeholders_of proto_free] in Hfail, Hproto.
      assert (Hfold : forall done t0,
                 fst (fold_left (fun acc item =>
                                   let (v, t1) := resolveWithTracking cache item (snd acc) in
                                   (fst acc ++ [v], t1)) items (done, t0))
                 = done ++ items).
      { induction IH as [| x items Hx _ IHitems]; intros done t0.
        - cbn. now rewrite app_nil_r.
        - cbn [fold_left fst snd]. cbn [flat_map forallb] in Hfail, Hproto.
          apply andb_true_iff in Hproto as [Hpx Hprest].
          assert (Hxv : fst (resolveWithTracking cache x t0) = x).
          { apply Hx; [| exact Hpx]. intros g Hg. apply Hfail. apply in_or_app. now left. }
          destruct (resolveWithTracking cache x t0) as [v t1]. cbn [fst] in Hxv. subst v.
          rewrite IHitems; [now rewrite <- app_assoc | | exact Hprest].
          intros g Hg. apply Hfail. apply in_or_app. now right. }
      specialize (Hfold [] tracking).
      destruct (fold_left _ items ([], tracking)) as [items' t']. cbn [fst] in *.
      now rewrite Hfold.
    + cbn [resolveWithTracking truthy negb]. cbn [placeholders_of proto_free] in Hfail, Hproto.
      assert (Hfold : forall done t0,
                 fst (fold_left (fun acc kv =>
                                   match kv with
                                   | (key, x) =>
                                       let (v, t1) := resolveWithTracking cache x (snd acc) in
                                       (fst acc ++ [(key, v)], t1)
                                   end) fields (done, t0))
                 = done ++ fields).
      { induction IH as [| [key x] fields Hx _ IHfields]; intros done t0.
        - cbn. now rewrite app_nil_r.
        - cbn [fold_left fst snd]. cbn [flat_map forallb snd] in Hfail, Hproto, Hx.
          apply andb_true_iff in Hproto as [Hpx Hprest].
          apply andb_true_iff in Hpx as [_ Hpx].
          assert (Hxv : fst (resolveWithTracking cache x t0) = x).
          { apply Hx; [| exact Hpx]. intros g Hg. apply Hfail. apply in_or_app. now left. }
          destruct (resolveWithTracking cache x t0) as [v t1]. cbn [fst] in Hxv. subst v.
          rewrite IHfields; [now rewrite <- app_assoc | | exact Hprest].
          intros g Hg. apply Hfail. apply in_or_app. now right. }
      specialize (Hfold [] tracking).
      destruct (fold_left _ fields ([], tracking)) as [fields' t']. cbn [fst] in *.
      rewrite Hfold. cbn [app]. f_equal. apply assigned_proto_free.
      apply forallb_forall. intros [key x] Hx. rewrite forallb_forall in Hproto.
      specialize (Hproto _ Hx). cbn in Hproto.
      apply andb_true_iff in Hproto as [Hkey _]. exact Hkey.
  - rewrite tracking_resolveWithTracking. cbn [tracked resolved_placeholders].
    assert (Hnone : List.filter (resolves cache) (placeholders_of data) = []).
    { induction (placeholders_of data) as [| g gs IHg]; [reflexivity |]. cbn.
      rewrite (Hfail g (or_introl eq_refl)). apply IHg.
      intros g' Hg'. apply Hfail. now right. }
    rewrite Hnone. cbn. lia.
Qed.

Lemma unresolved_data_is_returned_unchanged_witness :
  (forall group, In group (placeholders_of mixed_placeholders) -> resolves ∅ group = false)
  /\ proto_free mixed_placeholders = true
  /\ resolveArgumentPlaceholders mixed_placeholders ∅ = mixed_placeholders.
Proof.
  assert (Hnone : forall group,
             In group (placeholders_of mixed_placeholders) -> resolves ∅ group = false).
  { intros group Hin. vm_compute in Hin.
    destruct Hin as [<- | [<- | [<- | []]]]; reflexivity. }
  split; [exact Hnone |]. split; [reflexivity |].
  exact (proj1 (unresolved_data_is_returned_unchanged ∅ mixed_placeholders no_tracking
                  Hnone eq_refl)).
Defined.

(** ** Keys of the consent cache *)

Lemma colon_separates (a a' r r' : string) :
  no_colon a = true -> no_colon a' = true ->
  a +:+ String ":" r = a' +:+ String ":" r' -> a = a' /\ r = r'.
Proof.
  unfold no_colon. revert a'. induction a as [| x a IH]; intros [| x' a'] Ha Ha' Heq;
    cbn in *.
  - inversion Heq. auto.
  - inversion Heq. subst x'. discriminate Ha'.
  - inversion Heq. subst x. discriminate Ha.
  - apply andb_true_iff in Ha as [_ Ha]. apply andb_true_iff in Ha' as [_ Ha'].
    inversion Heq. subst x'. destruct (IH a' Ha Ha' H1) as [-> ->]. auto.
Qed.

Lemma colon_free_end (a a' r' : string) :
  no_colon a = true -> a = a' +:+ String ":" r' -> False.
Proof.
  unfold no_colon. intros Ha ->. rewrite all_chars_app in Ha.
  apply andb_true_iff in Ha as [_ Ha]. discriminate Ha.
Qed.

(** X19.  [generateCacheKey] gives different keys to different requests
    when no part holds a colon: equal keys mean the same host, the same
    destination, the same data usage and the same tool name, an empty tool
    name counting as none. *)
Theorem cache_keys_are_injective
    (host destination dataUsage host' destination' dataUsage' : string)
    (toolName toolName' : option string) :
  Forall (fun part => no_colon part = true)
    [host; destination; dataUsage; host'; destination'; dataUsage'] ->
  default true (no_colon <$> toolName) = true ->
  default true (no_colon <$> toolName') = true ->
  generateCacheKey host destination dataUsage toolName
  = generateCacheKey host' destination' dataUsage' toolName' ->
  host = host' /\ destination = destination' /\ dataUsage = dataUsage'
  /\ key_tool toolName = key_tool toolName'.
Proof.
  intros Hparts Htool Htool' Hkey.
  apply Forall_cons_1 in Hparts as [Hh Hparts]. apply Forall_cons_1 in Hparts as [Hd Hparts].
  apply Forall_cons_1 in Hparts as [Hu Hparts]. apply Forall_cons_1 in Hparts as [Hh' Hparts].
  apply Forall_cons_1 in Hparts as [Hd' Hparts]. apply Forall_cons_1 in Hparts as [Hu' _].
  assert (Hshape : forall h d u t,
             generateCacheKey h d u t
             = h +:+ String ":" (String ":" (d +:+ String ":" (String ":"
                 (match key_tool t with
                  | Some name => u +:+ String ":" (String ":" name)
                  | None => u
                  end))))).
  { intros h d u [[| ch r] |]; reflexivity. }
  rewrite !Hshape in Hkey.
  apply colon_separates in Hkey as [-> Hkey]; [| assumption ..].
  inversion Hkey as [Hkey1]. clear Hkey.
  apply colon_separates in Hkey1 as [-> Hkey]; [| assumption ..].
  inversion Hkey as [Hkey2]. clear Hkey.
  split; [reflexivity |]. split; [reflexivity |].
  assert (Hname : forall t, default true (no_colon <$> t) = true ->
                            forall name, key_tool t = Some name -> no_colon name = true).
  { intros [[| ch r] |] Ht name Hn; inversion Hn. subst. exact Ht. }
  destruct (key_tool toolName) as [name |] eqn:Hn;
    destruct (key_tool toolName') as [name' |] eqn:Hn'.
  - apply colon_separates in Hkey2 as [-> Hkey]; [| assumption ..].
    inversion Hkey. auto.
  - exfalso. symmetry in Hkey2. exact (colon_free_end _ _ _ Hu' Hkey2).
  - exfalso. exact (colon_free_end _ _ _ Hu Hkey2).
  - auto.
Qed.

Lemma cache_keys_are_injective_witness :
  Forall (fun part => no_colon part = true)
    ["host"; "partner_crm"; "transfer"; "host"; "partner_crm"; "transfer"]
  /\ generateCacheKey "host" "partner_crm" "transfer" (Some "")
     = generateCacheKey "host" "partner_crm" "transfer" None
  /\ key_tool (Some "") = key_tool None.
Proof.
  assert (Hparts : Forall (fun part => no_colon part = true)
                     ["host"; "partner_crm"; "transfer"; "host"; "partner_crm"; "transfer"])
    by (repeat constructor).
  split; [exact Hparts |]. split; [reflexivity |].
  exact (proj2 (proj2 (proj2 (cache_keys_are_injective "host" "partner_crm" "transfer"
                                "host" "partner_crm" "transfer" (Some "") None
                                Hparts eq_refl eq_refl eq_refl)))).
Defined.

(** ** The policy applied by the endpoint *)

Lemma display_to_client_free
    (tool : option Tool) (usageContext : McppUsageContext) (serverConfig : McppServerConfig) :
  data_usage usageContext = Display ->
  type (target usageContext) = Client ->
  consent_required (checkConsentRequired tool usageContext serverConfig) = false.
Proof.
  intros Hu Ht. unfold checkConsentRequired. rewrite Hu, Ht. reflexivity.
Qed.

(** X20.  The endpoint evaluates the policy of the tool that the request
    names, not of the tool that produced the cached data.  A request that
    names no tool of the server is judged by the global policy alone: with
    the default configuration, [get_data] for a display to a client returns
    any cached entry with status 200, and [resolve_placeholders] resolves
    any data, whatever the policy of the tool that cached the entry. *)
Theorem unnamed_tool_is_judged_by_global_policy
    (jaroWinkler : string -> string -> Q) (ZOHO_TOOLS : list Tool)
    (now : Z) (random36 : string) (dataCache : DataCache) (consentCache : ConsentCache)
    (key : string) (entry : CachedData) (data : any)
    (usage_context : McppUsageContext) (tool_name id : any) :
  find_tool ZOHO_TOOLS tool_name = None ->
  data_usage usage_context = Display ->
  type (target usage_context) = Client ->
  (key <> "" -> dataCache !! key = Some entry ->
   post_mcpp jaroWinkler ZOHO_TOOLS now random36 dataCache consentCache
     {| body_call := GetData (Some {| get_tool_call_id := JStr key;
                                      get_usage_context := Some usage_context |});
        body_tool_name := tool_name; body_id := id |}
   = (200%nat, GetDataResponse (Result entry (or_else id JNull)), consentCache))
  /\ (truthy data = true ->
      post_mcpp jaroWinkler ZOHO_TOOLS now random36 dataCache consentCache
        {| body_call := ResolvePlaceholders
                          (Some {| resolve_data := data;
                                   resolve_usage_context := Some usage_context |});
           body_tool_name := tool_name; body_id := id |}
      = (200%nat,
         ResolvePlaceholdersResponse
           (Result {| resolved_data := fst (resolveWithTracking dataCache data no_tracking);
                      resolution_status :=
                        snd (resolveWithTracking dataCache data no_tracking) |} id),
         consentCache)).
Proof.
  intros Htool Husage Htype.
  assert (Hallowed : forall placeholderData,
             allowed (validateDataAccess now random36 None usage_context defaultMcppConfig
                        placeholderData) = true).
  { intros placeholderData. unfold validateDataAccess.
    rewrite (display_to_client_free None usage_context defaultMcppConfig Husage Htype).
    unfold getEffectiveDataUsagePermission, validateTargetPermissions. rewrite Husage, Htype.
    reflexivity. }
  split.
  - intros Hkey Hcached. unfold post_mcpp, usage_tool_name.
    cbn [body_call body_tool_name body_id mbind option_bind get_usage_context].
    rewrite Htool. unfold handleGetData.
    cbn [fmap option_fmap option_map default get_tool_call_id Datatypes.id truthy cache_get
           mbind option_bind get_usage_context].
    destruct (String.eqb_spec key ""); [contradiction |]. cbn [negb].
    rewrite Hcached, Hallowed. reflexivity.
  - intros Hdata. unfold post_mcpp, usage_tool_name.
    cbn [body_call body_tool_name body_id mbind option_bind resolve_usage_context].
    rewrite Htool. unfold handleResolvePlaceholders.
    cbn [fmap option_fmap option_map default resolve_data Datatypes.id
           mbind option_bind resolve_usage_context].
    rewrite Hdata, Hallowed. cbn [negb]. fold no_tracking.
    destruct (resolveWithTracking dataCache data no_tracking). reflexivity.
Qed.

Lemma unnamed_tool_is_judged_by_global_policy_witness :
  find_tool [sealed_tool] JUndefined = None
  /\ data_usage (usage Display Client "dashboard") = Display
  /\ type (target (usage Display Client "dashboard")) = Client
  /\ payroll_cache !! "p1" = Some (TableData ["Name"; "Salary"] [[JStr "Ana"; JNum 9000]])
  /\ getEffectiveDataUsagePermission (Some sealed_tool) Display defaultMcppConfig = Deny
  /\ post_mcpp exact_similarity [sealed_tool] 0 "0.abcdefghijk" payroll_cache one_pending
       (display_request "p1" JUndefined)
     = (200%nat,
        GetDataResponse (Result (TableData ["Name"; "Salary"] [[JStr "Ana"; JNum 9000]])
                           (JNum 1)),
        one_pending).
Proof.
  split; [reflexivity |]. split; [reflexivity |]. split; [reflexivity |].
  split; [reflexivity |]. split; [reflexivity |].
  refine (proj1 (unnamed_tool_is_judged_by_global_policy exact_similarity [sealed_tool]
                   0 "0.abcdefghijk" payroll_cache one_pending "p1"
                   (TableData ["Name"; "Salary"] [[JStr "Ana"; JNum 9000]]) JNull
                   (usage Display Client "dashboard") JUndefined (JNum 1)
                   eq_refl eq_refl eq_refl) _ eq_refl).
  discriminate.
Defined.

(** ** The two resolvers on literal tables *)

Lemma passes_nil (pattern : string) : passes pattern "".
Proof. intros x. cbn. now destruct (String.index 0 pattern x). Qed.

Lemma passes_app (pattern a b : string) :
  passes pattern a -> passes pattern b -> passes pattern (a +:+ b).
Proof.
  intros Ha Hb x. rewrite string_app_assoc, Ha, Hb, string_app_length.
  destruct (String.index 0 pattern x); cbn; [f_equal; lia | reflexivity].
Qed.

Lemma index_next (pattern : string) (c : ascii) (x : string) :
  String.prefix pattern (String c x) = false ->
  String.index 0 pattern (String c x) = S <$> String.index 0 pattern x.
Proof.
  intros Hp. cbn [String.index]. rewrite Hp.
  now destruct (String.index 0 pattern x).
Qed.

Lemma prefix_cons (a b : ascii) (s1 s2 : string) :
  String.prefix (String a s1) (String b s2)
  = if ascii_dec a b then String.prefix s1 s2 else false.
Proof. reflexivity. Qed.

Lemma passes_char (group : string) (c : ascii) :
  not_char "{" c = true -> passes (braces group) (String c "").
Proof.
  intros Hc x. change (String c "" +:+ x) with (String c x).
  rewrite index_next; [now destruct (String.index 0 (braces group) x) |].
  change (braces group) with (String "{" (group +:+ "}")). rewrite prefix_cons.
  destruct (ascii_dec "{" c) as [<- | _]; [discriminate | reflexivity].
Qed.

Lemma passes_no_brace (group v : string) :
  no_open_brace v = true -> passes (braces group) v.
Proof.
  unfold no_open_brace. induction v as [| c v IH]; intros Hv; [apply passes_nil |].
  cbn in Hv. apply andb_true_iff in Hv as [Hc Hv].
  change (String c v) with (String c "" +:+ v).
  apply passes_app; [apply passes_char; exact Hc | exact (IH Hv)].
Qed.

Lemma prefix_other_group (g g' x : string) :
  g <> g' ->
  all_chars (not_char "}") g = true -> all_chars (not_char "}") g' = true ->
  String.prefix (g +:+ "}") (g' +:+ String "}" x) = false.
Proof.
  revert g'. induction g as [| c g IH]; intros [| c' g'] Hne Hg Hg';
    cbn [all_chars] in Hg, Hg'.
  - contradiction.
  - apply andb_true_iff in Hg' as [Hc' _].
    change (String.prefix (String "}" "") (String c' (g' +:+ String "}" x)) = false).
    rewrite prefix_cons.
    destruct (ascii_dec "}" c') as [<- | _]; [discriminate | reflexivity].
  - apply andb_true_iff in Hg as [Hc _].
    change (String.prefix (String c (g +:+ "}")) (String "}" x) = false).
    rewrite prefix_cons.
    destruct (ascii_dec c "}") as [-> | _]; [discriminate | reflexivity].
  - apply andb_true_iff in Hg as [_ Hg]. apply andb_true_iff in Hg' as [_ Hg'].
    change (String.prefix (String c (g +:+ "}")) (String c' (g' +:+ String "}" x)) = false).
    rewrite prefix_cons.
    destruct (ascii_dec c c') as [<- | _]; [| reflexivity].
    apply IH; [congruence | assumption | assumption].
Qed.

Lemma id_char_no_brace (c : ascii) :
  is_id_char c = true -> not_char "{" c && not_char "}" c = true.
Proof.
  intros H. unfold not_char.
  destruct (Ascii.eqb_spec c "{"); [subst; discriminate |].
  destruct (Ascii.eqb_spec c "}"); [subst; discriminate | reflexivity].
Qed.

Lemma digit_no_brace (c : ascii) :
  is_digit c = true -> not_char "{" c && not_char "}" c = true.
Proof.
  intros H. unfold not_char.
  destruct (Ascii.eqb_spec c "{"); [subst; discriminate |].
  destruct (Ascii.eqb_spec c "}"); [subst; discriminate | reflexivity].
Qed.

(** A captured group holds no brace. *)
Lemma group_no_brace (group : string) :
  (exists call_id row col,
      group = call_id +:+ "." +:+ row +:+ "." +:+ col /\ group_shape call_id row col) ->
  all_chars (fun c => not_char "{" c && not_char "}" c) group = true.
Proof.
  intros (call_id & row & col & -> & (_ & Hid & _ & Hrow & _ & Hcol)).
  rewrite !all_chars_app.
  rewrite (all_chars_impl _ _ call_id id_char_no_brace Hid).
  rewrite (all_chars_impl _ _ row digit_no_brace Hrow).
  rewrite (all_chars_impl _ _ col id_char_no_brace Hcol).
  reflexivity.
Qed.

Lemma passes_other_group (g g' : string) :
  g <> g' ->
  all_chars (fun c => not_char "{" c && not_char "}" c) g = true ->
  all_chars (fun c => not_char "{" c && not_char "}" c) g' = true ->
  passes (braces g) (braces g').
Proof.
  intros Hne Hg Hg' x.
  assert (Hclose : forall s, all_chars (fun c => not_char "{" c && not_char "}" c) s = true ->
                             all_chars (not_char "}") s = true).
  { intros s. apply all_chars_impl. intros c Hc. now apply andb_true_iff in Hc as [_ Hc]. }
  assert (Hopen : no_open_brace (g' +:+ "}") = true).
  { unfold no_open_brace. rewrite all_chars_app.
    rewrite (all_chars_impl _ (not_char "{") g'
               (fun c Hc => proj1 (proj1 (andb_true_iff _ _) Hc)) Hg').
    reflexivity. }
  change (braces g' +:+ x) with (String "{" ((g' +:+ "}") +:+ x)).
  rewrite index_next.
  - rewrite (passes_no_brace g (g' +:+ "}") Hopen x).
    change (String.length (braces g')) with (S (String.length (g' +:+ "}"))).
    now destruct (String.index 0 (braces g) x).
  - change (braces g) with (String "{" (g +:+ "}")). rewrite prefix_cons.
    destruct (ascii_dec "{" "{") as [_ | Habs]; [| contradiction].
    rewrite string_app_assoc. apply prefix_other_group; auto.
Qed.

Lemma prefix_self (a x : string) : String.prefix a (a +:+ x) = true.
Proof.
  induction a as [| c a IH]; [now destruct x |].
  change (String c a +:+ x) with (String c (a +:+ x)). rewrite prefix_cons.
  destruct (ascii_dec c c); [exact IH | contradiction].
Qed.

Lemma index_here (group x : string) : String.index 0 (braces group) (braces group +:+ x) = Some 0%nat.
Proof.
  pose proof (prefix_self (braces group) x) as Hp.
  change (braces group +:+ x) with (String "{" ((group +:+ "}") +:+ x)) in *.
  cbn [String.index]. now rewrite Hp.
Qed.

Lemma substring_prefix (a b : string) : String.substring 0 (String.length a) (a +:+ b) = a.
Proof.
  induction a as [| c a IH]; cbn; [now destruct b | now rewrite IH].
Qed.

Lemma substring_from_app (a b : string) : substring_from (String.length a) (a +:+ b) = b.
Proof.
  unfold substring_from. rewrite string_app_length.
  replace (String.length a + String.length b - String.length a)%nat
    with (String.length b) by lia.
  rewrite substring_skip. apply substring_whole.
Qed.

Lemma expand_replacement_literal (v matched before after : string) :
  all_chars (not_char "$") v = true -> expand_replacement v matched before after = v.
Proof.
  induction v as [| c v IH]; intros Hv; [reflexivity |].
  cbn [all_chars] in Hv. apply andb_true_iff in Hv as [Hc Hv]. specialize (IH Hv).
  unfold not_char in Hc. apply negb_true_iff in Hc.
  destruct c as [[] [] [] [] [] [] [] []]; try discriminate Hc;
    cbn [expand_replacement]; now rewrite IH.
Qed.

(** Replacing a pattern that first occurs behind [a] by a literal text. *)
Lemma replace_string_at (a group b v : string) :
  passes (braces group) a ->
  all_chars (not_char "$") v = true ->
  replace_string (a +:+ braces group +:+ b) (braces group) v = a +:+ v +:+ b.
Proof.
  intros Hpass Hv. unfold replace_string.
  rewrite (Hpass (braces group +:+ b)), index_here. cbn [fmap option_fmap option_map].
  rewrite Nat.add_0_r, substring_prefix, (expand_replacement_literal _ _ _ _ Hv).
  rewrite <- (string_app_length a (braces group)).
  rewrite <- (string_app_assoc a (braces group) b), substring_from_app.
  reflexivity.
Qed.

Lemma literal_text_parts (v : string) :
  literal_text v = true -> no_open_brace v = true /\ all_chars (not_char "$") v = true.
Proof.
  unfold literal_text, no_open_brace. intros Hv. split.
  - revert Hv. apply all_chars_impl. intros c Hc. now apply andb_true_iff in Hc as [Hc _].
  - revert Hv. apply all_chars_impl. intros c Hc. now apply andb_true_iff in Hc as [_ Hc].
Qed.

(** With literal cells, the text of a resolved placeholder is literal. *)
Lemma resolved_text_literal (cache : DataCache) (group : string) :
  literal_cells cache ->
  (exists call_id row col,
      group = call_id +:+ "." +:+ row +:+ "." +:+ col /\ group_shape call_id row col) ->
  success (resolveSinglePlaceholder group cache) = true ->
  literal_text (toString (value (resolveSinglePlaceholder group cache))) = true.
Proof.
  intros Hliteral (call_id & row & col & -> & Hshape) Hsuccess.
  destruct (resolveSinglePlaceholder_success cache call_id row col Hshape) as [_ Hcell].
  destruct (Hcell Hsuccess) as (headers & rows & r & j & Hcache & Hr & _ & ->).
  unfold cell. destruct (r !! j) as [v |] eqn:Hv; [| reflexivity]. cbn.
  apply (Hliteral call_id headers rows r v Hcache).
  - apply list_elem_of_In. eapply list_elem_of_lookup_2. exact Hr.
  - apply list_elem_of_In. eapply list_elem_of_lookup_2. exact Hv.
Qed.

(** The endpoint's loop builds the text of the global replacement. *)
Lemma track_match_agrees (cache : DataCache) (pieces : list piece)
    (done : string) (t : ResolutionTracking) :
  literal_cells cache ->
  (forall p, In p pieces ->
             match p with
             | Text c => not_char "{" c = true
             | Match g =>
                 exists call_id row col,
                   g = call_id +:+ "." +:+ row +:+ "." +:+ col /\ group_shape call_id row col
             end) ->
  (forall g, resolves cache g = true ->
             all_chars (fun c => not_char "{" c && not_char "}" c) g = true ->
             passes (braces g) done) ->
  fst (fold_left (track_match cache) pieces
         (done +:+ String.concat "" (map piece_text pieces), t))
  = done +:+ String.concat "" (map (resolved_piece cache) pieces).
Proof.
  intros Hliteral. revert done t.
  induction pieces as [| p pieces IH]; intros done t Hpieces Hdone; [reflexivity |].
  assert (Hrest : forall q, In q pieces ->
                            match q with
                            | Text c => not_char "{" c = true
                            | Match g =>
                                exists call_id row col,
                                  g = call_id +:+ "." +:+ row +:+ "." +:+ col
                                  /\ group_shape call_id row col
                            end) by (intros q Hq; apply Hpieces; now right).
  pose proof (Hpieces p (or_introl eq_refl)) as Hp.
  cbn [fold_left map]. rewrite !concat_empty_cons.
  destruct p as [c | g].
  - cbn [track_match piece_text resolved_piece].
    rewrite <- !string_app_assoc. apply IH; [exact Hrest |].
    intros g Hg Hgc. apply passes_app; [exact (Hdone g Hg Hgc) | now apply passes_char].
  - pose proof (group_no_brace g Hp) as Hgc.
    cbn [track_match piece_text resolved_piece fst snd]. unfold resolve_match.
    destruct (success (resolveSinglePlaceholder g cache)) eqn:Hg.
    + destruct (literal_text_parts _ (resolved_text_literal cache g Hliteral Hp Hg))
        as [Hopen Hdollar].
      rewrite (replace_string_at done g _ _ (Hdone g Hg Hgc) Hdollar).
      rewrite <- !string_app_assoc. apply IH; [exact Hrest |].
      intros g2 Hg2 Hg2c. apply passes_app; [exact (Hdone g2 Hg2 Hg2c) |].
      now apply passes_no_brace.
    + rewrite <- !string_app_assoc. apply IH; [exact Hrest |].
      intros g2 Hg2 Hg2c. apply passes_app; [exact (Hdone g2 Hg2 Hg2c) |].
      apply passes_other_group; [| assumption | assumption].
      intros ->. unfold resolves in Hg2. congruence.
Qed.

Lemma trackString_agrees (cache : DataCache) (s : string) (t : ResolutionTracking) :
  literal_cells cache -> plain_outside s = true ->
  fst (trackString cache s t) = resolveString cache s.
Proof.
  intros Hliteral Hs. unfold trackString, resolveString.
  destruct (match_single s) as [group |]; [now destruct (success _) |].
  pose proof (track_match_agrees cache (scan s) "" t Hliteral) as Hfold.
  rewrite scan_text in Hfold. cbn [String.append] in Hfold.
  destruct (fold_left (track_match cache) (scan s) (s, t)) as [text t']. cbn [fst] in *.
  rewrite Hfold; [reflexivity | |].
  - intros p Hp. unfold plain_outside in Hs. rewrite forallb_forall in Hs.
    specialize (Hs p Hp). destruct p as [c | g]; [exact Hs |].
    exact (scan_from_shape 0 s g Hp).
  - intros g _ _. apply passes_nil.
Qed.

Lemma resolveWithTracking_agrees (cache : DataCache) (data : any) (t : ResolutionTracking) :
  literal_cells cache -> plain_tree data = true ->
  fst (resolveWithTracking cache data t) = resolveInObject cache data.
Proof.
  intros Hliteral. revert t.
  induction data as [| | b | n | s | items IH | fields IH] using any_nested_ind;
    intros t Htree; try reflexivity.
  - destruct b; reflexivity.
  - cbn. destruct (negb (n =? 0)%Z); reflexivity.
  - cbn [resolveWithTracking resolveInObject plain_tree] in *.
    destruct (truthy (JStr s)) eqn:Htruthy; cbn [negb].
    + now apply trackString_agrees.
    + cbn in Htruthy. destruct (String.eqb_spec s ""); [subst; reflexivity | discriminate].
  - cbn [resolveWithTracking truthy negb resolveInObject plain_tree] in *.
    assert (Hfold : forall done t0,
               fst (fold_left (fun acc item =>
                                 let (v, t1) := resolveWithTracking cache item (snd acc) in
                                 (fst acc ++ [v], t1)) items (done, t0))
               = done ++ map (resolveInObject cache) items).
    { induction IH as [| x items Hx _ IHitems]; intros done t0.
      - cbn. now rewrite app_nil_r.
      - cbn [fold_left fst snd map]. cbn [forallb] in Htree.
        apply andb_true_iff in Htree as [Hxt Hrest].
        specialize (Hx t0 Hxt).
        destruct (resolveWithTracking cache x t0) as [v t1]. cbn [fst] in Hx. subst v.
        rewrite (IHitems Hrest). now rewrite <- app_assoc. }
    specialize (Hfold [] t).
    destruct (fold_left _ items ([], t)) as [items' t']. cbn [fst] in *. now rewrite Hfold.
  - cbn [resolveWithTracking truthy negb resolveInObject plain_tree] in *.
    assert (Hfold : forall done t0,
               fst (fold_left (fun acc kv =>
                                 match kv with
                                 | (key, x) =>
                                     let (v, t1) := resolveWithTracking cache x (snd acc) in
                                     (fst acc ++ [(key, v)], t1)
                                 end) fields (done, t0))
               = done ++ map (fun kv => match kv with
                                        | (key, v) => (key, resolveInObject cache v)
                                        end) fields).
    { induction IH as [| [key x] fields Hx _ IHfields]; intros done t0.
      - cbn. now rewrite app_nil_r.
      - cbn [fold_left fst snd map]. cbn [forallb snd] in Htree, Hx.
        apply andb_true_iff in Htree as [Hxt Hrest].
        specialize (Hx t0 Hxt).
        destruct (resolveWithTracking cache x t0) as [v t1]. cbn [fst] in Hx. subst v.
        rewrite (IHfields Hrest). now rewrite <- app_assoc. }
    specialize (Hfold [] t).
    destruct (fold_left _ fields ([], t)) as [fields' t']. cbn [fst] in *. now rewrite Hfold.
Qed.

(** X21.  The two resolvers agree on literal tables: when the text of no
    cached cell holds an opening brace or a dollar sign, and the strings of
    the data hold no opening brace outside their placeholders, the data that
    [mcpp/resolve_placeholders] returns is the data that
    [resolveArgumentPlaceholders] returns. *)
Theorem endpoint_resolves_as_the_resolver
    (now : Z) (random36 : string) (dataCache : DataCache) (data : any)
    (usage_context : option McppUsageContext) (id : any)
    (tool : option Tool) (serverConfig : option McppServerConfig) :
  literal_cells dataCache ->
  plain_tree data = true ->
  match handleResolvePlaceholders now random36 dataCache
          (Some {| resolve_data := data; resolve_usage_context := usage_context |})
          id tool serverConfig with
  | Result r _ => resolved_data r = resolveArgumentPlaceholders data dataCache
  | Error _ _ _ _ => True
  end.
Proof.
  intros Hliteral Htree. unfold handleResolvePlaceholders.
  cbn [fmap option_fmap option_map default resolve_data Datatypes.id
         mbind option_bind resolve_usage_context].
  destruct (negb (truthy data)); [exact I |].
  pose proof (resolveWithTracking_agrees dataCache data no_tracking Hliteral Htree) as Hagree.
  fold no_tracking.
  destruct (resolveWithTracking dataCache data no_tracking) as [resolved t]. cbn [fst] in Hagree.
  destruct usage_context as [uc |]; [destruct serverConfig as [config |] |];
    try exact Hagree.
  destruct (negb (allowed (validateDataAccess now random36 tool uc config data)));
    [exact I | exact Hagree].
Qed.

Lemma t1_literal_cells : literal_cells t1.
Proof.
  intros call_id headers rows row v Hcache Hrow Hv. unfold t1 in Hcache.
  apply lookup_singleton_Some in Hcache as [_ Heq]. inversion Heq. subst. clear Heq.
  destruct Hrow as [<- | []].
  destruct Hv as [<- | [<- | []]]; reflexivity.
Defined.

Lemma endpoint_resolves_as_the_resolver_witness :
  literal_cells t1
  /\ plain_tree (JStr "User {t1.0.ID}/{t1.0.Age} {t1.0.Nope}") = true
  /\ match handleResolvePlaceholders 0 "0.abcdefghijk" t1
             (Some {| resolve_data := JStr "User {t1.0.ID}/{t1.0.Age} {t1.0.Nope}";
                      resolve_usage_context := None |})
             (JNum 1) None None with
     | Result r _ =>
         resolved_data r
         = resolveArgumentPlaceholders (JStr "User {t1.0.ID}/{t1.0.Age} {t1.0.Nope}") t1
     | Error _ _ _ _ => True
     end
  /\ resolveArgumentPlaceholders (JStr "User {t1.0.ID}/{t1.0.Age} {t1.0.Nope}") t1
     = JStr "User 1/42 {t1.0.Nope}".
Proof.
  split; [exact t1_literal_cells |]. split; [reflexivity |].
  split; [| vm_compute; reflexivity].
  apply (endpoint_resolves_as_the_resolver 0 "0.abcdefghijk" t1
           (JStr "User {t1.0.ID}/{t1.0.Age} {t1.0.Nope}") None (JNum 1) None None
           t1_literal_cells eq_refl).
Defined.

(** ** Table format *)

(** A key named like a member of [Object.prototype]: the header of its
    column and the cell of the item without that key are the inherited
    member, not strings. *)
Example inherited_header_and_cell :
  convertToTableFormat parse_address nothing_inherited constructor_records (inr []) [] true
  = Some {| table_headers := [TableText "a"; InheritedMember "constructor"];
            table_rows := [[TableText ""; TableText "x"];
                           [TableText "1"; InheritedMember "constructor"]] |}.
Proof. vm_compute. reflexivity. Qed.












(** ** Destinations that the configuration does not know *)

(** X23.  A destination for which [target_categories] has no entry of its
    own is not treated as external: for a tool that is not sensitive and
    does not always require consent, a request to a target that is not an
    LLM needs no consent, a transfer to an unknown server included, unless
    [any_transfer] is set.  The destination is a string, or absent, or an
    array when no trusted domain starts with [*.] (an array meets such a
    domain with a [TypeError]); a destination named like a member of
    [Object.prototype] is exempted as a category that requires no
    consent. *)
Theorem unknown_destination_needs_no_consent
    (tool : option Tool) (usageContext : Declared.McppUsageContext)
    (serverConfig : McppServerConfig) :
  let destination := Declared.destination (Declared.target usageContext) in
  (Declared.given destination = true ->
   target_categories (global_policies serverConfig) !! Declared.destination_text destination
   = None) ->
  (forall l, destination = Declared.ManyDestinations l ->
             existsb (fun domain => startsWith domain "*.")
               (trusted_domains (user_consent_settings (global_policies serverConfig)))
             = false) ->
  Declared.type (Declared.target usageContext) <> Llm ->
  default false (always_require_consent <$> tool_consent_overrides tool) = false ->
  default false (isSensitive <$> tool) = false ->
  any_transfer (require_consent_for (user_consent_settings (global_policies serverConfig)))
  = false
  \/ Declared.data_usage usageContext <> Transfer ->
  exists check,
    Declared.checkConsentRequired tool usageContext serverConfig = Some check
    /\ consent_required check = false.
Proof.
  cbv zeta. unfold Declared.checkConsentRequired.
  generalize (Declared.destination (Declared.target usageContext)). intros destination.
  intros Hunknown Harray Htype Halways Hsensitive Htransfer.
  destruct (bool_decide (Declared.data_usage usageContext = Display)
            && bool_decide (Declared.type (Declared.target usageContext) = Client));
    [eexists; split; reflexivity |].
  destruct (default false (never_require_consent <$> tool_consent_overrides tool));
    [eexists; split; reflexivity |].
  rewrite Halways.
  destruct (Declared.given destination) eqn:Hgiven; cbn [negb];
    [| eexists; split; reflexivity].
  specialize (Hunknown eq_refl).
  destruct (default false (_ <$> tool_consent_overrides tool ≫= allowed_without_consent));
    [eexists; split; reflexivity |].
  destruct (Declared.includes_destination _ destination); [eexists; split; reflexivity |].
  assert (Hloop : Declared.check_trusted_domains destination
                    (trusted_domains (user_consent_settings (global_policies serverConfig)))
                  <> Declared.TypeError).
  { destruct destination as [| d | l].
    - discriminate Hgiven.
    - rewrite check_trusted_domains_string. destruct (existsb (trusted_domain_matches d) _); cbn; discriminate.
    - rewrite check_trusted_domains_array, (Harray l eq_refl). cbn. discriminate. }
  destruct (Declared.check_trusted_domains destination _);
    [eexists; split; reflexivity | | contradiction].
  unfold Declared.get_property. rewrite Hunknown.
  destruct (includes Declared.Object_prototype (Declared.destination_text destination));
    [eexists; split; reflexivity |].
  cbn [Declared.own].
  assert (Hreasons : consent_reasons tool (Declared.data_usage usageContext)
                       (Declared.type (Declared.target usageContext))
                       (require_consent_for
                          (user_consent_settings (global_policies serverConfig))) None
                     = []).
  { unfold consent_reasons. rewrite Hsensitive, andb_false_r.
    assert (Hany : any_transfer
                     (require_consent_for
                        (user_consent_settings (global_policies serverConfig)))
                   && bool_decide (Declared.data_usage usageContext = Transfer) = false).
    { destruct Htransfer as [-> | Hnot]; [reflexivity |].
      case_bool_decide; [contradiction | apply andb_false_r]. }
    rewrite Hany.
    destruct (Declared.type (Declared.target usageContext));
      try contradiction; try reflexivity.
    cbn. rewrite andb_false_r. reflexivity. }
  rewrite Hreasons. eexists; split; reflexivity.
Qed.

Lemma unknown_destination_needs_no_consent_witness :
  target_categories (global_policies defaultMcppConfig) !! "files.example.org" = None
  /\ Declared.type (Declared.target (declared (usage Transfer Server "files.example.org")))
     <> Llm
  /\ default false (isSensitive <$> Some no_display_tool) = false
  /\ exists check,
       Declared.checkConsentRequired (Some no_display_tool)
         (declared (usage Transfer Server "files.example.org")) defaultMcppConfig
       = Some check
       /\ consent_required check = false.
Proof.
  assert (Hunknown : target_categories (global_policies defaultMcppConfig)
                     !! "files.example.org" = None) by (vm_compute; reflexivity).
  split; [exact Hunknown |]. split; [discriminate |]. split; [reflexivity |].
  apply (unknown_destination_needs_no_consent (Some no_display_tool)
           (declared (usage Transfer Server "files.example.org")) defaultMcppConfig).
  - intros _. exact Hunknown.
  - discriminate.
  - discriminate.
  - reflexivity.
  - reflexivity.
  - left. reflexivity.
Defined.

(** * Placeholder occurrences and the reference search *)

Lemma identifier_alphabet_id_char (c : ascii) :
  existsb (Ascii.eqb c) identifier_alphabet = true -> is_id_char c = true.
Proof.
  destruct c as [[] [] [] [] [] [] [] []]; vm_compute; intros H;
    first [reflexivity | discriminate H].
Qed.

Lemma identifier_spec (s : string) :
  identifier s = true -> s <> "" /\ all_chars is_id_char s = true.
Proof.
  unfold identifier. intros H. apply andb_true_iff in H as [Hne Hall]. split.
  - intros ->. discriminate Hne.
  - clear Hne. induction s as [| c s IH]; [reflexivity |].
    cbn [list_ascii_of_string forallb] in Hall. apply andb_true_iff in Hall as [Hc Hall].
    cbn [all_chars]. rewrite (identifier_alphabet_id_char c Hc), (IH Hall). reflexivity.
Qed.

Lemma row_number_spec (row : string) (i : nat) :
  row_number row = Some i ->
  row <> "" /\ all_chars is_digit row = true /\ digits_value row = Z.of_nat i.
Proof.
  unfold row_number. destruct (String.eqb_spec row "") as [| Hne]; [discriminate |].
  destruct (NilEmpty.uint_of_string row) as [u |] eqn:Hu; [| discriminate].
  cbn. intros H. inversion H. subst i. clear H.
  apply NilEmpty.sus in Hu. subst row.
  split; [exact Hne |]. split; [apply all_digits_of_uint |].
  rewrite digits_value_of_uint. unfold Z.of_uint, N.of_uint. lia.
Qed.

(** [span] stops at a character outside the class, whatever precedes it. *)
Lemma span_stop (p : ascii -> bool) (x : string) (c : ascii) (r : string) :
  p c = false ->
  span p (x +:+ String c r) = (fst (span p x), snd (span p x) +:+ String c r).
Proof.
  intros Hc. induction x as [| y x IH]; cbn [String.append span].
  - rewrite Hc. reflexivity.
  - destruct (p y); [| reflexivity].
    rewrite IH. destruct (span p x) as [u v]. reflexivity.
Qed.

(** A match of the grammar never runs over an opening brace: in front of
    one, the matcher finds what it finds in the text before it. *)
Lemma match_group_before_brace (x r : string) :
  match_group (x +:+ String "{" r)
  = (fun gr => (fst gr, snd gr +:+ String "{" r)) <$> match_group x.
Proof.
  unfold match_group.
  rewrite (span_stop is_id_char x "{" r eq_refl).
  destruct (span is_id_char x) as [id r1]. cbn [fst snd].
  destruct (String.eqb id ""); [reflexivity |].
  destruct r1 as [| c1 r2]; [reflexivity |].
  cbn [String.append].
  destruct (Ascii.eqb_spec c1 "."); [subst c1 | now destruct c1 as [[] [] [] [] [] [] [] []]].
  rewrite (span_stop is_digit r2 "{" r eq_refl).
  destruct (span is_digit r2) as [row r3]. cbn [fst snd].
  destruct (String.eqb row ""); [reflexivity |].
  destruct r3 as [| c3 r4]; [reflexivity |].
  cbn [String.append].
  destruct (Ascii.eqb_spec c3 "."); [subst c3 | now destruct c3 as [[] [] [] [] [] [] [] []]].
  rewrite (span_stop is_id_char r4 "{" r eq_refl).
  destruct (span is_id_char r4) as [col r5]. cbn [fst snd].
  destruct (String.eqb col ""); reflexivity.
Qed.

Lemma match_placeholder_before_brace (c : ascii) (x r : string) :
  match_placeholder (String c x +:+ String "{" r)
  = (fun gr => (fst gr, snd gr +:+ String "{" r)) <$> match_placeholder (String c x).
Proof.
  cbn [String.append]. unfold match_placeholder.
  destruct (Ascii.eqb_spec c "{"); [subst c | now destruct c as [[] [] [] [] [] [] [] []]].
  rewrite match_group_before_brace.
  destruct (match_group x) as [[g rest] |]; [| reflexivity].
  cbn [fmap option_fmap option_map fst snd].
  destruct rest as [| c1 rest]; [reflexivity |].
  cbn [String.append].
  destruct (Ascii.eqb_spec c1 "}"); [subst c1 | now destruct c1 as [[] [] [] [] [] [] [] []]].
  reflexivity.
Qed.

(** The scan of a text in front of an opening brace is the scan of the text
    alone. *)
Lemma scan_from_before_brace (a r : string) (skip : nat) :
  (skip <= String.length a)%nat ->
  scan_from skip (a +:+ String "{" r) = scan_from skip a ++ scan (String "{" r).
Proof.
  revert skip. induction a as [| c a IH]; intros skip Hskip.
  - cbn [String.length] in Hskip. replace skip with 0%nat by lia. reflexivity.
  - destruct skip as [| k].
    + change (scan_from 0 (String c a +:+ String "{" r))
        with (match match_placeholder (String c a +:+ String "{" r) with
              | Some (group, _) =>
                  Match group :: scan_from (String.length group + 1) (a +:+ String "{" r)
              | None => Text c :: scan_from 0 (a +:+ String "{" r)
              end).
      change (scan_from 0 (String c a))
        with (match match_placeholder (String c a) with
              | Some (group, _) => Match group :: scan_from (String.length group + 1) a
              | None => Text c :: scan_from 0 a
              end).
      rewrite match_placeholder_before_brace.
      destruct (match_placeholder (String c a)) as [[g rest] |] eqn:Hm;
        cbn [fmap option_fmap option_map fst snd].
      * rewrite <- app_comm_cons. f_equal. apply IH.
        apply match_placeholder_spec in Hm as (Hs & _).
        unfold braces in Hs. cbn [String.append] in Hs. inversion Hs as [Ha].
        rewrite !string_app_length. cbn [String.length]. lia.
      * rewrite <- app_comm_cons. f_equal. apply IH. lia.
    + cbn [String.append scan_from]. apply IH. cbn [String.length] in Hskip. lia.
Qed.

(** A placeholder is found wherever it stands: the scan of a string around
    an occurrence is the scan of what precedes it, the occurrence, and the
    scan of what follows it. *)
Lemma scan_occurrence (a b call_id row col : string) :
  group_shape call_id row col ->
  scan (a +:+ braces (call_id +:+ "." +:+ row +:+ "." +:+ col) +:+ b)
  = scan a ++ Match (call_id +:+ "." +:+ row +:+ "." +:+ col) :: scan b.
Proof.
  intros Hshape.
  pose proof (match_placeholder_complete call_id row col b Hshape) as Hm.
  pose proof (scan_match _ _ _ Hm) as Hscan.
  remember (call_id +:+ "." +:+ row +:+ "." +:+ col) as group eqn:Hg.
  assert (Htext : braces group +:+ b = String "{" (group +:+ "}" +:+ b)).
  { unfold braces. cbn [String.append]. now rewrite string_app_assoc. }
  rewrite Htext in *. unfold scan at 1.
  rewrite (scan_from_before_brace a _ 0) by lia. now rewrite Hscan.
Qed.

Lemma replace_callback_occurrence
    (callback : string -> string -> string) (a b call_id row col : string) :
  group_shape call_id row col ->
  let group := call_id +:+ "." +:+ row +:+ "." +:+ col in
  replace_callback callback (a +:+ braces group +:+ b)
  = replace_callback callback a +:+ callback (braces group) group
    +:+ replace_callback callback b.
Proof.
  intros Hshape group. subst group. unfold replace_callback.
  rewrite (scan_occurrence a b call_id row col Hshape).
  rewrite map_app, concat_empty_app. cbn [map]. rewrite concat_empty_cons. reflexivity.
Qed.

(** A string around an occurrence is not one placeholder, unless it is the
    occurrence alone. *)
Lemma match_single_occurrence (a b call_id row col : string) :
  group_shape call_id row col ->
  a <> "" \/ b <> "" ->
  match_single (a +:+ braces (call_id +:+ "." +:+ row +:+ "." +:+ col) +:+ b) = None.
Proof.
  intros Hshape Hab. unfold match_single.
  destruct a as [| c a].
  - change ("" +:+ braces (call_id +:+ "." +:+ row +:+ "." +:+ col) +:+ b)
      with (braces (call_id +:+ "." +:+ row +:+ "." +:+ col) +:+ b).
    rewrite (match_placeholder_complete call_id row col b Hshape).
    destruct b; [| reflexivity]. destruct Hab as [H | H]; contradiction.
  - remember (call_id +:+ "." +:+ row +:+ "." +:+ col) as group eqn:Hg.
    assert (Htext : braces group +:+ b = String "{" (group +:+ "}" +:+ b)).
    { unfold braces. cbn [String.append]. now rewrite string_app_assoc. }
    rewrite Htext, match_placeholder_before_brace.
    destruct (match_placeholder (String c a)) as [[g rest] |]; [| reflexivity].
    cbn [fmap option_fmap option_map fst snd]. destruct rest; reflexivity.
Qed.

(** The text of a resolved string is the result of the global replacement,
    also when the string is one placeholder. *)
Lemma toString_resolveString (cache : DataCache) (x : string) :
  toString (resolveString cache x) = replace_callback (resolve_match cache) x.
Proof.
  unfold resolveString.
  destruct (match_single x) as [group |] eqn:Hsingle; [| reflexivity].
  destruct (match_single_spec _ _ Hsingle) as [Hx Hscan].
  unfold replace_callback. rewrite Hscan. cbn [map String.concat].
  unfold resolve_match. rewrite <- Hx.
  destruct (success (resolveSinglePlaceholder group cache)); reflexivity.
Qed.

Lemma plain_text_no_open_brace (x : string) : plain_text x -> no_open_brace x = true.
Proof.
  unfold plain_text, no_open_brace. induction x as [| c x IH]; intros H; [reflexivity |].
  cbn [all_chars]. rewrite IH by (intros c' Hc'; apply H; now right).
  assert (Hc : c <> "{"%char) by (apply H; now left).
  unfold not_char. destruct (Ascii.eqb_spec c "{"); [contradiction | reflexivity].
Qed.

Lemma plain_text_resolved (cache : DataCache) (x : string) :
  plain_text x -> resolveString cache x = JStr x.
Proof.
  intros Hx. apply resolveString_unresolved. intros group Hin.
  destruct (scan_no_brace x group (plain_text_no_open_brace x Hx) Hin).
Qed.

(** The first column with a given header is the one [indexOf] finds. *)
Lemma indexOf_first (headers : list string) (col : string) (j : nat) :
  headers !! j = Some col ->
  (forall j', (j' < j)%nat -> headers !! j' <> Some col) ->
  indexOf headers col = Z.of_nat j.
Proof.
  intros Hj Hfirst.
  destruct (indexOf_found headers col) as [[_ Hnot] | [Hpos Hfound]].
  - exfalso. apply Hnot. apply list_elem_of_In. eapply list_elem_of_lookup_2. exact Hj.
  - assert (Hle : (Z.to_nat (indexOf headers col) <= j)%nat).
    { clear Hfirst Hfound Hpos. revert j Hj.
      induction headers as [| y l IH]; intros j Hj; [discriminate |].
      cbn [indexOf]. destruct (String.eqb_spec y col); [cbn; lia |].
      destruct j as [| j]; [cbn in Hj; congruence |].
      cbn in Hj. specialize (IH j Hj).
      destruct (Z.eqb_spec (indexOf l col) (-1)); lia. }
    destruct (Nat.eq_dec (Z.to_nat (indexOf headers col)) j) as [Heq | Hne]; [lia |].
    exfalso. apply (Hfirst (Z.to_nat (indexOf headers col))); [lia | exact Hfound].
Qed.

(** C7.  A placeholder [{call_id.row.col}], with [call_id] and [col]
    identifiers over [[A-Za-z0-9_-]] and [row] the decimal numeral of the
    row index [i], resolves exactly when the cache holds a table under
    [call_id], [col] is one of its headers and [i] is within its rows.
    - When it resolves, a string that is this placeholder and nothing else
      becomes the cell of row [i] in the first column headed [col], as the
      value it is and not as its text; among text without braces the
      occurrence becomes the text of that cell.
    - When it does not resolve, the placeholder text stays as it is, alone
      and among text without braces.
    - In any string, the text around an occurrence is resolved on its own:
      the result is the text of what the part before resolves to, then the
      text of what the placeholder alone resolves to, then the text of what
      the part after resolves to.
    - A string without braces is kept.
    - The occurrences inside arrays and objects are resolved in place: an
      array becomes the array of its resolved elements, and an object
      without the key [__proto__] the object of its resolved values under
      the same keys.
    The text of a cell is taken where it is the text JavaScript prints:
    for cells whose numbers are safe integers. *)
Theorem placeholder_resolution
    (cache : DataCache) (call_id row col : string) (i : nat) :
  identifier call_id = true ->
  row_number row = Some i ->
  identifier col = true ->
  let text := placeholder_text call_id row col in
  let resolve (x : string) := resolveArgumentPlaceholders (JStr x) cache in
  let found :=
    exists headers rows,
      cache !! call_id = Some (TableData headers rows)
      /\ In col headers /\ (i < length rows)%nat in
  (success (resolveSinglePlaceholder (call_id +:+ "." +:+ row +:+ "." +:+ col) cache) = true
   <-> found)
  /\ (forall headers rows cells j,
         cache !! call_id = Some (TableData headers rows) ->
         rows !! i = Some cells ->
         headers !! j = Some col ->
         (forall j', (j' < j)%nat -> headers !! j' <> Some col) ->
         let v := default JUndefined (cells !! j) in
         resolve text = v
         /\ (safe_integers v = true ->
             forall a b, a <> "" \/ b <> "" -> plain_text a -> plain_text b ->
                         resolve (a +:+ text +:+ b) = JStr (a +:+ toString v +:+ b)))
  /\ (~ found ->
      resolve text = JStr text
      /\ forall a b, plain_text a -> plain_text b ->
                     resolve (a +:+ text +:+ b) = JStr (a +:+ text +:+ b))
  /\ (safe_cells cache ->
      forall a b, a <> "" \/ b <> "" ->
                  resolve (a +:+ text +:+ b)
                  = JStr (toString (resolve a) +:+ toString (resolve text)
                          +:+ toString (resolve b)))
  /\ (forall x, plain_text x -> resolve x = JStr x)
  /\ (forall items,
         resolveArgumentPlaceholders (JArr items) cache
         = JArr (map (fun x => resolveArgumentPlaceholders x cache) items))
  /\ (forall fields,
         Forall (fun kv => fst kv <> "__proto__") fields ->
         resolveArgumentPlaceholders (JObj fields) cache
         = JObj (map (fun kv => (fst kv, resolveArgumentPlaceholders (snd kv) cache)) fields)).
Proof.
  intros Hid Hrow Hcol text resolve found.
  apply identifier_spec in Hid as [Hid Hidc].
  apply identifier_spec in Hcol as [Hcol Hcolc].
  apply row_number_spec in Hrow as (Hrow & Hrowc & Hvalue).
  assert (Hshape : group_shape call_id row col) by (repeat split; assumption).
  set (group := call_id +:+ "." +:+ row +:+ "." +:+ col).
  assert (Htext : text = braces group).
  { unfold text, placeholder_text, braces, group.
    repeat first [rewrite string_app_assoc | progress cbn [String.append]]. reflexivity. }
  assert (Hsingle : match_single text = Some group).
  { rewrite Htext. unfold match_single.
    rewrite <- (string_app_nil_r (braces group)).
    unfold group. now rewrite (match_placeholder_complete call_id row col "" Hshape). }
  assert (Hsole : resolve text
                  = if success (resolveSinglePlaceholder group cache)
                    then value (resolveSinglePlaceholder group cache) else JStr text).
  { unfold resolve, resolveArgumentPlaceholders. cbn [resolveInObject].
    unfold resolveString. now rewrite Hsingle. }
  assert (Hembedded : forall a b, a <> "" \/ b <> "" ->
            resolve (a +:+ text +:+ b)
            = JStr (toString (resolve a) +:+ toString (resolve text)
                    +:+ toString (resolve b))).
  { intros a b Hab. unfold resolve, resolveArgumentPlaceholders. cbn [resolveInObject].
    rewrite !toString_resolveString.
    unfold resolveString at 1. rewrite Htext.
    unfold group. rewrite (match_single_occurrence a b call_id row col Hshape Hab).
    rewrite (replace_callback_occurrence (resolve_match cache) a b call_id row col Hshape).
    f_equal. f_equal. f_equal.
    fold group. unfold replace_callback.
    rewrite <- Htext, (proj2 (match_single_spec _ _ Hsingle)).
    cbn [map String.concat]. now rewrite Htext. }
  assert (Hplain : forall x, plain_text x -> resolve x = JStr x).
  { intros x Hx. exact (plain_text_resolved cache x Hx). }
  assert (Hamong : forall a b, a <> "" \/ b <> "" -> plain_text a -> plain_text b ->
            resolve (a +:+ text +:+ b) = JStr (a +:+ toString (resolve text) +:+ b)).
  { intros a b Hab Ha Hb.
    rewrite (Hembedded a b Hab), (Hplain a Ha), (Hplain b Hb). reflexivity. }
  pose proof (resolveSinglePlaceholder_group cache call_id row col Hshape) as Hgroup.
  fold group in Hgroup. rewrite Hvalue, Nat2Z.id in Hgroup.
  assert (Hiff : success (resolveSinglePlaceholder group cache) = true <-> found).
  { rewrite Hgroup. unfold found.
    destruct (cache !! call_id) as [[headers rows | |] |] eqn:Hcache; cbn.
    2-4: split; [discriminate | intros (h & r & Heq & _); discriminate].
    destruct (Z.eqb_spec (indexOf headers col) (-1)) as [Hi | Hi].
    { split; [discriminate |].
      intros (h & r & Heq & Hin & _). inversion Heq. subst.
      apply indexOf_In in Hin. contradiction. }
    destruct (rows !! i) as [cells |] eqn:Hcells; cbn.
    - split; [intros _ | reflexivity].
      exists headers, rows. repeat split.
      + now apply indexOf_In.
      + now apply lookup_lt_Some in Hcells.
    - split; [discriminate |].
      intros (h & rs & Heq & _ & Hlt). inversion Heq. subst.
      apply lookup_ge_None in Hcells. lia. }
  split; [exact Hiff |]. split; [| split; [| split; [| split; [| split]]]].
  - intros headers rows cells j Hcache Hcells Hj Hfirst v.
    assert (Hresult : resolveSinglePlaceholder group cache = {| success := true; value := v |}).
    { rewrite Hgroup, Hcache, Hcells, (indexOf_first headers col j Hj Hfirst).
      destruct (Z.eqb_spec (Z.of_nat j) (-1)); [lia |].
      unfold v, cell. now rewrite Nat2Z.id. }
    rewrite Hresult in Hsole. cbn [success value] in Hsole.
    split; [exact Hsole |].
    intros _ a b Hab Ha Hb. rewrite (Hamong a b Hab Ha Hb), Hsole. reflexivity.
  - intros Hnot.
    assert (Hfail : success (resolveSinglePlaceholder group cache) = false).
    { destruct (success (resolveSinglePlaceholder group cache)) eqn:Hs; [| reflexivity].
      exfalso. apply Hnot. apply Hiff. reflexivity. }
    rewrite Hfail in Hsole. split; [exact Hsole |].
    intros a b Ha Hb.
    destruct (String.eqb_spec a "") as [-> | Hane];
      [destruct (String.eqb_spec b "") as [-> | Hbne] |].
    + change ("" +:+ text +:+ "") with (text +:+ ""). rewrite string_app_nil_r. exact Hsole.
    + rewrite (Hamong "" b (or_intror Hbne) Ha Hb), Hsole. reflexivity.
    + rewrite (Hamong a b (or_introl Hane) Ha Hb), Hsole. reflexivity.
  - intros _. exact Hembedded.
  - exact Hplain.
  - reflexivity.
  - intros fields Hfields. unfold resolveArgumentPlaceholders. cbn [resolveInObject].
    f_equal. rewrite assigned_proto_free.
    + apply map_ext. intros [key v]. reflexivity.
    + clear -Hfields. induction Hfields as [| [key v] fields Hkey _ IH]; [reflexivity |].
      cbn [map forallb fst]. rewrite IH, andb_true_r. cbn [fst] in Hkey.
      destruct (String.eqb_spec key "__proto__"); [contradiction | reflexivity].
Qed.

Lemma placeholder_resolution_witness :
  identifier "t1" = true
  /\ row_number "0" = Some 0%nat
  /\ identifier "Age" = true
  /\ resolveArgumentPlaceholders (JStr "{t1.0.Age}") t1 = JNum 42
  /\ resolveArgumentPlaceholders (JStr "Age: {t1.0.Age} years") t1 = JStr "Age: 42 years".
Proof.
  split; [reflexivity |]. split; [reflexivity |]. split; [reflexivity |].
  pose proof (placeholder_resolution t1 "t1" "0" "Age" 0 eq_refl eq_refl eq_refl)
    as (_ & Hfound & _).
  assert (Hfirst : forall j', (j' < 1)%nat -> ["ID"; "Age"] !! j' <> Some "Age").
  { intros j' Hj'. replace j' with 0%nat by lia. discriminate. }
  destruct (Hfound ["ID"; "Age"] [[JStr "1"; JNum 42]] [JStr "1"; JNum 42] 1%nat
              ltac:(vm_compute; reflexivity) eq_refl eq_refl Hfirst) as [Hsole Hamong].
  split; [exact Hsole |].
  apply (Hamong eq_refl "Age: " " years").
  - left. discriminate.
  - intros c Hc. cbn in Hc. intuition (subst; discriminate).
  - intros c Hc. cbn in Hc. intuition (subst; discriminate).
Defined.

(** ** The cells that the reference finder scans *)

Lemma concat_imap_lookup_inv {A B : Type} (f : nat -> A -> list B) (l : list A)
    (n k : nat) (z : B) :
  (forall i y, length (f i y) = n) ->
  concat (imap f l) !! k = Some z ->
  exists i j x, l !! i = Some x /\ (j < n)%nat /\ k = (i * n + j)%nat /\ f i x !! j = Some z.
Proof.
  intros Hlen. revert f Hlen k. induction l as [| y l IH]; intros f Hlen k Hk.
  - discriminate.
  - cbn [imap concat] in Hk. destruct (Nat.lt_ge_cases k n) as [Hlt | Hge].
    + rewrite lookup_app_l in Hk by (rewrite Hlen; exact Hlt).
      exists 0%nat, k, y. repeat split; first [exact Hlt | exact Hk | lia].
    + rewrite lookup_app_r in Hk by (rewrite Hlen; exact Hge). rewrite Hlen in Hk.
      destruct (IH (f ∘ S) (fun i y => Hlen (S i) y) (k - n)%nat Hk)
        as (i & j & x & Hi & Hj & Hkn & Hz).
      exists (S i), j, x. repeat split; first [exact Hi | exact Hj | exact Hz | lia].
Qed.

(** The [k]-th cell of the scan of every column is the cell of row [k / n]
    in column [k mod n], for [n] headers. *)
Lemma scanned_cells_all_inv (headers : list string) (rows : list (list any))
    (k i : nat) (header : string) (c : any) :
  scanned_cells headers rows None !! k = Some (i, header, c) ->
  exists cells j,
    rows !! i = Some cells /\ headers !! j = Some header /\ c = cell cells j
    /\ k = (i * length headers + j)%nat.
Proof.
  unfold scanned_cells. intros Hk.
  apply (concat_imap_lookup_inv _ rows (length headers)) in Hk
    as (i' & j & cells & Hi & Hj & -> & Hcell); [| intros; apply length_imap].
  rewrite list_lookup_imap in Hcell.
  destruct (headers !! j) as [h |] eqn:Hh; [| discriminate].
  cbn in Hcell. inversion Hcell. subst. exists cells, j. auto.
Qed.

Lemma scanned_cells_column_inv (headers : list string) (rows : list (list any))
    (j0 k i : nat) (header : string) (c : any) :
  scanned_cells headers rows (Some j0) !! k = Some (i, header, c) ->
  exists cells,
    rows !! i = Some cells /\ header = default "undefined" (headers !! j0)
    /\ c = cell cells j0 /\ k = i.
Proof.
  unfold scanned_cells. rewrite list_lookup_imap. intros Hk.
  destruct (rows !! k) as [cells |] eqn:Hrow; [| discriminate].
  cbn in Hk. inversion Hk. subst. exists cells. auto.
Qed.

(** [indexOf] finds the first occurrence. *)
Lemma indexOf_le (headers : list string) (col : string) (j : nat) :
  headers !! j = Some col -> (0 <= indexOf headers col <= Z.of_nat j)%Z.
Proof.
  revert j. induction headers as [| y l IH]; intros j Hj; [discriminate |].
  cbn [indexOf]. destruct (String.eqb_spec y col); [lia |].
  destruct j as [| j]; [cbn in Hj; congruence |].
  cbn in Hj. specialize (IH j Hj).
  destruct (Z.eqb_spec (indexOf l col) (-1)); lia.
Qed.

(** C9, as stated, fails on a cached table: without keyword, under the
    empty id, or with a column name that is not a header, no cell is
    scanned and the answer is [INVALID_PARAMS] (-32602), not
    [REFERENCE_NOT_FOUND] (-32002), although no cell of the table is
    similar to the keyword above the threshold. *)
Lemma find_reference_guards_counterexample :
  let table := TableData ["Name"; "Email"]
                 [[JStr "Ana Silva"; JStr "a@x"]; [JStr "Bo Park"; JStr "b@y"]] in
  let request (cache : DataCache) (call_id keyword column : string) :=
    handleFindReference exact_similarity cache
      (Some {| find_tool_call_id := JStr call_id; find_keyword := keyword;
               find_column_name := column |}) (JNum 3) in
  let below (keyword : string) :=
    forallb (fun c => negb (Qgtb (exact_similarity (toLowerCase keyword)
                                    (toLowerCase (toString c))) (7 # 10)))
      [JStr "Ana Silva"; JStr "a@x"; JStr "Bo Park"; JStr "b@y"] in
  contacts_cache !! "t1" = Some table
  /\ below "" = true
  /\ request contacts_cache "t1" "" ""
     = Error (Some (-32602)%Z) (Some "Missing tool_call_id or keyword parameter")
         NoErrorData (JNum 3)
  /\ below "zzzz" = true
  /\ request contacts_cache "t1" "zzzz" "Phone"
     = Error (Some (-32602)%Z) (Some "Invalid params: column 'Phone' not found")
         (InvalidColumn "Phone" ["Name"; "Email"]) (JNum 3)
  /\ request {[ "" := table ]} "" "zzzz" ""
     = Error (Some (-32602)%Z) (Some "Missing tool_call_id or keyword parameter")
         NoErrorData (JNum 3)
  /\ MCPP_ERRORS.REFERENCE_NOT_FOUND = (-32002)%Z.
Proof. vm_compute. repeat split; reflexivity. Qed.

(** C9, amended.  For a table cached under a non-empty id, a non-empty
    keyword and a column name that is absent or one of the headers, the
    cells scanned are those of every row, in every column or in the first
    column headed by the name; the similarity of a cell is the Jaro-Winkler
    similarity of the keyword in lower case to the text of the cell in
    lower case.  [find_reference] returns a placeholder only with a
    similarity strictly above 0.7; that similarity is the greatest over the
    scanned cells, and the placeholder names the first cell that reaches
    it, rows in order and within a row the headers in order.  Otherwise no
    scanned cell is above 0.7 and the answer is [REFERENCE_NOT_FOUND]
    (-32002) with the best similarity observed, the initial -1 when no cell
    was scanned.  The text of a cell is the text JavaScript prints: its
    numbers are safe integers. *)
Theorem find_reference_best_match
    (jaroWinkler : string -> string -> Q) (dataCache : DataCache)
    (call_id keyword column : string) (id : any)
    (headers : list string) (rows : list (list any)) :
  call_id <> "" ->
  keyword <> "" ->
  dataCache !! call_id = Some (TableData headers rows) ->
  column = "" \/ In column headers ->
  (forall cells v, In cells rows -> In v cells -> safe_integers v = true) ->
  let similarity_of (cells : list any) (j : nat) : Q :=
    jaroWinkler (toLowerCase keyword)
      (toLowerCase (toString (default JUndefined (cells !! j)))) in
  let scanned (i j : nat) (cells : list any) (header : string) : Prop :=
    rows !! i = Some cells /\ headers !! j = Some header
    /\ (column = ""
        \/ header = column /\ forall j', (j' < j)%nat -> headers !! j' <> Some column) in
  match handleFindReference jaroWinkler dataCache
          (Some {| find_tool_call_id := JStr call_id; find_keyword := keyword;
                   find_column_name := column |}) id with
  | Result r _ =>
      (7 # 10 < ref_similarity r)%Q
      /\ exists i j cells header,
           scanned i j cells header
           /\ ref_placeholder r
              = "{" +:+ call_id +:+ "." +:+ string_of_Z (Z.of_nat i) +:+ "." +:+ header +:+ "}"
           /\ ref_similarity r = similarity_of cells j
           /\ (forall i' j' cells' header',
                  scanned i' j' cells' header' ->
                  (similarity_of cells' j' <= ref_similarity r)%Q)
           /\ (forall i' j' cells' header',
                  scanned i' j' cells' header' ->
                  (i' < i)%nat \/ i' = i /\ (j' < j)%nat ->
                  (similarity_of cells' j' < ref_similarity r)%Q)
  | Error code _ data _ =>
      code = Some (-32002)%Z
      /\ (forall i j cells header,
             scanned i j cells header -> (similarity_of cells j <= 7 # 10)%Q)
      /\ exists best,
           data = NoReference keyword (7 # 10) best (length rows) (length headers)
           /\ (forall i j cells header,
                  scanned i j cells header -> (similarity_of cells j <= best)%Q)
           /\ (best = (-1) # 1
               \/ exists i j cells header,
                    scanned i j cells header /\ similarity_of cells j = best)
  end.
Proof.
  intros Hid Hkeyword Hcached Hcolumn _ similarity_of scanned.
  set (colIndex := requested_column headers column).
  set (cells_list := scanned_cells headers rows colIndex).
  assert (Hresponse :
    handleFindReference jaroWinkler dataCache
      (Some {| find_tool_call_id := JStr call_id; find_keyword := keyword;
               find_column_name := column |}) id
    = searchTable jaroWinkler (JStr call_id) keyword headers rows colIndex id).
  { unfold handleFindReference.
    cbn [find_tool_call_id find_keyword find_column_name truthy].
    destruct (String.eqb_spec call_id ""); [contradiction |].
    destruct (String.eqb_spec keyword ""); [contradiction |].
    cbn [negb orb cache_get]. rewrite Hcached.
    unfold colIndex, requested_column.
    destruct (String.eqb_spec column "") as [Hempty | Hnamed]; [reflexivity |].
    destruct Hcolumn as [Hc | Hin]; [contradiction |].
    apply indexOf_In in Hin.
    destruct (Z.eqb_spec (indexOf headers column) (-1)); [contradiction | reflexivity]. }
  (* the scanned cells, by position in the list and by row and column *)
  assert (Hto : forall k i header c,
            cells_list !! k = Some (i, header, c) ->
            exists j cells,
              scanned i j cells header /\ c = cell cells j
              /\ forall i' j' cells' header',
                   scanned i' j' cells' header' ->
                   (i' < i)%nat \/ i' = i /\ (j' < j)%nat ->
                   exists k', (k' < k)%nat
                              /\ cells_list !! k' = Some (i', header', cell cells' j')).
  { intros k i header c Hk. unfold cells_list, colIndex, requested_column in *.
    destruct (String.eqb_spec column "") as [Hempty | Hnamed].
    - apply scanned_cells_all_inv in Hk as (cells & j & Hi & Hj & -> & ->).
      exists j, cells. split; [repeat split; auto |]. split; [reflexivity |].
      intros i' j' cells' header' (Hi' & Hj' & _) Hlt.
      exists (i' * length headers + j')%nat. split.
      + apply lookup_lt_Some in Hj, Hj'. nia.
      + exact (scanned_cells_all headers rows i' j' cells' header' Hi' Hj').
    - destruct Hcolumn as [Hc | Hin]; [contradiction |].
      destruct (indexOf_found headers column) as [[_ Hnot] | [Hpos Hj0]]; [contradiction |].
      assert (Hfirst0 : forall j', (j' < Z.to_nat (indexOf headers column))%nat ->
                                   headers !! j' <> Some column).
      { intros j' Hlt Hj'. pose proof (indexOf_le headers column j' Hj'). lia. }
      apply scanned_cells_column_inv in Hk as (cells & Hi & Hheader & -> & ->).
      rewrite Hj0 in Hheader. cbn in Hheader. subst header.
      exists (Z.to_nat (indexOf headers column)), cells.
      split; [repeat split; auto |]. split; [reflexivity |].
      intros i' j' cells' header' (Hi' & Hj' & Hscope) Hlt.
      destruct Hscope as [Hc | [-> Hfirst']]; [contradiction |].
      pose proof (indexOf_first headers column j' Hj' Hfirst') as Hsame.
      assert (Hj'0 : j' = Z.to_nat (indexOf headers column)) by lia. subst j'.
      exists i'. split; [lia |].
      exact (scanned_cells_column headers rows i' _ cells' column Hi' Hj0). }
  assert (Hfrom : forall i j cells header,
            scanned i j cells header -> In (i, header, cell cells j) cells_list).
  { intros i j cells header (Hi & Hj & Hscope).
    apply list_elem_of_In. unfold cells_list, colIndex, requested_column.
    destruct (String.eqb_spec column "") as [Hempty | Hnamed].
    - eapply list_elem_of_lookup_2. exact (scanned_cells_all headers rows i j cells header Hi Hj).
    - destruct Hscope as [Hc | [-> Hfirst']]; [contradiction |].
      rewrite (indexOf_first headers column j Hj Hfirst'), Nat2Z.id.
      eapply list_elem_of_lookup_2.
      exact (scanned_cells_column headers rows i j cells column Hi Hj). }
  rewrite Hresponse.
  pose proof (searchTable_answer jaroWinkler call_id keyword headers rows colIndex id)
    as Hanswer.
  fold cells_list in Hanswer.
  destruct (searchTable jaroWinkler (JStr call_id) keyword headers rows colIndex id)
    as [r id' | code message data id']; cbn [search_answer] in Hanswer.
  - destruct Hanswer as (Habove & Hmax & k & i & header & c & Hk & Hsim & Hp & _ & _ & Hfirst).
    split; [exact Habove |].
    destruct (Hto k i header c Hk) as (j & cells & Hscanned & -> & Hbefore).
    exists i, j, cells, header. split; [exact Hscanned |]. split; [exact Hp |].
    split; [exact Hsim |]. split.
    + intros i' j' cells' header' Hs.
      exact (Hmax _ (Hfrom i' j' cells' header' Hs)).
    + intros i' j' cells' header' Hs Hlt.
      destruct (Hbefore i' j' cells' header' Hs Hlt) as (k' & Hk' & Hcell).
      exact (Hfirst k' _ Hk' Hcell).
  - destruct Hanswer as (Hcode & Hbelow & best & Hdata & Hmax & Hbest & _).
    split; [exact Hcode |]. split.
    + intros i j cells header Hs. exact (Hbelow _ (Hfrom i j cells header Hs)).
    + exists best. split; [exact Hdata |]. split.
      * intros i j cells header Hs. exact (Hmax _ (Hfrom i j cells header Hs)).
      * destruct Hbest as [Hinit | (x & Hx & Hsim)]; [left; exact Hinit | right].
        apply list_elem_of_In, list_elem_of_lookup in Hx as [k Hk].
        destruct x as [[i header] c].
        destruct (Hto k i header c Hk) as (j & cells & Hscanned & -> & _).
        exists i, j, cells, header. split; [exact Hscanned | exact Hsim].
Qed.

Lemma find_reference_best_match_witness :
  "t1" <> ""
  /\ "ana silva" <> ""
  /\ contacts_cache !! "t1"
     = Some (TableData ["Name"; "Email"]
               [[JStr "Ana Silva"; JStr "a@x"]; [JStr "Bo Park"; JStr "b@y"]])
  /\ ("" = "" \/ In "" ["Name"; "Email"])
  /\ Forall (Forall (fun v => safe_integers v = true))
       [[JStr "Ana Silva"; JStr "a@x"]; [JStr "Bo Park"; JStr "b@y"]]
  /\ exists r,
       handleFindReference exact_similarity contacts_cache
         (Some {| find_tool_call_id := JStr "t1"; find_keyword := "ana silva";
                  find_column_name := "" |}) (JNum 3)
       = Result r (JNum 3)
       /\ ref_placeholder r = "{t1.0.Name}"
       /\ (7 # 10 < ref_similarity r)%Q.
Proof.
  split; [discriminate |]. split; [discriminate |]. split; [vm_compute; reflexivity |].
  split; [left; reflexivity |]. split; [repeat constructor |].
  assert (Hresponse :
    handleFindReference exact_similarity contacts_cache
      (Some {| find_tool_call_id := JStr "t1"; find_keyword := "ana silva";
               find_column_name := "" |}) (JNum 3)
    = Result {| ref_placeholder := "{t1.0.Name}";
                ref_message := "A match was found in column Name at row 0";
                ref_similarity := 1;
                ref_metadata := {| meta_tool_call_id := JStr "t1"; row_index := 0;
                                   column_name := "Name";
                                   keyword_searched := "ana silva" |} |} (JNum 3)).
  { vm_compute. reflexivity. }
  assert (Hsafe : forall cells v,
            In cells [[JStr "Ana Silva"; JStr "a@x"]; [JStr "Bo Park"; JStr "b@y"]] ->
            In v cells -> safe_integers v = true).
  { intros cells v Hcells Hv. cbn in Hcells.
    destruct Hcells as [<- | [<- | []]]; cbn in Hv; intuition (subst; reflexivity). }
  pose proof (find_reference_best_match exact_similarity contacts_cache
                "t1" "ana silva" "" (JNum 3) ["Name"; "Email"]
                [[JStr "Ana Silva"; JStr "a@x"]; [JStr "Bo Park"; JStr "b@y"]]
                ltac:(discriminate) ltac:(discriminate) ltac:(vm_compute; reflexivity)
                (or_introl eq_refl) Hsafe) as Hbest.
  cbv zeta in Hbest. rewrite Hresponse in Hbest. destruct Hbest as (Habove & _).
  eexists. split; [exact Hresponse |]. split; [reflexivity | exact Habove].
Defined.
